(** * Remodra: the routes layer of the contractor back office

    A shallow embedding of the Express handlers of [server/routes.ts]
    (estimate acceptance and conversion, invoice payment, project
    cancellation, client creation and lookup, agent scheduling) together
    with the properties the specification states about them, followed by
    further routes of the same file (invoice cancellation and items, agent
    deletion and availability, subscriptions and billing, the checks of the
    job-cost analysis), the request log and the health monitoring of
    [server/index.ts], and properties read off that code.

    - JavaScript numbers are IEEE 754 binary64 values: Rocq's primitive
      floats, with [+], [<], [>=] as the hardware computes them.
    - The relational tables are lists of rows; Drizzle's [findFirst],
      [findMany], [update ... where] and [insert] are [find], [filter],
      [map] and append.
    - A handler is a computation in a state-and-exception monad over the
      database; every database call may throw, as chosen by a fault oracle.
    - ECMAScript built-ins ([parseFloat], [Number], [Number.prototype.toString],
      the [Date] calendar) are taken as a record of functions; the module
      [Node] gives a reference implementation used to run the handlers. *)

From Stdlib Require Import ZArith List String Ascii Bool Lia Floats DecimalString Sorted.
Import ListNotations.

Local Open Scope string_scope.
Local Open Scope Z_scope.

(** ** JavaScript values *)

(** Values that can appear in a JSON request body; [JUndefined] is an
    absent field. *)
#[warnings="-register-all"]
Inductive JSValue : Type :=
| JUndefined
| JNull
| JBool (b : bool)
| JNum (x : float)
| JStr (s : string)
| JArr (xs : list JSValue)
| JObj (fields : list (string * JSValue)).

Definition isNaN (x : float) : bool := negb (PrimFloat.eqb x x).

(** ToBoolean. *)
Definition truthy (v : JSValue) : bool :=
  match v with
  | JUndefined | JNull => false
  | JBool b => b
  | JNum x => negb (PrimFloat.eqb x 0 || isNaN x)
  | JStr s => negb (String.eqb s "")
  | JArr _ | JObj _ => true
  end.

(** [a || b] on values. *)
Definition jsOr (a b : JSValue) : JSValue := if truthy a then a else b.

(** Truthiness of a nullable text column ([row.notes ? ... : ...]). *)
Definition truthyText (o : option string) : bool :=
  match o with
  | Some s => negb (String.eqb s "")
  | None => false
  end.

(** Truthiness of a nullable integer column ([invoice.projectId],
    [existing.appointmentDuration]). *)
Definition truthyInt (o : option Z) : bool :=
  match o with
  | Some n => negb (n =? 0)
  | None => false
  end.

(** [o || d] on a nullable integer. *)
Definition intOr (o : option Z) (d : Z) : Z :=
  match o with
  | Some n => if n =? 0 then d else n
  | None => d
  end.

(** [o || d] on a nullable text. *)
Definition textOr (o : option string) (d : string) : string :=
  match o with
  | Some s => if String.eqb s "" then d else s
  | None => d
  end.

(** ** ECMAScript built-ins *)

(** The library functions the handlers call.  Time values are
    milliseconds since the epoch. *)
Record Builtins : Type := {
  parseFloatStr : string -> float;        (* parseFloat on a string *)
  NumberStr : string -> float;            (* Number on a string *)
  numberToString : float -> string;       (* Number.prototype.toString *)
  mathRound : float -> float;             (* Math.round *)
  mathFloor : float -> float;             (* Math.floor *)
  getFullYear : Z -> Z;                   (* Date.prototype.getFullYear *)
  getMonth : Z -> Z;                      (* Date.prototype.getMonth, 0..11 *)
  getDate : Z -> Z;                       (* Date.prototype.getDate, 1..31 *)
  setDate : Z -> Z -> Z                   (* the time value d.setDate(n) gives d *)
}.

Section Values.

Variable js : Builtins.

(** ToString, as template literals and [parseFloat] apply it.  An array
    is the comma-separated join of its elements, [null] and [undefined]
    elements giving the empty string. *)
Fixpoint toStringJS (v : JSValue) : string :=
  match v with
  | JUndefined => "undefined"
  | JNull => "null"
  | JBool true => "true"
  | JBool false => "false"
  | JNum x => numberToString js x
  | JStr s => s
  | JArr xs =>
      (fix join (l : list JSValue) : string :=
         match l with
         | [] => ""
         | x :: rest =>
             let e := match x with
                      | JUndefined | JNull => ""
                      | _ => toStringJS x
                      end in
             match rest with
             | [] => e
             | _ :: _ => e ++ "," ++ join rest
             end
         end) xs
  | JObj _ => "[object Object]"
  end.

(** [parseFloat(v)]: the argument is converted to a string first. *)
Definition parseFloat (v : JSValue) : float := parseFloatStr js (toStringJS v).

End Values.

(** The JavaScript number of an integer (correctly rounded). *)
Definition numOfZ (z : Z) : float := SF2Prim (binary_normalize prec emax z 0 false).

(** ToString of an integer-valued number within the safe range. *)
Definition decimal (z : Z) : string := DecimalString.NilZero.string_of_int (Z.to_int z).

(** [s.padStart(n, c)] for a one-character filler. *)
Fixpoint padding (n : nat) (c : ascii) : string :=
  match n with
  | O => ""
  | S k => String c (padding k c)
  end.

Definition padStart (s : string) (n : nat) (c : ascii) : string :=
  padding (n - String.length s) c ++ s.

(** ** Rows of the schema

    One record per table, with the columns the routes read or write.
    Decimal columns are strings, as the driver returns them; timestamps are
    milliseconds; a nullable column is an [option]. *)

Module Client.
Record t : Type := mk {
  id : Z;
  contractorId : Z;
  fields : list (string * JSValue)
}.
End Client.

Module Project.
Record t : Type := mk {
  id : Z;
  contractorId : Z;
  clientId : Z;
  title : string;
  description : option string;
  status : string;
  budget : option float;
  startDate : option Z;
  endDate : option Z;
  notes : option string
}.

Definition with_status (s : string) (p : t) : t :=
  mk (id p) (contractorId p) (clientId p) (title p) (description p) s
     (budget p) (startDate p) (endDate p) (notes p).

Definition with_notes (n : option string) (p : t) : t :=
  mk (id p) (contractorId p) (clientId p) (title p) (description p) (status p)
     (budget p) (startDate p) (endDate p) n.
End Project.

Module Estimate.
Record t : Type := mk {
  id : Z;
  contractorId : Z;
  clientId : Z;
  projectId : option Z;
  estimateNumber : string;
  issueDate : Z;
  status : string;
  subtotal : string;
  tax : string;
  discount : string;
  total : string;
  notes : option string;
  terms : option string;
  contractorSignature : option string;
  agentId : option Z;
  appointmentDate : option Z;
  appointmentDuration : option Z;
  estimateType : option string
}.

Definition with_status (s : string) (e : t) : t :=
  mk (id e) (contractorId e) (clientId e) (projectId e) (estimateNumber e)
     (issueDate e) s (subtotal e) (tax e) (discount e) (total e) (notes e)
     (terms e) (contractorSignature e) (agentId e) (appointmentDate e)
     (appointmentDuration e) (estimateType e).

Definition with_notes (n : option string) (e : t) : t :=
  mk (id e) (contractorId e) (clientId e) (projectId e) (estimateNumber e)
     (issueDate e) (status e) (subtotal e) (tax e) (discount e) (total e) n
     (terms e) (contractorSignature e) (agentId e) (appointmentDate e)
     (appointmentDuration e) (estimateType e).

(** The [set] of the assignment: four columns at once. *)
Definition with_assignment (a : Z) (date : Z) (duration : Z) (ty : string)
    (e : t) : t :=
  mk (id e) (contractorId e) (clientId e) (projectId e) (estimateNumber e)
     (issueDate e) (status e) (subtotal e) (tax e) (discount e) (total e)
     (notes e) (terms e) (contractorSignature e) (Some a) (Some date)
     (Some duration) (Some ty).
End Estimate.

Module EstimateItem.
Record t : Type := mk {
  id : Z;
  estimateId : Z;
  description : string;
  quantity : string;
  unitPrice : string;
  amount : string;
  notes : option string
}.
End EstimateItem.

Module Invoice.
Record t : Type := mk {
  id : Z;
  contractorId : Z;
  clientId : Z;
  projectId : option Z;
  estimateId : option Z;
  invoiceNumber : string;
  issueDate : Z;
  dueDate : Z;
  status : string;
  subtotal : string;
  tax : string;
  discount : string;
  total : string;
  amountPaid : option string;
  terms : option string;
  notes : option string;
  contractorSignature : option string
}.

Definition with_status (s : string) (i : t) : t :=
  mk (id i) (contractorId i) (clientId i) (projectId i) (estimateId i)
     (invoiceNumber i) (issueDate i) (dueDate i) s (subtotal i) (tax i)
     (discount i) (total i) (amountPaid i) (terms i) (notes i)
     (contractorSignature i).

Definition with_amountPaid (a : string) (i : t) : t :=
  mk (id i) (contractorId i) (clientId i) (projectId i) (estimateId i)
     (invoiceNumber i) (issueDate i) (dueDate i) (status i) (subtotal i) (tax i)
     (discount i) (total i) (Some a) (terms i) (notes i)
     (contractorSignature i).

Definition with_projectId (p : Z) (i : t) : t :=
  mk (id i) (contractorId i) (clientId i) (Some p) (estimateId i)
     (invoiceNumber i) (issueDate i) (dueDate i) (status i) (subtotal i) (tax i)
     (discount i) (total i) (amountPaid i) (terms i) (notes i)
     (contractorSignature i).
End Invoice.

Module InvoiceItem.
Record t : Type := mk {
  id : Z;
  invoiceId : Z;
  description : string;
  quantity : string;
  unitPrice : string;
  amount : string;
  notes : option string
}.
End InvoiceItem.

Module Agent.
Record t : Type := mk {
  id : Z;
  contractorId : Z;
  firstName : string;
  lastName : string;
  isActive : bool
}.
End Agent.

Module Event.
Record t : Type := mk {
  id : Z;
  contractorId : Z;
  clientId : Z;
  title : string;
  description : string;
  startTime : Z;
  endTime : Z;
  type : string;
  status : string;
  location : string
}.
End Event.

(** The database: one list of rows per table. *)
Record DB : Type := mkDB {
  clients : list Client.t;
  projects : list Project.t;
  estimates : list Estimate.t;
  estimateItems : list EstimateItem.t;
  invoices : list Invoice.t;
  invoiceItems : list InvoiceItem.t;
  agents : list Agent.t;
  events : list Event.t
}.

(** ** Responses *)

(** What [res.json] is given on a recorded payment. *)
Record PaymentReceipt : Type := mkReceipt {
  receipt_invoice : option Invoice.t;
  payment_amount : float;
  payment_method : JSValue;
  payment_notes : JSValue;
  payment_date : Z;
  totals_currentAmountPaid : float;
  totals_totalAmount : float;
  totals_remainingBalance : float;
  totals_paymentPercentage : float;
  projectUpdate_updated : bool;
  projectUpdate_newStatus : option string;
  projectUpdate_message : string;
  receipt_message : string
}.

Inductive Body : Type :=
| Message (message : string)
| Errors (errors : JSValue)
| ClientJson (client : Client.t)
| ProjectJson (project : option Project.t)
| EstimateJson (estimate : option Estimate.t)
| InvoiceJson (invoice : option Invoice.t)
| EstimateItemsJson (items : list EstimateItem.t)
| InvoiceItemsJson (items : list InvoiceItem.t)
| BalanceExceeded (message : string)
    (currentAmountPaid totalAmount remainingBalance : float)
| SchedulingConflict (message : string) (conflicts : list Estimate.t)
| ReceiptJson (receipt : PaymentReceipt).

Record Response : Type := mkResponse {
  code : Z;
  body : Body
}.

(** [res.status(c).json(b)]. *)
Definition json (c : Z) (b : Body) : Response := mkResponse c b.

(** ** The handler monad

    State (the database and the number of database calls made so far) and
    exceptions.  There is no transaction: what was written before a throw
    stays written. *)

Inductive Exn : Type :=
| ZodError (errors : JSValue)
| DbError.

Inductive Result (A : Type) : Type :=
| Ok (a : A)
| Throw (e : Exn).

Arguments Ok {A} a.
Arguments Throw {A} e.

Record World : Type := mkWorld {
  db : DB;
  calls : nat
}.

Definition M (A : Type) : Type := World -> Result A * World.

Definition ret {A} (a : A) : M A := fun w => (Ok a, w).

Definition throw {A} (e : Exn) : M A := fun w => (Throw e, w).

Definition bind {A B} (m : M A) (k : A -> M B) : M B :=
  fun w =>
    match m w with
    | (Ok a, w') => k a w'
    | (Throw e, w') => (Throw e, w')
    end.

(** [try { m } catch (e) { h e }]. *)
Definition tryCatch {A} (m : M A) (h : Exn -> M A) : M A :=
  fun w =>
    match m w with
    | (Ok a, w') => (Ok a, w')
    | (Throw e, w') => h e w'
    end.

Notation "x <- m ;; k" := (bind m (fun x => k))
  (at level 61, m at next level, right associativity).
Notation "m ;;; k" := (bind m (fun _ => k))
  (at level 61, right associativity).

(** A database call.  [faults n] tells whether the call number [n] of the
    request throws. *)
Definition call {A} (faults : nat -> bool) (f : DB -> A * DB) : M A :=
  fun w =>
    if faults (calls w)
    then (Throw DbError, mkWorld (db w) (S (calls w)))
    else let (a, d) := f (db w) in (Ok a, mkWorld d (S (calls w))).

(** A read-only database call. *)
Definition query {A} (faults : nat -> bool) (f : DB -> A) : M A :=
  call faults (fun d => (f d, d)).

(** No database call fails. *)
Definition healthy : nat -> bool := fun _ => false.

(** Runs a handler on a database: the response sent, if any, and the
    database left behind. *)
Definition serve (h : M Response) (d : DB) : option Response * DB :=
  match h (mkWorld d 0) with
  | (Ok r, w) => (Some r, db w)
  | (Throw _, w) => (None, db w)
  end.

(** The serial primary key: one more than the largest id of the table. *)
Definition nextId (ids : list Z) : Z := 1 + fold_right Z.max 0 ids.

(** Replacing one table. *)
Definition with_clients (l : list Client.t) (d : DB) : DB :=
  mkDB l (projects d) (estimates d) (estimateItems d) (invoices d)
       (invoiceItems d) (agents d) (events d).

Definition with_projects (l : list Project.t) (d : DB) : DB :=
  mkDB (clients d) l (estimates d) (estimateItems d) (invoices d)
       (invoiceItems d) (agents d) (events d).

Definition with_estimates (l : list Estimate.t) (d : DB) : DB :=
  mkDB (clients d) (projects d) l (estimateItems d) (invoices d)
       (invoiceItems d) (agents d) (events d).

Definition with_invoices (l : list Invoice.t) (d : DB) : DB :=
  mkDB (clients d) (projects d) (estimates d) (estimateItems d) l
       (invoiceItems d) (agents d) (events d).

Definition with_invoiceItems (l : list InvoiceItem.t) (d : DB) : DB :=
  mkDB (clients d) (projects d) (estimates d) (estimateItems d) (invoices d)
       l (agents d) (events d).

Definition with_events (l : list Event.t) (d : DB) : DB :=
  mkDB (clients d) (projects d) (estimates d) (estimateItems d) (invoices d)
       (invoiceItems d) (agents d) l.

(** ** The storage layer

    [server/storage.ts] is not among the sources; the routes call it with a
    row id and the id of the authenticated contractor. *)
Module storage.

Definition isClient (id contractorId : Z) (c : Client.t) : bool :=
  (Client.id c =? id) && (Client.contractorId c =? contractorId).

Definition isProject (id contractorId : Z) (p : Project.t) : bool :=
  (Project.id p =? id) && (Project.contractorId p =? contractorId).

Definition isEstimate (id contractorId : Z) (e : Estimate.t) : bool :=
  (Estimate.id e =? id) && (Estimate.contractorId e =? contractorId).

Definition isInvoice (id contractorId : Z) (i : Invoice.t) : bool :=
  (Invoice.id i =? id) && (Invoice.contractorId i =? contractorId).

(** Modelled from the spec: [storage.getClient], absent from the sources;
    the client with that id among the contractor's clients, if any. *)
Definition getClient (id contractorId : Z) (d : DB) : option Client.t :=
  find (isClient id contractorId) (clients d).

(** Modelled from the spec: [storage.createClient], absent from the
    sources; inserts the validated row under a fresh id and returns it. *)
Definition createClient (data : Z -> Client.t) (d : DB) : Client.t * DB :=
  let row := data (nextId (map Client.id (clients d))) in
  (row, with_clients (clients d ++ [row])%list d).

(** Modelled from the spec: [storage.getProject], absent from the sources;
    the project with that id among the contractor's projects, if any. *)
Definition getProject (id contractorId : Z) (d : DB) : option Project.t :=
  find (isProject id contractorId) (projects d).

(** Modelled from the spec: [storage.updateProject], absent from the
    sources; overwrites the given columns of the contractor's project with
    that id and returns the updated row. *)
Definition updateProject (id contractorId : Z) (patch : Project.t -> Project.t)
    (d : DB) : option Project.t * DB :=
  (option_map patch (getProject id contractorId d),
   with_projects
     (map (fun p => if isProject id contractorId p then patch p else p)
          (projects d)) d).

(** Modelled from the spec: [storage.createSimpleProject], absent from the
    sources; inserts the project under a fresh id and returns it. *)
Definition createSimpleProject (data : Z -> Project.t) (d : DB)
    : Project.t * DB :=
  let row := data (nextId (map Project.id (projects d))) in
  (row, with_projects (projects d ++ [row])%list d).

(** Modelled from the spec: [storage.getEstimate], absent from the
    sources; the estimate with that id among the contractor's, if any. *)
Definition getEstimate (id contractorId : Z) (d : DB) : option Estimate.t :=
  find (isEstimate id contractorId) (estimates d).

(** Modelled from the spec: [storage.updateEstimate], absent from the
    sources; overwrites the given columns of the contractor's estimate with
    that id and returns the updated row. *)
Definition updateEstimate (id contractorId : Z)
    (patch : Estimate.t -> Estimate.t) (d : DB) : option Estimate.t * DB :=
  (option_map patch (getEstimate id contractorId d),
   with_estimates
     (map (fun e => if isEstimate id contractorId e then patch e else e)
          (estimates d)) d).

(** Modelled from the spec: [storage.getEstimateItems], absent from the
    sources; the items of the estimate when it is the contractor's. *)
Definition getEstimateItems (estimateId contractorId : Z) (d : DB)
    : list EstimateItem.t :=
  match getEstimate estimateId contractorId d with
  | Some _ =>
      filter (fun it => EstimateItem.estimateId it =? estimateId)
             (estimateItems d)
  | None => []
  end.

(** Modelled from the spec: [storage.getInvoice], absent from the sources;
    the invoice with that id among the contractor's invoices, if any. *)
Definition getInvoice (id contractorId : Z) (d : DB) : option Invoice.t :=
  find (isInvoice id contractorId) (invoices d).

(** Modelled from the spec: [storage.createInvoice], absent from the
    sources; inserts the invoice under a fresh id and returns it. *)
Definition createInvoice (data : Z -> Invoice.t) (d : DB) : Invoice.t * DB :=
  let row := data (nextId (map Invoice.id (invoices d))) in
  (row, with_invoices (invoices d ++ [row])%list d).

(** Modelled from the spec: [storage.createInvoiceItem], absent from the
    sources; inserts the item under a fresh id and returns it. *)
Definition createInvoiceItem (data : Z -> InvoiceItem.t) (d : DB)
    : InvoiceItem.t * DB :=
  let row := data (nextId (map InvoiceItem.id (invoiceItems d))) in
  (row, with_invoiceItems (invoiceItems d ++ [row])%list d).

(** Modelled from the spec: [storage.updateInvoice], absent from the
    sources; overwrites the given columns of the contractor's invoice with
    that id and returns the updated row. *)
Definition updateInvoice (id contractorId : Z)
    (patch : Invoice.t -> Invoice.t) (d : DB) : option Invoice.t * DB :=
  (option_map patch (getInvoice id contractorId d),
   with_invoices
     (map (fun i => if isInvoice id contractorId i then patch i else i)
          (invoices d)) d).

(** Modelled from the spec: [storage.getInvoiceItems], absent from the
    sources; the items of the invoice when it is the contractor's. *)
Definition getInvoiceItems (invoiceId contractorId : Z) (d : DB)
    : list InvoiceItem.t :=
  match getInvoice invoiceId contractorId d with
  | Some _ =>
      filter (fun it => InvoiceItem.invoiceId it =? invoiceId)
             (invoiceItems d)
  | None => []
  end.

End storage.

(** ** The routes *)

(** [{ ...o, k: v }]. *)
Fixpoint setField (k : string) (v : JSValue) (o : list (string * JSValue))
    : list (string * JSValue) :=
  match o with
  | [] => [(k, v)]
  | (k', v') :: rest =>
      if String.eqb k' k then (k, v) :: rest else (k', v') :: setField k v rest
  end.

(** A line feed. *)
Definition LF : string := String (ascii_of_nat 10) EmptyString.

(** [`${notes ? notes + '\n\n' : ''}`]: the old notes, when there are
    any, followed by an empty line. *)
Definition notesPrefix (notes : option string) : string :=
  match notes with
  | Some s => if String.eqb s "" then "" else s ++ LF ++ LF
  | None => ""
  end.

(** A schema's [parse]: the issues, or the validated row up to its id. *)
Definition Schema (Row : Type) : Type :=
  list (string * JSValue) -> JSValue + (Z -> Row).

Definition parse {Row} (schema : Schema Row) (input : list (string * JSValue))
    : M (Z -> Row) :=
  match schema input with
  | inl errors => throw (ZodError errors)
  | inr data => ret data
  end.

(** The entities the ownership middleware knows. *)
Inductive EntityType : Type :=
| entityClient
| entityProject
| entityEstimate
| entityInvoice.

(** The body of [POST /api/protected/agents/assign-estimate], decoded:
    ids and minutes are integers, the date is a valid time value. *)
Record AssignRequest : Type := mkAssign {
  estimateId : Z;
  agentId : Z;
  appointmentDate : Z;
  appointmentDuration : option Z
}.

(** The requests of the modelled routes, with the authenticated contractor
    left out. *)
Inductive Request : Type :=
| GetClient (id : Z)
| CreateClient (reqBody : list (string * JSValue))
| CancelProject (id : Z) (notes : JSValue)
| AcceptEstimate (id : Z) (notes : JSValue)
| RejectEstimate (id : Z) (notes : JSValue)
| ConvertToInvoice (id : Z)
| GetEstimateItems (id : Z)
| RecordPayment (id : Z) (amount paymentMethod notes : JSValue)
| GetInvoiceItems (id : Z)
| AssignEstimate (req : AssignRequest).

Section Routes.

Variable js : Builtins.
(** Which database calls of the request throw. *)
Variable faults : nat -> bool.
(** The clock ([new Date()]) as the request first reads it, and
    [Math.random()] of the request.  The payment route is taken to read
    the same time again. *)
Variable now : Z.
(** What the clock shows each time the conversion reads it again: [clock 0]
    for the issue date, [clock 1] for the date that [setDate] moves and
    [clock 2] for the day of the month that is read off. *)
Variable clock : nat -> Z.
Variable random : float.
(** [clientInsertSchema] of [@shared/schema]. *)
Variable clientInsertSchema : Schema Client.t.

(** [GET /api/protected/clients/:id] *)
Definition getClient (uid id : Z) : M Response :=
  tryCatch
    (client <- query faults (storage.getClient id uid) ;;
     match client with
     | None => ret (json 404 (Message "Client not found"))
     | Some client => ret (json 200 (ClientJson client))
     end)
    (fun _ => ret (json 500 (Message "Failed to fetch client"))).

(** [POST /api/protected/clients] *)
Definition createClient (uid : Z) (reqBody : list (string * JSValue))
    : M Response :=
  tryCatch
    (validatedData <-
       parse clientInsertSchema (setField "contractorId" (JNum (numOfZ uid)) reqBody) ;;
     client <- call faults (storage.createClient validatedData) ;;
     ret (json 201 (ClientJson client)))
    (fun error =>
       match error with
       | ZodError errors => ret (json 400 (Errors errors))
       | _ => ret (json 500 (Message "Failed to create client"))
       end).

(** [POST /api/protected/projects/:id/cancel] *)
Definition cancelProject (uid projectId : Z) (notes : JSValue) : M Response :=
  tryCatch
    (existingProject <- query faults (storage.getProject projectId uid) ;;
     match existingProject with
     | None => ret (json 404 (Message "Project not found"))
     | Some existingProject =>
         if String.eqb (Project.status existingProject) "cancelled"
         then ret (json 400 (Message "Project is already cancelled"))
         else
           let newNotes :=
             if truthy notes
             then notesPrefix (Project.notes existingProject)
                  ++ "Cancelled: " ++ toStringJS js notes
             else notesPrefix (Project.notes existingProject)
                  ++ "Project cancelled" in
           project <-
             call faults
               (storage.updateProject projectId uid
                  (fun p => Project.with_notes (Some newNotes)
                              (Project.with_status "cancelled" p))) ;;
           ret (json 200 (ProjectJson project))
     end)
    (fun _ => ret (json 500 (Message "Failed to cancel project"))).

(** [POST /api/protected/estimates/:id/accept] *)
Definition acceptEstimate (uid estimateId : Z) (notes : JSValue) : M Response :=
  tryCatch
    (existingEstimate <- query faults (storage.getEstimate estimateId uid) ;;
     match existingEstimate with
     | None => ret (json 404 (Message "Estimate not found"))
     | Some existingEstimate =>
         if negb (String.eqb (Estimate.status existingEstimate) "draft")
            && negb (String.eqb (Estimate.status existingEstimate) "sent")
         then ret (json 400 (Message
                ("Estimate cannot be accepted from current status: "
                 ++ Estimate.status existingEstimate)))
         else
           let newNotes :=
             if truthy notes
             then notesPrefix (Estimate.notes existingEstimate)
                  ++ "Accepted: " ++ toStringJS js notes
             else notesPrefix (Estimate.notes existingEstimate)
                  ++ "Estimate accepted" in
           updatedEstimate <-
             call faults
               (storage.updateEstimate estimateId uid
                  (fun e => Estimate.with_notes (Some newNotes)
                              (Estimate.with_status "accepted" e))) ;;
           ret (json 200 (EstimateJson updatedEstimate))
     end)
    (fun _ => ret (json 500 (Message "Failed to accept estimate"))).

(** [POST /api/protected/estimates/:id/reject] *)
Definition rejectEstimate (uid estimateId : Z) (notes : JSValue) : M Response :=
  tryCatch
    (existingEstimate <- query faults (storage.getEstimate estimateId uid) ;;
     match existingEstimate with
     | None => ret (json 404 (Message "Estimate not found"))
     | Some existingEstimate =>
         if negb (String.eqb (Estimate.status existingEstimate) "draft")
            && negb (String.eqb (Estimate.status existingEstimate) "sent")
         then ret (json 400 (Message
                ("Estimate cannot be rejected from current status: "
                 ++ Estimate.status existingEstimate)))
         else if negb (truthy notes)
         then ret (json 400 (Message "Rejection reason is required"))
         else
           let newNotes :=
             notesPrefix (Estimate.notes existingEstimate)
             ++ "Rejected: " ++ toStringJS js notes in
           updatedEstimate <-
             call faults
               (storage.updateEstimate estimateId uid
                  (fun e => Estimate.with_notes (Some newNotes)
                              (Estimate.with_status "rejected" e))) ;;
           ret (json 200 (EstimateJson updatedEstimate))
     end)
    (fun _ => ret (json 500 (Message "Failed to reject estimate"))).

(** [for (const item of items) { await f(item) }]. *)
Fixpoint forEach {A} (items : list A) (f : A -> M unit) : M unit :=
  match items with
  | [] => ret tt
  | item :: rest => f item ;;; forEach rest f
  end.

(** [`OT-${year}${month}-${random}`] *)
Definition newInvoiceNumber : string :=
  let today := now in
  let year := getFullYear js today in
  let month := padStart (decimal (getMonth js today + 1)) 2 "0"%char in
  let random3 := (mathFloor js (random * 900) + 100)%float in
  "OT-" ++ decimal year ++ month ++ "-" ++ numberToString js random3.

(** [POST /api/protected/estimates/:id/convert-to-invoice] *)
Definition convertToInvoice (uid estimateId : Z) : M Response :=
  tryCatch
    (estimate <- query faults (storage.getEstimate estimateId uid) ;;
     match estimate with
     | None => ret (json 404 (Message "Estimate not found"))
     | Some estimate =>
         if negb (String.eqb (Estimate.status estimate) "accepted")
         then ret (json 400 (Message
                "Only accepted estimates can be converted to invoices. Please accept the estimate first."))
         else
           estimateItems <- query faults (storage.getEstimateItems estimateId uid) ;;
           let invoiceNumber := newInvoiceNumber in
           let invoiceData := fun id =>
             Invoice.mk id uid
               (Estimate.clientId estimate)
               (Estimate.projectId estimate)
               (Some (Estimate.id estimate))
               invoiceNumber
               (clock 0%nat)
               (setDate js (clock 1%nat) (getDate js (clock 2%nat) + 15))
               "pending"
               (Estimate.subtotal estimate)
               (Estimate.tax estimate)
               (Estimate.discount estimate)
               (Estimate.total estimate)
               (Some "0")
               (Estimate.terms estimate)
               (Estimate.notes estimate)
               (Estimate.contractorSignature estimate) in
           invoice <- call faults (storage.createInvoice invoiceData) ;;
           forEach estimateItems (fun item =>
             call faults
               (storage.createInvoiceItem (fun id =>
                  InvoiceItem.mk id (Invoice.id invoice)
                    (EstimateItem.description item)
                    (EstimateItem.quantity item)
                    (EstimateItem.unitPrice item)
                    (EstimateItem.amount item)
                    (EstimateItem.notes item))) ;;;
             ret tt) ;;;
           call faults
             (storage.updateEstimate estimateId uid
                (fun e => Estimate.with_notes
                            (Some (notesPrefix (Estimate.notes estimate)
                                   ++ "Converted to Invoice #" ++ invoiceNumber))
                            (Estimate.with_status "converted" e))) ;;;
           completeInvoice <- query faults (storage.getInvoice (Invoice.id invoice) uid) ;;
           ret (json 201 (InvoiceJson completeInvoice))
     end)
    (fun _ => ret (json 500 (Message "Failed to convert estimate to work order"))).

(** [GET /api/protected/invoices/:invoiceId/items] *)
Definition getInvoiceItems (uid invoiceId : Z) : M Response :=
  tryCatch
    (items <- query faults (storage.getInvoiceItems invoiceId uid) ;;
     ret (json 200 (InvoiceItemsJson items)))
    (fun _ => ret (json 500 (Message "Failed to fetch invoice items"))).

(** The three variables the payment route reports about the project:
    [projectStatusUpdated], [newProjectStatus], [projectUpdateMessage]. *)
Record ProjectUpdate : Type := mkProjectUpdate {
  projectStatusUpdated : bool;
  newProjectStatus : option string;
  projectUpdateMessage : string
}.

Definition noProjectUpdate : ProjectUpdate := mkProjectUpdate false None "".

(** The [try] block of the payment route: promotes the linked project, or
    creates one.  Whatever it throws is logged and dropped.  In the first
    branch [newProjectStatus] is assigned before the update is awaited, so
    it keeps its value when the update throws. *)
Definition autoUpdateProject (uid invoiceId : Z) (invoice : Invoice.t)
    : M ProjectUpdate :=
  tryCatch
    (if truthyInt (Invoice.projectId invoice)
     then
       let projectId := intOr (Invoice.projectId invoice) 0 in
       currentProject <- query faults (storage.getProject projectId uid) ;;
       match currentProject with
       | Some currentProject =>
           if String.eqb (Project.status currentProject) "pending"
           then
             tryCatch
               (call faults
                  (storage.updateProject projectId uid
                     (Project.with_status "in_progress")) ;;;
                ret (mkProjectUpdate true (Some "In Progress")
                       "Project automatically moved to In Progress status after receiving payment."))
               (fun _ => ret (mkProjectUpdate false (Some "In Progress") ""))
           else ret noProjectUpdate
       | None => ret noProjectUpdate
       end
     else
       client <- query faults (storage.getClient (Invoice.clientId invoice) uid) ;;
       match client with
       | Some _ =>
           newProject <-
             call faults
               (storage.createSimpleProject (fun id =>
                  Project.mk id uid
                    (Invoice.clientId invoice)
                    ("Project for Invoice #" ++ Invoice.invoiceNumber invoice)
                    (Some ("Automatically created project from invoice #"
                           ++ Invoice.invoiceNumber invoice
                           ++ " after receiving payment"))
                    "pending"
                    (Some (NumberStr js (Invoice.total invoice)))
                    (Some now)
                    None
                    (Some "Project created automatically when invoice payment was received"))) ;;
           call faults
             (storage.updateInvoice invoiceId uid
                (Invoice.with_projectId (Project.id newProject))) ;;;
           ret (mkProjectUpdate true (Some "Pending")
                  "New project created and added to pending status after receiving payment.")
       | None => ret noProjectUpdate
       end)
    (fun _ => ret noProjectUpdate).

(** [POST /api/protected/invoices/:id/payment]; the body carries [amount],
    [paymentMethod] and [notes].  The receipt's date is kept as the time
    value rather than its ISO text. *)
Definition recordPayment (uid invoiceId : Z) (amount paymentMethod notes : JSValue)
    : M Response :=
  tryCatch
    (if negb (truthy amount) || isNaN (parseFloat js amount)
     then ret (json 400 (Message "Valid payment amount is required"))
     else
       invoice <- query faults (storage.getInvoice invoiceId uid) ;;
       match invoice with
       | None => ret (json 404 (Message "Invoice not found"))
       | Some invoice =>
           let currentAmountPaid :=
             parseFloatStr js (textOr (Invoice.amountPaid invoice) "0") in
           let paymentAmount := parseFloat js amount in
           let totalAmount := parseFloatStr js (Invoice.total invoice) in
           let newAmountPaid := (currentAmountPaid + paymentAmount)%float in
           let paymentPercentage := (newAmountPaid / totalAmount * 100)%float in
           if (totalAmount <? newAmountPaid)%float
           then ret (json 400
                  (BalanceExceeded "Payment amount exceeds the remaining balance"
                     currentAmountPaid totalAmount
                     (totalAmount - currentAmountPaid)%float))
           else
             let newInvoiceStatus :=
               if (totalAmount <=? newAmountPaid)%float then "paid"
               else if (0 <? newAmountPaid)%float then "partially_paid"
               else Invoice.status invoice in
             updatedInvoice <-
               call faults
                 (storage.updateInvoice invoiceId uid
                    (fun i => Invoice.with_status newInvoiceStatus
                                (Invoice.with_amountPaid
                                   (numberToString js newAmountPaid) i))) ;;
             projectUpdate <-
               (if (0 <? newAmountPaid)%float
                then autoUpdateProject uid invoiceId invoice
                else ret noProjectUpdate) ;;
             ret (json 200
                    (ReceiptJson
                       (mkReceipt updatedInvoice
                          paymentAmount
                          (jsOr paymentMethod (JStr "cash"))
                          (jsOr notes (JStr ""))
                          now
                          newAmountPaid
                          totalAmount
                          (totalAmount - newAmountPaid)%float
                          (mathRound js paymentPercentage)
                          (projectStatusUpdated projectUpdate)
                          (newProjectStatus projectUpdate)
                          (projectUpdateMessage projectUpdate)
                          (if projectStatusUpdated projectUpdate
                           then "Payment recorded successfully. "
                                ++ projectUpdateMessage projectUpdate
                           else "Payment recorded successfully"))))
       end)
    (fun _ => ret (json 500 (Message "Failed to record payment"))).

(** [appointment_date IS NOT NULL], and [eq] on a nullable column. *)
Definition isNotNull {A} (o : option A) : bool :=
  match o with Some _ => true | None => false end.

Definition eqColumn (o : option Z) (v : Z) : bool :=
  match o with Some x => x =? v | None => false end.

(** The slot test of the route: the appointment of [existing] meets
    [[start, finish)]. *)
Definition overlapsSlot (appointmentDateTime appointmentEndTime : Z)
    (existing : Estimate.t) : bool :=
  match Estimate.appointmentDate existing with
  | None => false
  | Some existingStart =>
      let existingEnd :=
        existingStart + intOr (Estimate.appointmentDuration existing) 60 * 60000 in
      (appointmentDateTime <? existingEnd) && (existingStart <? appointmentEndTime)
  end.

(** [POST /api/protected/agents/assign-estimate] *)
Definition assignEstimate (contractorId : Z) (req : AssignRequest) : M Response :=
  tryCatch
    (estimate <-
       query faults (fun d =>
         find (fun e => (Estimate.id e =? estimateId req)
                        && (Estimate.contractorId e =? contractorId))
              (estimates d)) ;;
     match estimate with
     | None => ret (json 404 (Message "Estimate not found"))
     | Some estimate =>
         agent <-
           query faults (fun d =>
             find (fun a => (Agent.id a =? agentId req)
                            && (Agent.contractorId a =? contractorId))
                  (agents d)) ;;
         match agent with
         | None => ret (json 404 (Message "Agent not found"))
         | Some agent =>
             let appointmentDateTime := appointmentDate req in
             let appointmentEndTime :=
               appointmentDateTime + intOr (appointmentDuration req) 60 * 60000 in
             conflictingEstimates <-
               query faults (fun d =>
                 filter (fun e => eqColumn (Estimate.agentId e) (agentId req)
                                  && (Estimate.contractorId e =? contractorId)
                                  && negb (Estimate.id e =? estimateId req)
                                  && isNotNull (Estimate.appointmentDate e))
                        (estimates d)) ;;
             let hasTimeConflict :=
               existsb (overlapsSlot appointmentDateTime appointmentEndTime)
                       conflictingEstimates in
             if hasTimeConflict
             then ret (json 409
                    (SchedulingConflict "Agent has a scheduling conflict at this time"
                       (filter (overlapsSlot appointmentDateTime appointmentEndTime)
                               conflictingEstimates)))
             else
               updatedEstimate <-
                 call faults (fun d =>
                   let rows :=
                     map (fun e =>
                            if Estimate.id e =? estimateId req
                            then Estimate.with_assignment (agentId req)
                                   appointmentDateTime
                                   (intOr (appointmentDuration req) 60)
                                   "agent" e
                            else e)
                         (estimates d) in
                   (hd_error (filter (fun e => Estimate.id e =? estimateId req) rows),
                    with_estimates rows d)) ;;
               tryCatch
                 (call faults (fun d =>
                    let row :=
                      Event.mk (nextId (map Event.id (events d)))
                        contractorId
                        (Estimate.clientId estimate)
                        ("Agent Estimate - " ++ Estimate.estimateNumber estimate)
                        ("Estimate appointment assigned to "
                         ++ Agent.firstName agent ++ " " ++ Agent.lastName agent)
                        appointmentDateTime
                        appointmentEndTime
                        "estimate"
                        "confirmed"
                        "" in
                    (tt, with_events (events d ++ [row])%list d)))
                 (fun _ => ret tt) ;;;
               ret (json 200 (EstimateJson updatedEstimate))
         end
     end)
    (fun _ => ret (json 500 (Message "Failed to assign estimate to agent"))).

(** [GET /api/protected/estimates/:estimateId/items], behind
    [verifyResourceOwnership('estimate', 'estimateId')]. *)
Definition getEstimateItems (uid estimateId : Z) : M Response :=
  tryCatch
    (items <- query faults (storage.getEstimateItems estimateId uid) ;;
     ret (json 200 (EstimateItemsJson items)))
    (fun _ => ret (json 500 (Message "Failed to fetch estimate items"))).

(** Modelled from the spec: [verifyResourceOwnership] of
    [server/middleware/authorization.ts], absent from the sources; the
    ownership check in front of a route: the request goes on when the row
    with that id belongs to the contractor and is answered 404 otherwise;
    an exception is answered 500. *)
Definition verifyResourceOwnership (entity : EntityType) (uid id : Z)
    (next : M Response) : M Response :=
  tryCatch
    (owned <-
       query faults (fun d =>
         match entity with
         | entityClient => isNotNull (storage.getClient id uid d)
         | entityProject => isNotNull (storage.getProject id uid d)
         | entityEstimate => isNotNull (storage.getEstimate id uid d)
         | entityInvoice => isNotNull (storage.getInvoice id uid d)
         end) ;;
     if owned then next else ret (json 404 (Message "Resource not found")))
    (fun _ => ret (json 500 (Message "Internal server error"))).

(** The routes above as they are registered: each behind the middleware the
    source puts in front of it. *)
Definition route (uid : Z) (r : Request) : M Response :=
  match r with
  | GetClient id =>
      verifyResourceOwnership entityClient uid id (getClient uid id)
  | CreateClient reqBody =>
      createClient uid reqBody
  | CancelProject id notes =>
      verifyResourceOwnership entityProject uid id (cancelProject uid id notes)
  | AcceptEstimate id notes =>
      verifyResourceOwnership entityEstimate uid id (acceptEstimate uid id notes)
  | RejectEstimate id notes =>
      verifyResourceOwnership entityEstimate uid id (rejectEstimate uid id notes)
  | ConvertToInvoice id =>
      verifyResourceOwnership entityEstimate uid id (convertToInvoice uid id)
  | GetEstimateItems id =>
      verifyResourceOwnership entityEstimate uid id (getEstimateItems uid id)
  | RecordPayment id amount paymentMethod notes =>
      verifyResourceOwnership entityInvoice uid id
        (recordPayment uid id amount paymentMethod notes)
  | GetInvoiceItems id =>
      getInvoiceItems uid id
  | AssignEstimate req =>
      assignEstimate uid req
  end.

End Routes.

(** ** A reference runtime

    The built-ins as ECMAScript defines them, on decimal literals and with
    the server's time zone taken to be UTC, so that the handlers can be run
    on concrete requests. *)

Module Node.

(** The number [sign m * 10^e], correctly rounded to binary64. *)
Definition ofDecimal (negative : bool) (m e : Z) : float :=
  match m with
  | Zpos p =>
      if 0 <=? e
      then SF2Prim (binary_normalize prec emax
                      (if negative then - (m * 10 ^ e) else m * 10 ^ e) 0 false)
      else SF2Prim (SFdiv prec emax (S754_finite negative p 0)
                      (S754_finite false (Z.to_pos (10 ^ (- e))) 0))
  | _ => if negative then (-0)%float else 0%float
  end.

Definition isDigit (c : ascii) : bool :=
  let n := Z.of_nat (nat_of_ascii c) in (48 <=? n) && (n <=? 57).

Definition isSpace (c : ascii) : bool :=
  let n := Z.of_nat (nat_of_ascii c) in
  (n =? 32) || ((9 <=? n) && (n <=? 13)).

(** Reads decimal digits: the number read so far, how many digits were
    read, and what follows. *)
Fixpoint readDigits (s : string) (acc count : Z) : Z * Z * string :=
  match s with
  | String c rest =>
      if isDigit c
      then readDigits rest (10 * acc + (Z.of_nat (nat_of_ascii c) - 48)) (count + 1)
      else (acc, count, s)
  | EmptyString => (acc, count, s)
  end.

Fixpoint skipSpaces (s : string) : string :=
  match s with
  | String c rest => if isSpace c then skipSpaces rest else s
  | EmptyString => s
  end.

(** An optional sign. *)
Definition readSign (s : string) : bool * string :=
  match s with
  | String "-" rest => (true, rest)
  | String "+" rest => (false, rest)
  | _ => (false, s)
  end.

(** The optional exponent part: its value and what follows; an [e] that
    no digit follows is not part of the literal. *)
Definition readExponent (s : string) : Z * string :=
  match s with
  | String c rest =>
      if (Ascii.eqb c "e" || Ascii.eqb c "E")%bool
      then
        let '(negative, rest') := readSign rest in
        let '(x, count, rest'') := readDigits rest' 0 0 in
        if count =? 0 then (0, s)
        else ((if negative then - x else x), rest'')
      else (0, s)
  | EmptyString => (0, s)
  end.

(** The longest prefix that is a decimal literal: the number, if there
    is such a prefix, and what follows it. *)
Definition readNumber (s : string) : option float * string :=
  let '(negative, s1) := readSign s in
  if String.prefix "Infinity" s1
  then (Some (if negative then neg_infinity else infinity),
        String.substring 8 (String.length s1 - 8) s1)
  else
    let '(int, nint, s2) := readDigits s1 0 0 in
    let '(frac, nfrac, s3) :=
      match s2 with
      | String "." rest =>
          let '(m, n, rest') := readDigits rest int 0 in
          if (nint =? 0) && (n =? 0) then (int, 0, s2) else (m, n, rest')
      | _ => (int, 0, s2)
      end in
    if (nint =? 0) && (nfrac =? 0) then (None, s)
    else
      let '(e, s4) := readExponent s3 in
      (Some (ofDecimal negative frac (e - nfrac)), s4).

(** [parseFloat] on a string. *)
Definition parseFloatStr (s : string) : float :=
  match fst (readNumber (skipSpaces s)) with
  | Some x => x
  | None => nan
  end.

(** [Number] on a string, decimal literals only. *)
Definition NumberStr (s : string) : float :=
  match skipSpaces s with
  | EmptyString => 0%float
  | s' =>
      match readNumber s' with
      | (Some x, rest) =>
          match skipSpaces rest with
          | EmptyString => x
          | _ => nan
          end
      | (None, _) => nan
      end
  end.

(** Is the positive rational [a / b] below [10 ^ k]? *)
Definition belowPow10 (a b k : Z) : bool :=
  if 0 <=? k then a <? b * 10 ^ k else a * 10 ^ (- k) <? b.

(** The decimal exponent [k] of a positive rational [a / b]:
    [10 ^ (k - 1) <= a / b < 10 ^ k]. *)
Definition exponent10 (a b : Z) : Z :=
  let k0 := (Z.log2 a - Z.log2 b) * 1233 / 4096 in
  let k1 := if belowPow10 a b (k0 - 1) then k0 - 1
            else if belowPow10 a b k0 then k0
            else if belowPow10 a b (k0 + 1) then k0 + 1
            else k0 + 2 in
  k1.

(** The positive number [x] as [a / b]. *)
Definition ratio (x : float) : Z * Z :=
  match Prim2SF x with
  | S754_finite _ m e =>
      if 0 <=? e then (Zpos m * 2 ^ e, 1) else (Zpos m, 2 ^ (- e))
  | _ => (0, 1)
  end.

(** The shortest digits that read back as the positive number [x]: the
    digits as an integer, how many they are, and the decimal exponent. *)
Fixpoint shortest (fuel : nat) (n : Z) (x : float) (a b k : Z) : Z * Z * Z :=
  (* a / b = x and 10^(k-1) <= x < 10^k; candidates with n digits *)
  let scaled_a := if 0 <=? n - k then a * 10 ^ (n - k) else a in
  let scaled_b := if 0 <=? n - k then b else b * 10 ^ (k - n) in
  let lo := scaled_a / scaled_b in
  let hi := lo + 1 in
  let nearest := if 2 * (scaled_a - lo * scaled_b) <? scaled_b then lo else hi in
  let other := if nearest =? lo then hi else lo in
  let back s := PrimFloat.Leibniz.eqb (ofDecimal false s (k - n)) x in
  let result s := if s =? 10 ^ n then (10 ^ (n - 1), n, k + 1) else (s, n, k) in
  match fuel with
  | O => result nearest
  | S fuel' =>
      if back nearest then result nearest
      else if back other then result other
      else shortest fuel' (n + 1) x a b k
  end.

(** Number::toString on a positive finite number. *)
Definition positiveToString (x : float) : string :=
  let '(a, b) := ratio x in
  let k0 := exponent10 a b in
  let '(s, n, k) := shortest 17 1 x a b k0 in
  let digits := decimal s in
  if (n <=? k) && (k <=? 21)
  then digits ++ padding (Z.to_nat (k - n)) "0"
  else if (0 <? k) && (k <=? 21)
  then String.substring 0 (Z.to_nat k) digits ++ "."
       ++ String.substring (Z.to_nat k) (Z.to_nat (n - k)) digits
  else if (-6 <? k) && (k <=? 0)
  then "0." ++ padding (Z.to_nat (- k)) "0" ++ digits
  else
    let e := k - 1 in
    let exponent := (if e <? 0 then "-" else "+") ++ decimal (Z.abs e) in
    if n =? 1 then digits ++ "e" ++ exponent
    else String.substring 0 1 digits ++ "."
         ++ String.substring 1 (Z.to_nat (n - 1)) digits ++ "e" ++ exponent.

(** [Number.prototype.toString], radix 10. *)
Definition numberToString (x : float) : string :=
  match Prim2SF x with
  | S754_nan => "NaN"
  | S754_zero _ => "0"
  | S754_infinity false => "Infinity"
  | S754_infinity true => "-Infinity"
  | S754_finite false _ _ => positiveToString x
  | S754_finite true _ _ => "-" ++ positiveToString (- x)%float
  end.

(** [Math.floor]. *)
Definition mathFloor (x : float) : float :=
  match Prim2SF x with
  | S754_finite negative m e =>
      if 0 <=? e then x
      else
        let d := 2 ^ (- e) in
        if negative then numOfZ (- ((Zpos m + d - 1) / d))
        else numOfZ (Zpos m / d)
  | _ => x
  end.

(** [Math.round]: the nearest integer, a tie going up. *)
Definition mathRound (x : float) : float :=
  match Prim2SF x with
  | S754_finite negative m e =>
      if 0 <=? e then x
      else
        let d := 2 ^ (- e) in
        if negative
        then
          let r := (2 * Zpos m + d - 1) / (2 * d) in
          if r =? 0 then (-0)%float else numOfZ (- r)
        else numOfZ ((2 * Zpos m + d) / (2 * d))
  | _ => x
  end.

Definition msPerDay : Z := 86400000.

(** The civil year and month (1..12) of a day number, days counted
    from 1970-01-01. *)
Definition civil (days : Z) : Z * Z :=
  let z := days + 719468 in
  let era := z / 146097 in
  let doe := z - era * 146097 in
  let yoe := (doe - doe / 1460 + doe / 36524 - doe / 146096) / 365 in
  let doy := doe - (365 * yoe + yoe / 4 - yoe / 100) in
  let mp := (5 * doy + 2) / 153 in
  let m := if mp <? 10 then mp + 3 else mp - 9 in
  let y := yoe + era * 400 in
  ((if m <=? 2 then y + 1 else y), m).

(** The calendar of a server whose time zone is UTC. *)
Definition getFullYear (t : Z) : Z := fst (civil (t / msPerDay)).

Definition getMonth (t : Z) : Z := snd (civil (t / msPerDay)) - 1.

(** The day of the month (1..31) of a day number. *)
Definition dayOfMonth (days : Z) : Z :=
  let z := days + 719468 in
  let era := z / 146097 in
  let doe := z - era * 146097 in
  let yoe := (doe - doe / 1460 + doe / 36524 - doe / 146096) / 365 in
  let doy := doe - (365 * yoe + yoe / 4 - yoe / 100) in
  let mp := (5 * doy + 2) / 153 in
  doy - (153 * mp + 2) / 5 + 1.

Definition getDate (t : Z) : Z := dayOfMonth (t / msPerDay).

(** [d.setDate(n)]: day [n] of the month of [d], counted on into the
    months before and after when [n] is no day of that month, at the time
    of day of [d]. *)
Definition setDate (t n : Z) : Z := t + (n - getDate t) * msPerDay.

Definition builtins : Builtins :=
  Build_Builtins parseFloatStr NumberStr numberToString mathRound mathFloor
    getFullYear getMonth getDate setDate.

End Node.

(** ** Sample data

    Two contractors: number 1 with a client, a project, estimates, invoices
    and an agent; number 2 with a client, an estimate and an invoice. *)
Module Sample.

(** Midnight of 2 November 2024, UTC. *)
Definition today : Z := 1730505600000.

Definition hour : Z := 3600000.

Definition client10 : Client.t :=
  Client.mk 10 1 [("firstName", JStr "Ada"); ("contractorId", JNum 1)].

Definition client11 : Client.t :=
  Client.mk 11 2 [("firstName", JStr "Bob"); ("contractorId", JNum 2)].

Definition project20 : Project.t :=
  Project.mk 20 1 10 "Fence" (Some "Cedar fence") "pending" (Some 1000%float)
    None None None.

Definition project21 : Project.t :=
  Project.mk 21 1 10 "Deck" None "completed" None None None (Some "Done in May").

Definition project22 : Project.t :=
  Project.mk 22 1 10 "Roof" None "cancelled" None None None None.

Definition estimate30 : Estimate.t :=
  Estimate.mk 30 1 10 (Some 20) "EST-30" today "accepted" "900.00" "100.00" "0"
    "1000.00" (Some "Cedar") (Some "Net 15") None None None None None.

Definition estimate31 : Estimate.t :=
  Estimate.mk 31 1 10 None "EST-31" today "draft" "50.00" "0" "0" "50.00"
    None None None (Some 50) (Some (today + 9 * hour)) (Some 90) (Some "agent").

Definition estimate32 : Estimate.t :=
  Estimate.mk 32 2 11 None "EST-32" today "sent" "70.00" "0" "0" "70.00"
    None None None None None None None.

Definition estimate33 : Estimate.t :=
  Estimate.mk 33 1 10 None "EST-33" today "sent" "80.00" "0" "0" "80.00"
    None None None None None None None.

Definition item1 : EstimateItem.t :=
  EstimateItem.mk 1 30 "Posts" "10" "40.00" "400.00" None.

Definition item2 : EstimateItem.t :=
  EstimateItem.mk 2 30 "Panels" "5" "100.00" "500.00" (Some "cedar").

Definition invoice40 : Invoice.t :=
  Invoice.mk 40 1 10 (Some 20) (Some 30) "OT-202411-123" today (today + 15 * 24 * hour)
    "pending" "900.00" "100.00" "0" "1000.00" (Some "0") None None None.

Definition invoice41 : Invoice.t :=
  Invoice.mk 41 1 10 None None "OT-202411-456" today (today + 15 * 24 * hour)
    "pending" "0" "0" "0" "0" (Some "0") None None None.

Definition invoice42 : Invoice.t :=
  Invoice.mk 42 2 11 None None "OT-202411-789" today (today + 15 * 24 * hour)
    "pending" "70.00" "0" "0" "70.00" None None None None.

Definition invoice43 : Invoice.t :=
  Invoice.mk 43 1 10 None None "OT-202411-321" today (today + 15 * 24 * hour)
    "pending" "200.00" "0" "0" "200.00" None None None None.

Definition invoice44 : Invoice.t :=
  Invoice.mk 44 1 10 (Some 21) None "OT-202411-654" today (today + 15 * 24 * hour)
    "cancelled" "300.00" "0" "0" "300.00" (Some "100.00") None None None.

Definition invoiceItem1 : InvoiceItem.t :=
  InvoiceItem.mk 1 42 "Gate" "1" "70.00" "70.00" None.

Definition agent50 : Agent.t := Agent.mk 50 1 "Eve" "Stone" true.

Definition data : DB :=
  mkDB [client10; client11]
       [project20; project21; project22]
       [estimate30; estimate31; estimate32; estimate33]
       [item1; item2]
       [invoice40; invoice41; invoice42; invoice43; invoice44]
       [invoiceItem1]
       [agent50]
       [].

(** A client schema that asks for a textual [firstName]; the row goes
    to contractor [uid]. *)
Definition clientSchema (uid : Z) : Schema Client.t :=
  fun input =>
    match find (fun kv => String.eqb (fst kv) "firstName") input with
    | Some (_, JStr _) => inr (fun id => Client.mk id uid input)
    | _ => inl (JArr [JStr "firstName: Required"])
    end.

(** The fault oracle under which only call number [k] throws. *)
Definition failing (k : nat) : nat -> bool := fun n => Nat.eqb n k.

(** Runs a request of contractor [uid] on the reference runtime, the
    clock standing at [today], with [Math.random()] giving one half. *)
Definition run (faults : nat -> bool) (uid : Z) (r : Request) (d : DB)
    : option Response * DB :=
  serve (route Node.builtins faults today (fun _ => today) 0.5%float
           (clientSchema uid) uid r) d.

End Sample.

(** ** Vocabulary of the statements *)

(** The end of the slot that starts at [start] and lasts [duration]
    minutes, 60 when the duration is absent (or zero). *)
Definition slotEnd (start : Z) (duration : option Z) : Z :=
  start + intOr duration 60 * 60000.

(** The estimate [e] conflicts with the requested assignment: it is another
    estimate of the same agent and contractor, it has an appointment, and
    its slot [[start, end)] overlaps the requested one. *)
Definition conflictsWith (contractorId : Z) (req : AssignRequest)
    (e : Estimate.t) : Prop :=
  Estimate.id e <> estimateId req
  /\ Estimate.agentId e = Some (agentId req)
  /\ Estimate.contractorId e = contractorId
  /\ exists existingStart,
       Estimate.appointmentDate e = Some existingStart
       /\ appointmentDate req < slotEnd existingStart (Estimate.appointmentDuration e)
       /\ slotEnd (appointmentDate req) (appointmentDuration req) > existingStart.

(** The contractor's estimate and agent a request names, as the route
    looks them up. *)
Definition requestedEstimate (contractorId : Z) (req : AssignRequest) (d : DB)
    : option Estimate.t :=
  find (fun e => (Estimate.id e =? estimateId req)
                 && (Estimate.contractorId e =? contractorId))
       (estimates d).

Definition requestedAgent (contractorId : Z) (req : AssignRequest) (d : DB)
    : option Agent.t :=
  find (fun a => (Agent.id a =? agentId req)
                 && (Agent.contractorId a =? contractorId))
       (agents d).

(** The estimates table once the request is assigned. *)
Definition assignedRows (req : AssignRequest) (d : DB) : list Estimate.t :=
  map (fun e =>
         if Estimate.id e =? estimateId req
         then Estimate.with_assignment (agentId req) (appointmentDate req)
                (intOr (appointmentDuration req) 60) "agent" e
         else e)
      (estimates d).

(** The calendar event of an assignment. *)
Definition appointmentEvent (contractorId : Z) (req : AssignRequest)
    (estimate : Estimate.t) (agent : Agent.t) (d : DB) : Event.t :=
  Event.mk (nextId (map Event.id (events d)))
    contractorId
    (Estimate.clientId estimate)
    ("Agent Estimate - " ++ Estimate.estimateNumber estimate)
    ("Estimate appointment assigned to "
     ++ Agent.firstName agent ++ " " ++ Agent.lastName agent)
    (appointmentDate req)
    (slotEnd (appointmentDate req) (appointmentDuration req))
    "estimate"
    "confirmed"
    "".

(** The invoice items copied from estimate items, one after the other,
    each under the next free id of a table that holds [existing]. *)
Fixpoint copiedItems (invoiceId : Z) (existing : list InvoiceItem.t)
    (items : list EstimateItem.t) : list InvoiceItem.t :=
  match items with
  | [] => []
  | item :: rest =>
      let row :=
        InvoiceItem.mk (nextId (map InvoiceItem.id existing)) invoiceId
          (EstimateItem.description item) (EstimateItem.quantity item)
          (EstimateItem.unitPrice item) (EstimateItem.amount item)
          (EstimateItem.notes item) in
      row :: copiedItems invoiceId (existing ++ [row])%list rest
  end.



(** The amount of a payment request is turned down: it is falsy or does
    not parse to a number. *)
Definition amountRejected (js : Builtins) (amount : JSValue) : bool :=
  negb (truthy amount) || isNaN (parseFloat js amount).

(** The amounts of a payment: what was paid so far, the total, and what is
    paid once the payment is added. *)
Definition paidSoFar (js : Builtins) (invoice : Invoice.t) : float :=
  parseFloatStr js (textOr (Invoice.amountPaid invoice) "0").

Definition totalOf (js : Builtins) (invoice : Invoice.t) : float :=
  parseFloatStr js (Invoice.total invoice).

Definition paidAfter (js : Builtins) (invoice : Invoice.t) (amount : JSValue)
    : float :=
  (paidSoFar js invoice + parseFloat js amount)%float.

(** The status and the row a recorded payment gives the invoice. *)
Definition statusAfter (js : Builtins) (invoice : Invoice.t) (amount : JSValue)
    : string :=
  if (totalOf js invoice <=? paidAfter js invoice amount)%float then "paid"
  else if (0 <? paidAfter js invoice amount)%float then "partially_paid"
  else Invoice.status invoice.

Definition paymentPatch (js : Builtins) (invoice : Invoice.t) (amount : JSValue)
    (i : Invoice.t) : Invoice.t :=
  Invoice.with_status (statusAfter js invoice amount)
    (Invoice.with_amountPaid (numberToString js (paidAfter js invoice amount)) i).

(** The invoices table once the payment is written. *)
Definition paidRows (js : Builtins) (uid invoiceId : Z) (invoice : Invoice.t)
    (amount : JSValue) (d : DB) : list Invoice.t :=
  map (fun i => if storage.isInvoice invoiceId uid i
                then paymentPatch js invoice amount i else i)
      (invoices d).

(** The row a request addresses through the ownership middleware. *)
Definition addressed (r : Request) : option (EntityType * Z) :=
  match r with
  | GetClient id => Some (entityClient, id)
  | CancelProject id _ => Some (entityProject, id)
  | AcceptEstimate id _ | RejectEstimate id _ | ConvertToInvoice id
  | GetEstimateItems id => Some (entityEstimate, id)
  | RecordPayment id _ _ _ => Some (entityInvoice, id)
  | CreateClient _ | GetInvoiceItems _ | AssignEstimate _ => None
  end.

(** The contractor has a row of that kind under that id. *)
Definition owns (uid : Z) (entity : EntityType) (id : Z) (d : DB) : bool :=
  match entity with
  | entityClient => isNotNull (storage.getClient id uid d)
  | entityProject => isNotNull (storage.getProject id uid d)
  | entityEstimate => isNotNull (storage.getEstimate id uid d)
  | entityInvoice => isNotNull (storage.getInvoice id uid d)
  end.

(** Unfolds the monad of a handler that is being served. *)
Ltac run_handler :=
  unfold serve, tryCatch, bind, query, call, ret, throw, json; cbn [db calls fst snd].

(** * More of the routes

    Routes of [server/routes.ts] beside the ones above: cancelling an
    invoice, adding an invoice item, deleting an agent and asking for an
    agent's day. *)

(** [{ notes: n }] on an invoice. *)
Definition invoiceWithNotes (n : option string) (i : Invoice.t) : Invoice.t :=
  Invoice.mk (Invoice.id i) (Invoice.contractorId i) (Invoice.clientId i)
    (Invoice.projectId i) (Invoice.estimateId i) (Invoice.invoiceNumber i)
    (Invoice.issueDate i) (Invoice.dueDate i) (Invoice.status i)
    (Invoice.subtotal i) (Invoice.tax i) (Invoice.discount i) (Invoice.total i)
    (Invoice.amountPaid i) (Invoice.terms i) n (Invoice.contractorSignature i).

Definition with_agents (l : list Agent.t) (d : DB) : DB :=
  mkDB (clients d) (projects d) (estimates d) (estimateItems d) (invoices d)
       (invoiceItems d) l (events d).

(** What the routes below answer beside the bodies of [Body]. *)
Inductive MoreBody : Type :=
| Plain (body : Body)
| InvoiceItemJson (item : InvoiceItem.t)
| AvailabilityJson (agentId : Z) (date : string) (estimates : list Estimate.t)
    (totalBookedHours : float) (isAvailable : bool).

Record Reply : Type := mkReply {
  replyCode : Z;
  replyBody : MoreBody
}.

(** Runs a handler that answers a [Reply]. *)
Definition serveReply (h : M Reply) (d : DB) : option Reply * DB :=
  match h (mkWorld d 0) with
  | (Ok r, w) => (Some r, db w)
  | (Throw _, w) => (None, db w)
  end.

(** [ORDER BY appointment_date]: insertion into a list already in order;
    rows with the same date keep the order of the table. *)
Fixpoint insertByDate (e : Estimate.t) (sorted : list Estimate.t)
    : list Estimate.t :=
  match sorted with
  | [] => [e]
  | x :: rest =>
      match Estimate.appointmentDate e, Estimate.appointmentDate x with
      | Some a, Some b => if a <? b then e :: sorted else x :: insertByDate e rest
      | _, _ => x :: insertByDate e rest
      end
  end.

Definition orderByDate (rows : list Estimate.t) : list Estimate.t :=
  fold_left (fun sorted e => insertByDate e sorted) rows [].

Section MoreRoutes.

Variable js : Builtins.
Variable faults : nat -> bool.
(** [DATE(appointment_date) = date] as the database decides it. *)
Variable onDate : Z -> string -> bool.
(** [invoiceItemInsertSchema] of [@shared/schema]. *)
Variable invoiceItemInsertSchema : Schema InvoiceItem.t.

(** [POST /api/protected/invoices/:id/cancel], the handler behind
    [verifyResourceOwnership('invoice', 'id')]. *)
Definition cancelInvoice (uid invoiceId : Z) (notes : JSValue) : M Response :=
  tryCatch
    (existingInvoice <- query faults (storage.getInvoice invoiceId uid) ;;
     match existingInvoice with
     | None => ret (json 404 (Message "Invoice not found"))
     | Some existingInvoice =>
         if String.eqb (Invoice.status existingInvoice) "cancelled"
         then ret (json 400 (Message "Invoice is already cancelled"))
         else if String.eqb (Invoice.status existingInvoice) "paid"
         then ret (json 400 (Message "Cannot cancel a paid invoice"))
         else
           let newNotes :=
             if truthy notes
             then notesPrefix (Invoice.notes existingInvoice)
                  ++ "Cancelled: " ++ toStringJS js notes
             else notesPrefix (Invoice.notes existingInvoice)
                  ++ "Invoice cancelled" in
           invoice <-
             call faults
               (storage.updateInvoice invoiceId uid
                  (fun i => invoiceWithNotes (Some newNotes)
                              (Invoice.with_status "cancelled" i))) ;;
           ret (json 200 (InvoiceJson invoice))
     end)
    (fun _ => ret (json 500 (Message "Failed to cancel invoice"))).

(** [POST /api/protected/invoices/:invoiceId/items] *)
Definition createInvoiceItem (uid invoiceId : Z) (reqBody : list (string * JSValue))
    : M Reply :=
  tryCatch
    (existingInvoice <- query faults (storage.getInvoice invoiceId uid) ;;
     match existingInvoice with
     | None => ret (mkReply 404 (Plain (Message "Invoice not found")))
     | Some _ =>
         validatedData <-
           parse invoiceItemInsertSchema
             (setField "invoiceId" (JNum (numOfZ invoiceId)) reqBody) ;;
         item <- call faults (storage.createInvoiceItem validatedData) ;;
         ret (mkReply 201 (InvoiceItemJson item))
     end)
    (fun error =>
       match error with
       | ZodError errors => ret (mkReply 400 (Plain (Errors errors)))
       | _ => ret (mkReply 500 (Plain (Message "Failed to create invoice item")))
       end).

(** [DELETE /api/protected/agents/:id] *)
Definition deleteAgent (contractorId agentId : Z) : M Response :=
  tryCatch
    (activeEstimates <-
       query faults (fun d =>
         filter (fun e => eqColumn (Estimate.agentId e) agentId
                          && (Estimate.contractorId e =? contractorId))
                (estimates d)) ;;
     if (0 <? Z.of_nat (List.length activeEstimates))
     then ret (json 400 (Message
            "Cannot delete agent with active estimates. Please reassign or complete estimates first."))
     else
       call faults (fun d =>
         (tt, with_agents
                (filter (fun a => negb ((Agent.id a =? agentId)
                                        && (Agent.contractorId a =? contractorId)))
                        (agents d)) d)) ;;;
       ret (json 200 (Message "Agent deleted successfully")))
    (fun _ => ret (json 500 (Message "Failed to delete agent"))).

(** [GET /api/protected/agents/availability/:agentId/:date]; the rows are
    listed without the client each one is joined with. *)
Definition agentAvailability (contractorId agentId : Z) (date : string) : M Reply :=
  tryCatch
    (dayEstimates <-
       query faults (fun d =>
         orderByDate
           (filter (fun e => eqColumn (Estimate.agentId e) agentId
                             && (Estimate.contractorId e =? contractorId)
                             && match Estimate.appointmentDate e with
                                | Some t => onDate t date
                                | None => false
                                end)
                   (estimates d))) ;;
     ret (mkReply 200
            (AvailabilityJson agentId date dayEstimates
               (fold_left
                  (fun sum est =>
                     (sum + numOfZ (intOr (Estimate.appointmentDuration est) 60))%float)
                  dayEstimates 0%float / 60)%float
               (Z.of_nat (List.length dayEstimates) =? 0))))
    (fun _ => ret (mkReply 500 (Plain (Message "Failed to check agent availability")))).

End MoreRoutes.

(** ** Subscriptions and billing

    The plan tables of [GET /api/subscription/status],
    [GET /api/subscription/check/:feature] and
    [GET /api/billing/subscription-info], and the two billing routes that
    write the [contractors] table. *)

Module Contractor.
Record t : Type := mk {
  id : Z;
  email : string;
  username : string;
  companyName : string;
  plan : option string;
  subscriptionStatus : option string;
  planStartDate : option Z;
  planEndDate : option Z;
  updatedAt : option Z
}.
End Contractor.

(** [contractor.plan === name]. *)
Definition planIs (plan : option string) (name : string) : bool :=
  match plan with
  | Some p => String.eqb p name
  | None => false
  end.

(** ['unlimited'], or a number. *)
Inductive Remaining : Type :=
| Unlimited
| Left (n : Z).

(** The [plan] object of the status route. *)
Record PlanStatus : Type := mkPlanStatus {
  planName : option string;
  priceMonthly : Z;
  maxClients : Z;
  hasAiCostAnalysis : bool;
  hasTimeClock : bool;
  hasStripeIntegration : bool;
  hasCustomPortal : bool;
  hasBrandedPortal : bool;
  aiUsageLimit : Z
}.

(** The [usage] object of the status route. *)
Record UsageStatus : Type := mkUsageStatus {
  currentClientCount : Z;
  usageMaxClients : Z;
  clientsRemaining : Remaining;
  currentAiUsage : Z;
  maxAiUsage : Z;
  aiUsageRemaining : Remaining
}.

Definition planStatus (plan : option string) : PlanStatus :=
  mkPlanStatus plan
    (if planIs plan "basic" then 29 else if planIs plan "pro" then 59 else 99)
    (if planIs plan "basic" then 10 else if planIs plan "pro" then 50 else -1)
    (negb (planIs plan "basic"))
    (negb (planIs plan "basic"))
    (planIs plan "business")
    true
    (planIs plan "business")
    (if planIs plan "basic" then 0 else if planIs plan "pro" then 10 else -1).

Definition usageStatus (plan : option string) (clientCount aiUsageCount : Z)
    : UsageStatus :=
  mkUsageStatus clientCount
    (if planIs plan "basic" then 10 else if planIs plan "pro" then 50 else -1)
    (if planIs plan "business" then Unlimited
     else Left (Z.max 0 ((if planIs plan "basic" then 10 else 50) - clientCount)))
    aiUsageCount
    (if planIs plan "basic" then 0 else if planIs plan "pro" then 10 else -1)
    (if planIs plan "business" then Unlimited
     else if planIs plan "basic" then Left 0
     else Left (Z.max 0 (10 - aiUsageCount))).

(** The [switch] of the feature check. *)
Definition hasAccess (feature : string) (plan : option string) : bool :=
  if String.eqb feature "hasAiCostAnalysis" then negb (planIs plan "basic")
  else if String.eqb feature "hasTimeClock" then negb (planIs plan "basic")
  else if String.eqb feature "hasStripeIntegration" then planIs plan "business"
  else if String.eqb feature "hasCustomPortal" then true
  else if String.eqb feature "hasBrandedPortal" then planIs plan "business"
  else false.

(** An entry of the billing route: [currentPlan] and the elements of
    [availablePlans]; a [null] limit is [None]. *)
Record PlanOffer : Type := mkPlanOffer {
  offerName : string;
  displayName : string;
  price : string;
  clientLimit : option Z;
  offerAiUsageLimit : option Z;
  hasTimeClockAccess : bool;
  offerStripeIntegration : bool
}.

Definition currentPlan (plan : option string) : PlanOffer :=
  mkPlanOffer (textOr plan "basic")
    (if planIs plan "basic" then "Basic Plan"
     else if planIs plan "pro" then "Pro Plan" else "Business Plan")
    (if planIs plan "basic" then "29" else if planIs plan "pro" then "59" else "99")
    (if planIs plan "basic" then Some 10 else if planIs plan "pro" then Some 50 else None)
    (if planIs plan "basic" then Some 0 else if planIs plan "pro" then Some 10 else None)
    (negb (planIs plan "basic"))
    (planIs plan "business").

Definition availablePlans : list PlanOffer :=
  [ mkPlanOffer "basic" "Basic Plan" "29" (Some 10) (Some 0) false false;
    mkPlanOffer "pro" "Pro Plan" "59" (Some 50) (Some 10) true false;
    mkPlanOffer "business" "Business Plan" "99" None None true true ].

(** What the billing routes answer. *)
Inductive BillingBody : Type :=
| BillingError (error : string)
| PlanUpdated (message : string) (id : Z) (plan : option string)
    (subscriptionStatus : option string)
| SubscriptionCancelled (message : string) (id : Z)
    (subscriptionStatus : option string) (planEndDate : option Z).

(** [['basic', 'pro', 'business'].includes(planName)]: strict equality
    with one of the three strings. *)
Definition validPlanName (planName : JSValue) : bool :=
  match planName with
  | JStr s => String.eqb s "basic" || String.eqb s "pro" || String.eqb s "business"
  | _ => false
  end.

(** The text of a value that is a string. *)
Definition textOf (v : JSValue) : option string :=
  match v with
  | JStr s => Some s
  | _ => None
  end.

(** [POST /api/billing/upgrade].  [user] is the authenticated contractor,
    if any; [fault] tells whether the update throws; the table is passed
    and returned.  An update that finds no row returns nothing, and reading
    [updatedContractor.id] then throws. *)
Definition billingUpgrade (fault : bool) (now : Z) (user : option Z)
    (planName : JSValue) (contractors : list Contractor.t)
    : Z * BillingBody * list Contractor.t :=
  match user with
  | None => (401, BillingError "Unauthorized", contractors)
  | Some userId =>
      if negb (truthy planName) || negb (validPlanName planName)
      then (400, BillingError "Invalid plan name", contractors)
      else if fault
      then (500, BillingError "Failed to upgrade plan", contractors)
      else
        let rows :=
          map (fun c =>
                 if Contractor.id c =? userId
                 then Contractor.mk (Contractor.id c) (Contractor.email c)
                        (Contractor.username c) (Contractor.companyName c)
                        (textOf planName) (Some "active") (Some now)
                        (Some (now + 30 * 24 * 60 * 60 * 1000)) (Some now)
                 else c)
              contractors in
        match filter (fun c => Contractor.id c =? userId) rows with
        | updatedContractor :: _ =>
            (200,
             PlanUpdated "Plan updated successfully"
               (Contractor.id updatedContractor)
               (Contractor.plan updatedContractor)
               (Contractor.subscriptionStatus updatedContractor),
             rows)
        | [] => (500, BillingError "Failed to upgrade plan", rows)
        end
  end.

(** [POST /api/billing/cancel], in the same way. *)
Definition billingCancel (fault : bool) (now : Z) (user : option Z)
    (contractors : list Contractor.t) : Z * BillingBody * list Contractor.t :=
  match user with
  | None => (401, BillingError "Unauthorized", contractors)
  | Some userId =>
      if fault
      then (500, BillingError "Failed to cancel subscription", contractors)
      else
        let rows :=
          map (fun c =>
                 if Contractor.id c =? userId
                 then Contractor.mk (Contractor.id c) (Contractor.email c)
                        (Contractor.username c) (Contractor.companyName c)
                        (Contractor.plan c) (Some "cancelled")
                        (Contractor.planStartDate c) (Contractor.planEndDate c)
                        (Some now)
                 else c)
              contractors in
        match filter (fun c => Contractor.id c =? userId) rows with
        | updatedContractor :: _ =>
            (200,
             SubscriptionCancelled "Subscription cancelled successfully"
               (Contractor.id updatedContractor)
               (Contractor.subscriptionStatus updatedContractor)
               (Contractor.planEndDate updatedContractor),
             rows)
        | [] => (500, BillingError "Failed to cancel subscription", rows)
        end
  end.

(** ** Validation of request bodies *)

(** [v.k] for a value that is neither [null] nor [undefined] and a key
    that is no built-in property; the keys of an object are distinct. *)
Definition prop (v : JSValue) (k : string) : JSValue :=
  match v with
  | JObj fields =>
      match find (fun kv => String.eqb (fst kv) k) fields with
      | Some (_, x) => x
      | None => JUndefined
      end
  | _ => JUndefined
  end.

(** [v?.k]. *)
Definition optionalProp (v : JSValue) (k : string) : JSValue :=
  match v with
  | JUndefined | JNull => JUndefined
  | _ => prop v k
  end.

(** [typeof v === 'number']. *)
Definition isNumber (v : JSValue) : bool :=
  match v with
  | JNum _ => true
  | _ => false
  end.

(** How the checks at the head of [POST /api/protected/ai/analyze-job-cost]
    end: the request goes on to the analysis, is refused with 400 and the
    given [error] and [message], or a [TypeError] is thrown (and answered
    500 by the route's [catch]). *)
Inductive Checked : Type :=
| Passed
| Refused (error message : string)
| Crashed.

(** The callback of [params.materials.some]. *)
Definition invalidMaterial (m : JSValue) : bool :=
  negb (truthy (prop m "name"))
  || negb (isNumber (prop m "quantity"))
  || negb (isNumber (prop m "unitPrice")).

(** [materials.some(invalid)]: [None] when reading a property of a [null]
    or [undefined] element throws before an invalid one is met. *)
Fixpoint someInvalid (materials : list JSValue) : option bool :=
  match materials with
  | [] => Some false
  | m :: rest =>
      match m with
      | JUndefined | JNull => None
      | _ => if invalidMaterial m then Some true else someInvalid rest
      end
  end.

Definition checkJobCostParams (params : JSValue) : Checked :=
  if negb (truthy params)
  then Refused "Datos faltantes" "No se recibieron datos para el análisis"
  else if negb (truthy (prop params "serviceType"))
  then Refused "Datos insuficientes" "Debe seleccionar un tipo de servicio"
  else
    match prop params "materials" with
    | JArr (m :: rest) =>
        match someInvalid (m :: rest) with
        | Some true =>
            Refused "Invalid data"
              "Algunos materiales tienen información incompleta o inválida"
        | Some false => Passed
        | None => Crashed
        end
    | _ =>
        Refused "Datos insuficientes" "Debe agregar al menos un material al proyecto"
    end.

(** ** Items of a new estimate

    The body of the loop over [req.body.selectedServices] in
    [POST /api/protected/estimates]. *)

Section SelectedServices.

Variable js : Builtins.

(** ToNumber. *)
Definition toNumberJS (v : JSValue) : float :=
  match v with
  | JUndefined => nan
  | JNull => 0%float
  | JBool true => 1%float
  | JBool false => 0%float
  | JNum x => x
  | JStr s => NumberStr js s
  | JArr _ | JObj _ => NumberStr js (toStringJS js v)
  end.

(** What one service hands to [storage.createEstimateItem], the estimate
    id aside: description, quantity, unit price, amount and notes.  For a
    service that is [null] or [undefined], reading [service.measurements]
    throws and there is no item: [None]. *)
Definition selectedServiceItem (service : JSValue)
    : option (JSValue * string * string * string * JSValue) :=
  match service with
  | JUndefined | JNull => None
  | _ =>
      let quantity :=
        jsOr (jsOr (optionalProp (prop service "measurements") "linearFeet")
                   (optionalProp (prop service "measurements") "squareFeet"))
             (JNum 1) in
      let unitPrice :=
        match jsOr (JNum (parseFloat js (prop service "laborRate"))) (JNum 0) with
        | JNum x => x
        | _ => 0%float
        end in
      let amount :=
        jsOr (prop service "laborCost")
             (JNum (toNumberJS quantity * unitPrice)%float) in
      Some (jsOr (prop service "professionalDescription") (prop service "name"),
            toStringJS js quantity,
            toStringJS js (JNum unitPrice),
            toStringJS js amount,
            jsOr (prop service "notes") JNull)
  end.

End SelectedServices.

(** ** The request log of [server/index.ts]

    A JavaScript string is a list of UTF-16 code units. *)

Definition ellipsis : N := 8230%N.

(** [" :: "]. *)
Definition separator : list N := [32; 58; 58; 32]%N.

(** The line logged when a request to [/api] finishes: [summary] is
    [`${req.method} ${path} ${res.statusCode} in ${duration}ms`] and [json]
    the text of the JSON body the response was given, when that body is
    truthy. *)
Definition requestLogLine (summary : list N) (json : option (list N)) : list N :=
  let logLine :=
    match json with
    | Some text => (summary ++ separator ++ text)%list
    | None => summary
    end in
  if (80 <? Z.of_nat (List.length logLine))
  then (firstn 79 logLine ++ [ellipsis])%list
  else logLine.

(** ** Database health monitoring of [server/index.ts] *)

(** What is written to the console about the database: the two messages
    of [checkDatabaseHealth] and the one of the error middleware, with the
    path of the request and the message of the error. *)
Inductive HealthMessage : Type :=
| ConnectionRestored
| ConnectionFailed
| ConnectionError (path : string) (message : option string).

(** [checkDatabaseHealth]: [reachable] tells whether [SELECT 1] goes
    through, [dbHealthy] is the module variable.  The result, the messages
    written, and the variable afterwards. *)
Definition checkDatabaseHealth (reachable dbHealthy : bool)
    : bool * list HealthMessage * bool :=
  if reachable
  then
    if negb dbHealthy
    then (true, [ConnectionRestored], true)
    else (true, [], dbHealthy)
  else
    if dbHealthy
    then (false, [ConnectionFailed], false)
    else (false, [], dbHealthy).

(** The body of the health endpoint; the timestamp is kept as the time
    value. *)
Record HealthBody : Type := mkHealthBody {
  healthStatus : string;
  healthTimestamp : Z;
  healthDatabase : bool
}.

(** [GET /api/health]: the status code and the body, the messages written,
    and [dbHealthy] afterwards. *)
Definition healthCheck (now : Z) (reachable dbHealthy : bool)
    : Z * HealthBody * list HealthMessage * bool :=
  let '(isDbHealthy, messages, flag) := checkDatabaseHealth reachable dbHealthy in
  (if isDbHealthy then 200 else 503,
   mkHealthBody (if isDbHealthy then "healthy" else "unhealthy") now isDbHealthy,
   messages, flag).

(** [s.includes(needle)]. *)
Fixpoint includes (needle s : string) : bool :=
  String.prefix needle s
  || match s with
     | String _ rest => includes needle rest
     | EmptyString => false
     end.

(** An error that reaches the error middleware: an object whose [message]
    is a string or is absent. *)
Record ServerError : Type := mkServerError {
  errStatus : JSValue;
  errStatusCode : JSValue;
  errMessage : option string;
  errCode : JSValue
}.

(** [err.message?.includes('connection') || err.code === 'ECONNREFUSED'] *)
Definition connectionTrouble (err : ServerError) : bool :=
  match errMessage err with
  | Some message => includes "connection" message
  | None => false
  end
  || match errCode err with
     | JStr code => String.eqb code "ECONNREFUSED"
     | _ => false
     end.

(** The error middleware: the status and the message of the answer, the
    messages written, and [dbHealthy] afterwards. *)
Definition errorMiddleware (path : string) (err : ServerError) (dbHealthy : bool)
    : JSValue * string * list HealthMessage * bool :=
  let status := jsOr (jsOr (errStatus err) (errStatusCode err)) (JNum 500) in
  let message := textOr (errMessage err) "Internal Server Error" in
  if connectionTrouble err
  then (status, message, [ConnectionError path (errMessage err)], false)
  else (status, message, [], dbHealthy).

(** What happens to [dbHealthy]: a check (by the endpoint or by the
    timer), or an error passing through the error middleware. *)
Inductive ServerEvent : Type :=
| HealthProbe (reachable : bool)
| RequestError (path : string) (err : ServerError).

(** A run of events, one after the other: all the messages written, and
    [dbHealthy] at the end. *)
Fixpoint monitor (events : list ServerEvent) (dbHealthy : bool)
    : list HealthMessage * bool :=
  match events with
  | [] => ([], dbHealthy)
  | event :: rest =>
      let '(messages, flag) :=
        match event with
        | HealthProbe reachable =>
            let '(_, messages, flag) := checkDatabaseHealth reachable dbHealthy in
            (messages, flag)
        | RequestError path err =>
            let '(_, _, messages, flag) := errorMiddleware path err dbHealthy in
            (messages, flag)
        end in
      let '(later, final) := monitor rest flag in
      ((messages ++ later)%list, final)
  end.

(** The messages tell the truth about [dbHealthy], which stands at
    [healthy] before them: a recovery is reported only of a database held
    to be down, a failure only of one held to be up, and after an error of
    the connection the database is held to be down. *)
Fixpoint truthful (healthy : bool) (messages : list HealthMessage) : Prop :=
  match messages with
  | [] => True
  | ConnectionRestored :: rest => healthy = false /\ truthful true rest
  | ConnectionFailed :: rest => healthy = true /\ truthful false rest
  | ConnectionError _ _ :: rest => truthful false rest
  end.

(** Failures and recoveries alternate, a failure coming first when
    [failureFirst]. *)
Fixpoint alternates (failureFirst : bool) (messages : list HealthMessage) : Prop :=
  match messages with
  | [] => True
  | m :: rest =>
      m = (if failureFirst then ConnectionFailed else ConnectionRestored)
      /\ alternates (negb failureFirst) rest
  end.

(** The event is a check. *)
Definition isProbe (event : ServerEvent) : bool :=
  match event with
  | HealthProbe _ => true
  | RequestError _ _ => false
  end.

(** ** More sample data *)

Module Fixtures.

(** The integer a number holds, when it holds one. *)
Definition integerOf (x : float) : Z :=
  match Prim2SF x with
  | S754_finite negative m e =>
      let n := if 0 <=? e then Zpos m * 2 ^ e else Zpos m / 2 ^ (- e) in
      if negative then - n else n
  | _ => 0
  end.

(** An invoice-item schema that asks for a textual [description] and a
    numeric [invoiceId]; quantity, unit price and amount default. *)
Definition invoiceItemSchema : Schema InvoiceItem.t :=
  fun input =>
    match prop (JObj input) "description", prop (JObj input) "invoiceId" with
    | JStr description, JNum invoiceId =>
        inr (fun id => InvoiceItem.mk id (integerOf invoiceId) description
                         "1" "0" "0" None)
    | _, _ => inl (JArr [JStr "description: Required"])
    end.



(** A database whose [DATE] of a time value is the number of its day. *)
Definition onDay (t : Z) (date : string) : bool :=
  String.eqb date (decimal (t / Node.msPerDay)).

(** Contractor 1 is on the basic plan; contractor 2 has no plan yet. *)
Definition contractor1 : Contractor.t :=
  Contractor.mk 1 "ada@example.com" "ada" "Ada Fences" (Some "basic")
    (Some "active") None None None.

Definition contractor2 : Contractor.t :=
  Contractor.mk 2 "bob@example.com" "bob" "Bob Decks" None None None None None.

Definition contractors : list Contractor.t := [contractor1; contractor2].

(** An estimate and an invoice of contractor 1 that have notes, and the
    sample data with the two of them. *)
Definition estimate34 : Estimate.t :=
  Estimate.mk 34 1 10 None "EST-34" Sample.today "sent" "120.00" "0" "0" "120.00"
    (Some "Call first") None None None None None None.

Definition invoice45 : Invoice.t :=
  Invoice.mk 45 1 10 None None "OT-202411-987" Sample.today
    (Sample.today + 15 * 24 * Sample.hour) "pending" "120.00" "0" "0" "120.00"
    (Some "0") None (Some "Deposit agreed") None.

Definition data : DB :=
  with_estimates (estimates Sample.data ++ [estimate34])%list
    (with_invoices (invoices Sample.data ++ [invoice45])%list Sample.data).

(** Estimate 33 for agent 50, at noon of [Sample.today], for an hour. *)
Definition noon : AssignRequest :=
  mkAssign 33 50 (Sample.today + 12 * Sample.hour) None.

End Fixtures.

(** ** Vocabulary of the further statements *)

(** The line a cancellation appends to the notes of an invoice, and the
    row it leaves: [invoice] is the row as it was read, [i] the row that is
    overwritten. *)
Definition cancellationLine (js : Builtins) (notes : JSValue) : string :=
  if truthy notes then "Cancelled: " ++ toStringJS js notes
  else "Invoice cancelled".

Definition cancelledInvoice (js : Builtins) (notes : JSValue)
    (invoice i : Invoice.t) : Invoice.t :=
  invoiceWithNotes
    (Some (notesPrefix (Invoice.notes invoice) ++ cancellationLine js notes))
    (Invoice.with_status "cancelled" i).

(** What a payment of contractor [uid] on invoice [invoiceId] may change
    between [d] and [d']: nothing outside the invoices and the projects; no
    invoice is added or removed and the invoices the request does not
    address stay as they are; no project is removed or renumbered and the
    projects of other contractors stay as they are. *)
Definition paymentFrame (uid invoiceId : Z) (d d' : DB) : Prop :=
  clients d' = clients d
  /\ estimates d' = estimates d
  /\ estimateItems d' = estimateItems d
  /\ invoiceItems d' = invoiceItems d
  /\ agents d' = agents d
  /\ events d' = events d
  /\ map Invoice.id (invoices d') = map Invoice.id (invoices d)
  /\ (forall i, In i (invoices d) -> storage.isInvoice invoiceId uid i = false ->
                In i (invoices d'))
  /\ (exists added,
        map Project.id (projects d') = (map Project.id (projects d) ++ added)%list)
  /\ (forall p, In p (projects d) -> Project.contractorId p <> uid ->
                In p (projects d')).

(** The row an acceptance and a rejection leave: [estimate] is the row as
    it was read, [e] the row that is overwritten. *)
Definition acceptedEstimate (js : Builtins) (notes : JSValue)
    (estimate e : Estimate.t) : Estimate.t :=
  Estimate.with_notes
    (Some (notesPrefix (Estimate.notes estimate)
           ++ (if truthy notes then "Accepted: " ++ toStringJS js notes
               else "Estimate accepted")))
    (Estimate.with_status "accepted" e).

Definition rejectedEstimate (js : Builtins) (notes : JSValue)
    (estimate e : Estimate.t) : Estimate.t :=
  Estimate.with_notes
    (Some (notesPrefix (Estimate.notes estimate)
           ++ "Rejected: " ++ toStringJS js notes))
    (Estimate.with_status "rejected" e).

(** The estimate can still be decided. *)
Definition undecided (e : Estimate.t) : Prop :=
  Estimate.status e = "draft" \/ Estimate.status e = "sent".

(** The invoice a conversion inserts. *)
Definition convertedInvoice (js : Builtins) (now : Z) (clock : nat -> Z)
    (random : float) (uid : Z) (estimate : Estimate.t) (d : DB) : Invoice.t :=
  Invoice.mk (nextId (map Invoice.id (invoices d))) uid
    (Estimate.clientId estimate) (Estimate.projectId estimate)
    (Some (Estimate.id estimate)) (newInvoiceNumber js now random) (clock 0%nat)
    (setDate js (clock 1%nat) (getDate js (clock 2%nat) + 15)) "pending"
    (Estimate.subtotal estimate)
    (Estimate.tax estimate) (Estimate.discount estimate)
    (Estimate.total estimate) (Some "0") (Estimate.terms estimate)
    (Estimate.notes estimate) (Estimate.contractorSignature estimate).

(** The status code of the response sent, if one was sent. *)
Definition code_of (r : option Response) : option Z := option_map code r.

(** The estimate is booked for that agent of the contractor. *)
Definition bookedFor (contractorId agentId : Z) (e : Estimate.t) : Prop :=
  Estimate.agentId e = Some agentId /\ Estimate.contractorId e = contractorId.

(** The estimate is booked for the agent on that date. *)
Definition bookedOn (onDate : Z -> string -> bool) (contractorId agentId : Z)
    (date : string) (e : Estimate.t) : Prop :=
  bookedFor contractorId agentId e
  /\ exists t, Estimate.appointmentDate e = Some t /\ onDate t date = true.

(** The appointment dates of the rows that have one. *)
Definition appointmentDates (rows : list Estimate.t) : list Z :=
  flat_map (fun e => match Estimate.appointmentDate e with
                     | Some t => [t]
                     | None => []
                     end) rows.

(** What the availability route lists and adds up. *)
Definition dayEstimates (onDate : Z -> string -> bool) (contractorId agentId : Z)
    (date : string) (d : DB) : list Estimate.t :=
  orderByDate
    (filter (fun e => eqColumn (Estimate.agentId e) agentId
                      && (Estimate.contractorId e =? contractorId)
                      && match Estimate.appointmentDate e with
                         | Some t => onDate t date
                         | None => false
                         end)
            (estimates d)).

Definition bookedHours (rows : list Estimate.t) : float :=
  (fold_left
     (fun sum est => (sum + numOfZ (intOr (Estimate.appointmentDuration est) 60))%float)
     rows 0%float / 60)%float.

(** The row an assignment leaves. *)
Definition assignedEstimate (req : AssignRequest) (e : Estimate.t) : Estimate.t :=
  Estimate.with_assignment (agentId req) (appointmentDate req)
    (intOr (appointmentDuration req) 60) "agent" e.

(** The plan is one of the three the billing routes offer. *)
Definition listedPlan (plan : option string) : Prop :=
  plan = Some "basic" \/ plan = Some "pro" \/ plan = Some "business".

(** Thirty days, in milliseconds. *)
Definition thirtyDays : Z := 2592000000.

(** The row of a contractor after an upgrade and after a cancellation. *)
Definition upgradedContractor (now : Z) (planName : JSValue) (c : Contractor.t)
    : Contractor.t :=
  Contractor.mk (Contractor.id c) (Contractor.email c) (Contractor.username c)
    (Contractor.companyName c) (textOf planName) (Some "active") (Some now)
    (Some (now + 30 * 24 * 60 * 60 * 1000)) (Some now).

Definition cancelledContractor (now : Z) (c : Contractor.t) : Contractor.t :=
  Contractor.mk (Contractor.id c) (Contractor.email c) (Contractor.username c)
    (Contractor.companyName c) (Contractor.plan c) (Some "cancelled")
    (Contractor.planStartDate c) (Contractor.planEndDate c) (Some now).

(** The contractor's row, as the [where] of the billing routes selects it. *)
Definition contractorRow (userId : Z) (contractors : list Contractor.t)
    : option Contractor.t :=
  find (fun c => Contractor.id c =? userId) contractors.

(** A material the job-cost check lets through: an element that is not
    [null] or [undefined], with a truthy name and numbers, of any value,
    for quantity and unit price. *)
Definition wellFormedMaterial (m : JSValue) : Prop :=
  m <> JUndefined /\ m <> JNull
  /\ truthy (prop m "name") = true
  /\ isNumber (prop m "quantity") = true
  /\ isNumber (prop m "unitPrice") = true.

(** The log line before it is clipped. *)
Definition fullLogLine (summary : list N) (json : option (list N)) : list N :=
  match json with
  | Some text => (summary ++ separator ++ text)%list
  | None => summary
  end.

(** * Properties *)

(** ** Order of binary64 numbers *)

Lemma SFcompare_antisym (x y : spec_float) :
  SFcompare y x = option_map CompOpp (SFcompare x y).
Proof.
  destruct x as [sx|sx| |sx mx ex], y as [sy|sy| |sy my ey]; simpl; try reflexivity;
    try (destruct sx; reflexivity); try (destruct sy; reflexivity);
    try (destruct sx, sy; reflexivity).
  change (Pos.compare_cont Eq my mx) with (Pos.compare my mx).
  change (Pos.compare_cont Eq mx my) with (Pos.compare mx my).
  rewrite (Z.compare_antisym ey ex), (Pos.compare_antisym my mx).
  destruct sx, sy; simpl; try reflexivity;
    destruct (ey ?= ex)%Z; simpl; try reflexivity;
    destruct (my ?= mx)%positive; reflexivity.
Qed.

(** [x <= y] excludes [x > y]. *)
Lemma leb_not_gt (x y : float) : (x <=? y)%float = true -> (y <? x)%float = false.
Proof.
  rewrite leb_spec, ltb_spec. unfold SFleb, SFltb.
  rewrite (SFcompare_antisym (Prim2SF x) (Prim2SF y)).
  destruct (SFcompare (Prim2SF x) (Prim2SF y)) as [[]|]; simpl; congruence.
Qed.

(** [x < y] excludes [x >= y]. *)
Lemma ltb_not_ge (x y : float) : (x <? y)%float = true -> (y <=? x)%float = false.
Proof.
  rewrite leb_spec, ltb_spec. unfold SFleb, SFltb.
  rewrite (SFcompare_antisym (Prim2SF x) (Prim2SF y)).
  destruct (SFcompare (Prim2SF x) (Prim2SF y)) as [[]|]; simpl; congruence.
Qed.

(** A zero is neither above a positive number nor above zero. *)
Lemma zero_below_positive (n t : float) :
  (n =? 0)%float = true -> (0 <? t)%float = true ->
  (t <=? n)%float = false /\ (0 <? n)%float = false.
Proof.
  rewrite eqb_spec, !ltb_spec, leb_spec. unfold SFeqb, SFltb, SFleb.
  change (Prim2SF 0) with (S754_zero false).
  destruct (Prim2SF n) as [sn|sn| |sn mn en], (Prim2SF t) as [st|st| |st mt et];
    simpl; try congruence; try (destruct sn; congruence);
    try (destruct st; simpl; intuition congruence).
Qed.

(** Numeric zero is falsy. *)
Lemma zero_is_falsy (x : float) : (x =? 0)%float = true -> truthy (JNum x) = false.
Proof. intros H. simpl. rewrite H. reflexivity. Qed.

(** ** Rows found after an update *)

Lemma find_patched {A} (hit : A -> bool) (patch : A -> A) (l : list A) :
  (forall x, hit (patch x) = hit x) ->
  find hit (map (fun x => if hit x then patch x else x) l)
  = option_map patch (find hit l).
Proof.
  intros Hkeep. induction l as [|x l IH]; simpl; [reflexivity|].
  destruct (hit x) eqn:Hx.
  - rewrite Hkeep, Hx. reflexivity.
  - rewrite Hx. exact IH.
Qed.

(** ** Running a handler *)

Lemma string_eqb_false (s t : string) : s <> t -> String.eqb s t = false.
Proof. intros H. apply String.eqb_neq. exact H. Qed.

(** ** Cancelling a project *)

Lemma string_append_assoc (a b c : string) : (a ++ b) ++ c = a ++ (b ++ c).
Proof. induction a as [|x a IH]; cbn [append]; [reflexivity|]. rewrite IH. reflexivity. Qed.

(** What the notes become when a line is added to them. *)
Lemma notesPrefix_appended (old : option string) (line : string) :
  notesPrefix old ++ line
  = match old with
    | None => line
    | Some "" => line
    | Some text => text ++ String "010"%char (String "010"%char line)
    end.
Proof.
  unfold notesPrefix, LF. destruct old as [[|c text]|]; try reflexivity.
  cbn [String.eqb]. rewrite string_append_assoc. reflexivity.
Qed.

(** C8: cancelling an existing project that is not cancelled sets its
    status to "cancelled" and appends the cancellation line to its notes:
    the new notes are the line alone when there were no notes, and the old
    notes, an empty line and the cancellation line otherwise; every other
    column of the row and every other row and table stay as they were;
    cancelling a cancelled project is answered 400 and changes nothing. *)
Theorem cancelProject_frame (js : Builtins) (faults : nat -> bool)
    (uid projectId : Z) (notes : JSValue) (d : DB) (p : Project.t) :
  faults 0%nat = false ->
  faults 1%nat = false ->
  storage.getProject projectId uid d = Some p ->
  let out := serve (cancelProject js faults uid projectId notes) d in
  let line :=
    if truthy notes then "Cancelled: " ++ toStringJS js notes
    else "Project cancelled" in
  let newNotes :=
    match Project.notes p with
    | None => line
    | Some "" => line
    | Some old => old ++ String "010"%char (String "010"%char line)
    end in
  let cancelled q :=
    Project.mk (Project.id q) (Project.contractorId q) (Project.clientId q)
      (Project.title q) (Project.description q) "cancelled" (Project.budget q)
      (Project.startDate q) (Project.endDate q) (Some newNotes) in
  (Project.status p <> "cancelled" ->
   out = (Some (json 200 (ProjectJson (Some (cancelled p)))),
          with_projects
            (map (fun q => if storage.isProject projectId uid q
                           then cancelled q else q) (projects d)) d)
   /\ storage.getProject projectId uid (snd out) = Some (cancelled p)
   /\ (forall reason, notes = JStr reason -> reason <> "" ->
       line = "Cancelled: " ++ reason))
  /\
  (Project.status p = "cancelled" ->
   out = (Some (json 400 (Message "Project is already cancelled")), d)).
Proof.
  intros H0 H1 Hp out line newNotes cancelled. subst out.
  unfold cancelProject. run_handler. rewrite H0, Hp. cbn [db calls fst snd].
  split.
  - intros Hs. rewrite (string_eqb_false _ _ Hs). cbn [db calls fst snd].
    rewrite H1. unfold storage.updateProject. rewrite Hp. cbn [option_map db calls fst snd].
    assert (Hline : (if truthy notes
                     then notesPrefix (Project.notes p) ++ "Cancelled: " ++ toStringJS js notes
                     else notesPrefix (Project.notes p) ++ "Project cancelled")
                    = newNotes).
    { subst newNotes line. unfold notesPrefix, LF.
      destruct (Project.notes p) as [old|]; [|destruct (truthy notes); reflexivity].
      destruct old as [|c old]; [destruct (truthy notes); reflexivity|].
      cbn [String.eqb]. destruct (truthy notes);
        rewrite string_append_assoc; reflexivity. }
    rewrite Hline. split; [reflexivity|]. split.
    + unfold storage.getProject, with_projects. cbn [projects].
      rewrite find_patched.
      * unfold storage.getProject in Hp. rewrite Hp. reflexivity.
      * intros x. reflexivity.
    + intros reason Hreason Hfilled. subst line notes.
      cbn [truthy toStringJS]. rewrite (string_eqb_false _ _ Hfilled). reflexivity.
  - intros Hs. rewrite Hs. reflexivity.
Qed.

Lemma cancelProject_frame_witness :
  healthy 0%nat = false /\
  healthy 1%nat = false /\
  storage.getProject 21 1 Sample.data = Some Sample.project21 /\
  Project.status Sample.project21 <> "cancelled" /\
  storage.getProject 21 1
    (snd (serve (cancelProject Node.builtins healthy 1 21 (JStr "client left"))
                Sample.data))
  = Some (Project.mk 21 1 10 "Deck" None "cancelled" None None None
            (Some ("Done in May"
                   ++ String "010"%char (String "010"%char "Cancelled: client left")))).
Proof.
  split; [reflexivity|]. split; [reflexivity|]. split; [reflexivity|].
  split; [discriminate|].
  destruct (cancelProject_frame Node.builtins healthy 1 21 (JStr "client left")
              Sample.data Sample.project21 eq_refl eq_refl eq_refl) as [Hlive _].
  destruct (Hlive ltac:(discriminate)) as [_ [Hrow _]]. exact Hrow.
Defined.

(** ** Accepting and rejecting an estimate *)

(** C9: accepting or rejecting an estimate whose status is neither
    'draft' nor 'sent' leaves the database as it was, whether or not the
    database call fails, so no such estimate becomes 'accepted' or
    'rejected'; both routes answer it 400; rejecting without notes (absent
    or empty) is answered 400 and changes nothing either. *)
Theorem accept_reject_guard (js : Builtins) (faults : nat -> bool)
    (uid estimateId : Z) (notes : JSValue) (d : DB) (e : Estimate.t) :
  storage.getEstimate estimateId uid d = Some e ->
  (Estimate.status e <> "draft" -> Estimate.status e <> "sent" ->
   snd (serve (acceptEstimate js faults uid estimateId notes) d) = d
   /\ snd (serve (rejectEstimate js faults uid estimateId notes) d) = d)
  /\
  (faults 0%nat = false ->
   Estimate.status e <> "draft" -> Estimate.status e <> "sent" ->
   fst (serve (acceptEstimate js faults uid estimateId notes) d)
   = Some (json 400 (Message ("Estimate cannot be accepted from current status: "
                              ++ Estimate.status e)))
   /\
   fst (serve (rejectEstimate js faults uid estimateId notes) d)
   = Some (json 400 (Message ("Estimate cannot be rejected from current status: "
                              ++ Estimate.status e))))
  /\
  (faults 0%nat = false ->
   truthy notes = false ->
   exists message,
     serve (rejectEstimate js faults uid estimateId notes) d
     = (Some (json 400 (Message message)), d)).
Proof.
  intros He. split; [|split].
  - intros Hdraft Hsent.
    unfold acceptEstimate, rejectEstimate. run_handler.
    destruct (faults 0%nat); cbn [db calls fst snd]; [split; reflexivity|].
    rewrite He. cbn [db calls fst snd].
    rewrite (string_eqb_false _ _ Hdraft), (string_eqb_false _ _ Hsent).
    split; reflexivity.
  - intros H0 Hdraft Hsent.
    unfold acceptEstimate, rejectEstimate. run_handler.
    rewrite H0, He. cbn [db calls fst snd].
    rewrite (string_eqb_false _ _ Hdraft), (string_eqb_false _ _ Hsent).
    split; reflexivity.
  - intros H0 Hnotes. unfold rejectEstimate. run_handler.
    rewrite H0, He, Hnotes. cbn [db calls fst snd].
    destruct (negb (String.eqb (Estimate.status e) "draft")
              && negb (String.eqb (Estimate.status e) "sent")).
    + eexists. reflexivity.
    + eexists. reflexivity.
Qed.

Lemma accept_reject_guard_witness :
  storage.getEstimate 30 1 Sample.data = Some Sample.estimate30 /\
  healthy 0%nat = false /\
  Estimate.status Sample.estimate30 <> "draft" /\
  Estimate.status Sample.estimate30 <> "sent" /\
  truthy (JStr "") = false /\
  fst (serve (acceptEstimate Node.builtins healthy 1 30 JUndefined) Sample.data)
  = Some (json 400 (Message "Estimate cannot be accepted from current status: accepted")) /\
  snd (serve (rejectEstimate Node.builtins healthy 1 30 (JStr "")) Sample.data)
  = Sample.data.
Proof.
  split; [reflexivity|]. split; [reflexivity|].
  split; [discriminate|]. split; [discriminate|]. split; [reflexivity|].
  destruct (accept_reject_guard Node.builtins healthy 1 30 JUndefined Sample.data
              Sample.estimate30 eq_refl) as [_ [Hguard _]].
  destruct (accept_reject_guard Node.builtins healthy 1 30 (JStr "") Sample.data
              Sample.estimate30 eq_refl) as [_ [_ Hnotes]].
  destruct (Hguard eq_refl ltac:(discriminate) ltac:(discriminate)) as [Haccept _].
  destruct (Hnotes eq_refl eq_refl) as [message Hreject].
  split; [exact Haccept|]. rewrite Hreject. reflexivity.
Defined.

(** ** Validation, missing rows and other errors *)




(** ** Assigning an estimate to an agent *)

(** The route's test on one fetched row says what [conflictsWith] says. *)
Lemma overlapsSlot_spec (contractorId : Z) (req : AssignRequest) (e : Estimate.t) :
  (eqColumn (Estimate.agentId e) (agentId req)
   && (Estimate.contractorId e =? contractorId)
   && negb (Estimate.id e =? estimateId req)
   && isNotNull (Estimate.appointmentDate e)) = true
  /\ overlapsSlot (appointmentDate req)
       (appointmentDate req + intOr (appointmentDuration req) 60 * 60000) e = true
  <-> conflictsWith contractorId req e.
Proof.
  unfold conflictsWith, overlapsSlot, slotEnd, eqColumn, isNotNull.
  destruct (Estimate.agentId e) as [a|], (Estimate.appointmentDate e) as [s|];
    rewrite ?andb_true_iff, ?negb_true_iff, ?Z.eqb_eq, ?Z.eqb_neq, ?Z.ltb_lt.
  - split.
    + intros [[[[Ha Hc] Hid] _] [Hlt Hgt]]. subst a.
      repeat split; try assumption. exists s. repeat split; [assumption|lia].
    + intros [Hid [Ha [Hc [s' [Hs [Hlt Hgt]]]]]].
      injection Ha as Ha. injection Hs as Hs. subst a s'.
      repeat split; try assumption; try reflexivity. lia.
  - split.
    + intros [[_ Hnull] _]. discriminate.
    + intros [_ [_ [_ [s' [Hs _]]]]]. discriminate.
  - split.
    + intros [[[[Ha _] _] _] _]. discriminate.
    + intros [_ [Ha _]]. discriminate.
  - split.
    + intros [[[[Ha _] _] _] _]. discriminate.
    + intros [_ [Ha _]]. discriminate.
Qed.

(** The route finds a conflict exactly when some estimate conflicts. *)
Lemma hasTimeConflict_spec (contractorId : Z) (req : AssignRequest) (d : DB) :
  existsb (overlapsSlot (appointmentDate req)
             (appointmentDate req + intOr (appointmentDuration req) 60 * 60000))
          (filter (fun e => eqColumn (Estimate.agentId e) (agentId req)
                            && (Estimate.contractorId e =? contractorId)
                            && negb (Estimate.id e =? estimateId req)
                            && isNotNull (Estimate.appointmentDate e))
                  (estimates d)) = true
  <-> exists e, In e (estimates d) /\ conflictsWith contractorId req e.
Proof.
  rewrite existsb_exists. split.
  - intros [e [Hin Hover]]. apply filter_In in Hin. destruct Hin as [Hin Hsel].
    exists e. split; [exact Hin|]. apply overlapsSlot_spec. split; assumption.
  - intros [e [Hin Hconf]]. apply overlapsSlot_spec in Hconf.
    destruct Hconf as [Hsel Hover].
    exists e. split; [|exact Hover]. apply filter_In. split; assumption.
Qed.

Lemma find_patched_wider {A} (hit cond : A -> bool) (patch : A -> A) (l : list A) :
  (forall x, hit x = true -> cond x = true) ->
  (forall x, hit (patch x) = hit x) ->
  find hit (map (fun x => if cond x then patch x else x) l)
  = option_map patch (find hit l).
Proof.
  intros Hwide Hkeep. induction l as [|x l IH]; simpl; [reflexivity|].
  destruct (cond x) eqn:Hc.
  - rewrite Hkeep. destruct (hit x); [reflexivity|exact IH].
  - destruct (hit x) eqn:Hx; [|exact IH].
    apply Hwide in Hx. congruence.
Qed.

(** What the route does once the estimate and the agent are found. *)
Lemma assignEstimate_run (faults : nat -> bool) (c : Z) (req : AssignRequest)
    (d : DB) (estimate : Estimate.t) (agent : Agent.t) :
  faults 0%nat = false -> faults 1%nat = false ->
  faults 2%nat = false -> faults 3%nat = false ->
  requestedEstimate c req d = Some estimate ->
  requestedAgent c req d = Some agent ->
  let slot := overlapsSlot (appointmentDate req)
                (appointmentDate req + intOr (appointmentDuration req) 60 * 60000) in
  let fetched :=
    filter (fun e => eqColumn (Estimate.agentId e) (agentId req)
                     && (Estimate.contractorId e =? c)
                     && negb (Estimate.id e =? estimateId req)
                     && isNotNull (Estimate.appointmentDate e))
           (estimates d) in
  serve (assignEstimate faults c req) d
  = if existsb slot fetched
    then (Some (json 409 (SchedulingConflict
                            "Agent has a scheduling conflict at this time"
                            (filter slot fetched))), d)
    else (Some (json 200 (EstimateJson
                  (hd_error (filter (fun e => Estimate.id e =? estimateId req)
                                    (assignedRows req d))))),
          if faults 4%nat
          then with_estimates (assignedRows req d) d
          else with_events
                 (events d ++ [appointmentEvent c req estimate agent d])%list
                 (with_estimates (assignedRows req d) d)).
Proof.
  intros H0 H1 H2 H3 He Ha slot fetched. subst slot fetched.
  unfold requestedEstimate in He. unfold requestedAgent in Ha.
  unfold assignEstimate. run_handler.
  rewrite H0, He. cbn [db calls fst snd]. rewrite H1, Ha. cbn [db calls fst snd].
  rewrite H2. cbn [db calls fst snd].
  destruct (existsb _ _); [reflexivity|].
  cbn [db calls fst snd]. rewrite H3. cbn [db calls fst snd].
  destruct (faults 4%nat); reflexivity.
Qed.



(** The row the update returns is a row with the id of the request,
    carrying the assignment. *)
Lemma returned_row (c : Z) (req : AssignRequest) (d : DB) (estimate : Estimate.t) :
  requestedEstimate c req d = Some estimate ->
  exists x,
    hd_error (filter (fun e => Estimate.id e =? estimateId req) (assignedRows req d))
    = Some (assignedEstimate req x)
    /\ Estimate.id x = estimateId req.
Proof.
  unfold requestedEstimate, assignedRows.
  induction (estimates d) as [|e l IH]; cbn [find map filter]; [discriminate|].
  destruct (Estimate.id e =? estimateId req) eqn:Hid.
  - intros _. cbn [Estimate.with_assignment Estimate.id]. rewrite Hid.
    exists e. split; [reflexivity|]. apply Z.eqb_eq. exact Hid.
  - cbn [andb]. rewrite Hid. exact IH.
Qed.

(** C10: when an assignment goes through, a confirmed calendar event
    from the appointment date to the end of the slot is inserted; if
    inserting the event throws, the answer is still 200 with the updated
    estimate, and the estimate stays assigned: in the response and in the
    table it carries the agent, the appointment date, the duration and the
    type 'agent'; only the event is missing. *)
Theorem assignEstimate_event_is_best_effort (faults : nat -> bool) (c : Z)
    (req : AssignRequest) (d : DB) (estimate : Estimate.t) (agent : Agent.t) :
  faults 0%nat = false -> faults 1%nat = false ->
  faults 2%nat = false -> faults 3%nat = false ->
  requestedEstimate c req d = Some estimate ->
  requestedAgent c req d = Some agent ->
  ~ (exists e, In e (estimates d) /\ conflictsWith c req e) ->
  let out := serve (assignEstimate faults c req) d in
  let event := appointmentEvent c req estimate agent d in
  (exists returned,
     fst out = Some (json 200 (EstimateJson (Some returned)))
     /\ Estimate.id returned = estimateId req
     /\ Estimate.agentId returned = Some (agentId req)
     /\ Estimate.appointmentDate returned = Some (appointmentDate req)
     /\ Estimate.appointmentDuration returned
        = Some (intOr (appointmentDuration req) 60)
     /\ Estimate.estimateType returned = Some "agent")
  /\ (exists row,
        requestedEstimate c req (snd out) = Some row
        /\ Estimate.agentId row = Some (agentId req)
        /\ Estimate.appointmentDate row = Some (appointmentDate req)
        /\ Estimate.appointmentDuration row
           = Some (intOr (appointmentDuration req) 60)
        /\ Estimate.estimateType row = Some "agent"
        /\ Estimate.status row = Estimate.status estimate
        /\ Estimate.total row = Estimate.total estimate)
  /\ estimates (snd out) = assignedRows req d
  /\ Event.status event = "confirmed"
  /\ Event.type event = "estimate"
  /\ Event.contractorId event = c
  /\ Event.startTime event = appointmentDate req
  /\ Event.endTime event
     = appointmentDate req + intOr (appointmentDuration req) 60 * 60000
  /\ (faults 4%nat = false -> events (snd out) = (events d ++ [event])%list)
  /\ (faults 4%nat = true -> events (snd out) = events d).
Proof.
  intros H0 H1 H2 H3 He Ha Hno out event. subst out event.
  rewrite (assignEstimate_run faults c req d estimate agent H0 H1 H2 H3 He Ha).
  pose proof (hasTimeConflict_spec c req d) as Hspec.
  destruct (existsb _ _) eqn:Hex.
  - exfalso. apply Hno. apply Hspec. reflexivity.
  - cbn [fst snd].
    assert (Hrows : estimates (if faults 4%nat
                               then with_estimates (assignedRows req d) d
                               else with_events
                                      (events d
                                       ++ [appointmentEvent c req estimate agent d])%list
                                      (with_estimates (assignedRows req d) d))
                    = assignedRows req d)
      by (destruct (faults 4%nat); reflexivity).
    split.
    { destruct (returned_row c req d estimate He) as [x [Hhead Hid]].
      rewrite Hhead. exists (assignedEstimate req x).
      split; [reflexivity|]. split; [exact Hid|]. repeat split. }
    split.
    { unfold requestedEstimate at 1. rewrite Hrows. unfold assignedRows.
      rewrite find_patched_wider.
      - unfold requestedEstimate in He. rewrite He. cbn [option_map].
        eexists. split; [reflexivity|]. repeat split.
      - intros x Hx. apply andb_true_iff in Hx. tauto.
      - intros x. reflexivity. }
    split; [exact Hrows|].
    split; [reflexivity|]. split; [reflexivity|]. split; [reflexivity|].
    split; [reflexivity|]. split; [reflexivity|].
    split; intros H4; rewrite H4; reflexivity.
Qed.

Lemma assignEstimate_event_is_best_effort_witness :
  Sample.failing 4 0%nat = false /\ Sample.failing 4 1%nat = false /\
  Sample.failing 4 2%nat = false /\ Sample.failing 4 3%nat = false /\
  requestedEstimate 1 (mkAssign 33 50 (Sample.today + 11 * Sample.hour) (Some 30)) Sample.data
  = Some Sample.estimate33 /\
  requestedAgent 1 (mkAssign 33 50 (Sample.today + 11 * Sample.hour) (Some 30)) Sample.data
  = Some Sample.agent50 /\
  ~ (exists e, In e (estimates Sample.data)
               /\ conflictsWith 1 (mkAssign 33 50 (Sample.today + 11 * Sample.hour) (Some 30)) e) /\
  Sample.failing 4 4%nat = true /\
  events (snd (serve (assignEstimate (Sample.failing 4) 1
                        (mkAssign 33 50 (Sample.today + 11 * Sample.hour) (Some 30)))
                     Sample.data))
  = events Sample.data /\
  exists row,
    requestedEstimate 1 (mkAssign 33 50 (Sample.today + 11 * Sample.hour) (Some 30))
      (snd (serve (assignEstimate (Sample.failing 4) 1
                     (mkAssign 33 50 (Sample.today + 11 * Sample.hour) (Some 30)))
                  Sample.data))
    = Some row
    /\ Estimate.agentId row = Some 50
    /\ Estimate.appointmentDate row = Some 1730545200000
    /\ Estimate.appointmentDuration row = Some 30
    /\ Estimate.estimateType row = Some "agent".
Proof.
  assert (Hfree : ~ (exists e, In e (estimates Sample.data)
               /\ conflictsWith 1 (mkAssign 33 50 (Sample.today + 11 * Sample.hour) (Some 30)) e)).
  { intros Hconf. apply hasTimeConflict_spec in Hconf. vm_compute in Hconf. discriminate. }
  split; [reflexivity|]. split; [reflexivity|]. split; [reflexivity|].
  split; [reflexivity|]. split; [reflexivity|]. split; [reflexivity|].
  split; [exact Hfree|]. split; [reflexivity|].
  destruct (assignEstimate_event_is_best_effort (Sample.failing 4) 1
              (mkAssign 33 50 (Sample.today + 11 * Sample.hour) (Some 30))
              Sample.data Sample.estimate33 Sample.agent50
              eq_refl eq_refl eq_refl eq_refl eq_refl eq_refl Hfree)
    as [_ [[row [Hrow [Hagent [Hdate [Hduration [Htype _]]]]]] [_ [_ [_ [_ [_ [_ [_ Hfailed]]]]]]]]].
  split; [apply Hfailed; reflexivity|].
  exists row. split; [exact Hrow|]. split; [exact Hagent|].
  split; [exact Hdate|]. split; [exact Hduration|exact Htype].
Defined.

(** ** Stepping through database calls *)

Lemma run_query {A B} (faults : nat -> bool) (f : DB -> A) (k : A -> M B) (w : World) :
  faults (calls w) = false ->
  bind (query faults f) k w = k (f (db w)) (mkWorld (db w) (S (calls w))).
Proof. intros H. unfold bind, query, call. rewrite H. reflexivity. Qed.

Lemma run_call {A B} (faults : nat -> bool) (f : DB -> A * DB) (k : A -> M B)
    (w : World) :
  faults (calls w) = false ->
  bind (call faults f) k w
  = k (fst (f (db w))) (mkWorld (snd (f (db w))) (S (calls w))).
Proof.
  intros H. unfold bind, call. rewrite H. destruct (f (db w)). reflexivity.
Qed.

(** ** Converting an estimate into an invoice *)

(** The serial id is above every id of the table. *)
Lemma nextId_above (ids : list Z) (x : Z) : In x ids -> x < nextId ids.
Proof.
  unfold nextId. induction ids as [|y ids IH]; cbn [fold_right In]; [tauto|].
  intros [Hx|Hx]; [subst; lia|]. specialize (IH Hx). lia.
Qed.


(** The loop that copies the items, when no call fails. *)
Lemma copy_items_run (faults : nat -> bool) (invoiceId : Z)
    (items : list EstimateItem.t) :
  (forall n, faults n = false) ->
  forall w,
    forEach items (fun item =>
      call faults
        (storage.createInvoiceItem (fun id =>
           InvoiceItem.mk id invoiceId
             (EstimateItem.description item)
             (EstimateItem.quantity item)
             (EstimateItem.unitPrice item)
             (EstimateItem.amount item)
             (EstimateItem.notes item))) ;;;
      ret tt) w
    = (Ok tt,
       mkWorld
         (with_invoiceItems
            (invoiceItems (db w)
             ++ copiedItems invoiceId (invoiceItems (db w)) items)%list (db w))
         (calls w + List.length items)).
Proof.
  intros Hf. induction items as [|item rest IH]; intros w.
  - destruct w as [[] n]. cbn. unfold ret, with_invoiceItems. cbn.
    rewrite app_nil_r, Nat.add_0_r. reflexivity.
  - cbn [forEach]. unfold bind at 1. rewrite run_call by apply Hf.
    unfold ret at 1. rewrite IH.
    cbn [db calls List.length copiedItems fst snd storage.createInvoiceItem].
    unfold with_invoiceItems. cbn [invoiceItems clients projects estimates estimateItems invoices agents events].
    rewrite <- app_assoc. cbn [app]. rewrite Nat.add_succ_r. reflexivity.
Qed.


(** What the conversion of an accepted estimate computes when no call
    fails. *)
Lemma convertToInvoice_run (js : Builtins) (faults : nat -> bool) (now : Z)
    (clock : nat -> Z) (random : float) (uid estimateId : Z) (d : DB)
    (estimate : Estimate.t) :
  (forall n, faults n = false) ->
  storage.getEstimate estimateId uid d = Some estimate ->
  Estimate.status estimate = "accepted" ->
  let invoice := convertedInvoice js now clock random uid estimate d in
  let d1 := with_invoices (invoices d ++ [invoice])%list d in
  let d2 :=
    with_invoiceItems
      (invoiceItems d
       ++ copiedItems (Invoice.id invoice) (invoiceItems d)
            (storage.getEstimateItems estimateId uid d))%list d1 in
  let d3 :=
    with_estimates
      (map (fun e =>
              if storage.isEstimate estimateId uid e
              then Estimate.with_notes
                     (Some (notesPrefix (Estimate.notes estimate)
                            ++ "Converted to Invoice #"
                            ++ newInvoiceNumber js now random))
                     (Estimate.with_status "converted" e)
              else e)
           (estimates d)) d2 in
  serve (convertToInvoice js faults now clock random uid estimateId) d
  = (Some (json 201 (InvoiceJson (storage.getInvoice (Invoice.id invoice) uid d3))),
     d3).
Proof.
  intros Hf He Hs invoice d1 d2 d3. subst d3 d2 d1 invoice.
  unfold convertedInvoice, convertToInvoice, serve, tryCatch.
  rewrite run_query by apply Hf. cbn [db calls]. rewrite He, Hs.
  change (String.eqb "accepted" "accepted") with true. cbn [negb].
  rewrite run_query by apply Hf. cbn [db calls].
  rewrite run_call by apply Hf. cbn [db calls fst snd storage.createInvoice].
  unfold bind at 1. rewrite copy_items_run by exact Hf. cbn [db calls].
  rewrite run_call by apply Hf. cbn [db calls fst snd storage.updateEstimate].
  rewrite run_query by apply Hf. cbn [db calls]. unfold ret.
  reflexivity.
Qed.




(** ** Recording a payment *)

(** The project step never throws, and all it may do to the invoices is
    link the paid one to a project. *)
Lemma autoUpdateProject_keeps_invoices (js : Builtins) (faults : nat -> bool)
    (now uid invoiceId : Z) (invoice : Invoice.t) (w : World) :
  exists u w',
    autoUpdateProject js faults now uid invoiceId invoice w = (Ok u, w')
    /\ (invoices (db w') = invoices (db w)
        \/ exists p,
             invoices (db w')
             = map (fun i => if storage.isInvoice invoiceId uid i
                             then Invoice.with_projectId p i else i)
                   (invoices (db w))).
Proof.
  unfold autoUpdateProject, tryCatch, bind, query, call, ret.
  destruct (truthyInt (Invoice.projectId invoice)); cbn [db calls];
    (destruct (faults (calls w)); cbn [db calls fst snd];
     [eexists; eexists; split; [reflexivity|]; left; reflexivity|]).
  - destruct (storage.getProject _ uid (db w)) as [p|];
      [|eexists; eexists; split; [reflexivity|]; left; reflexivity].
    destruct (String.eqb (Project.status p) "pending");
      [|eexists; eexists; split; [reflexivity|]; left; reflexivity].
    cbn [db calls].
    destruct (faults (S (calls w))); cbn [db calls fst snd storage.updateProject];
      eexists; eexists; (split; [reflexivity|]); left; reflexivity.
  - destruct (storage.getClient _ uid (db w)) as [c|];
      [|eexists; eexists; split; [reflexivity|]; left; reflexivity].
    cbn [db calls].
    destruct (faults (S (calls w))); cbn [db calls fst snd storage.createSimpleProject];
      [eexists; eexists; split; [reflexivity|]; left; reflexivity|].
    destruct (faults (S (S (calls w)))); cbn [db calls fst snd storage.updateInvoice];
      eexists; eexists; (split; [reflexivity|]);
      [left; reflexivity|right; eexists; reflexivity].
Qed.

(** The status the route gives an invoice once [paid] of [total] is paid. *)
Lemma payment_status_cases (total paid : float) (previous : string) :
  let status :=
    if (total <=? paid)%float then "paid"
    else if (0 <? paid)%float then "partially_paid"
    else previous in
  ((total <=? paid)%float = true -> status = "paid")
  /\ ((0 <? paid)%float = true -> (paid <? total)%float = true ->
      status = "partially_paid")
  /\ ((paid =? 0)%float = true -> (0 <? total)%float = true -> status = previous).
Proof.
  intros status. subst status. split; [|split].
  - intros H. rewrite H. reflexivity.
  - intros Hpos Hlt. rewrite (ltb_not_ge _ _ Hlt), Hpos. reflexivity.
  - intros Hzero Hpos. destruct (zero_below_positive _ _ Hzero Hpos) as [Hge Hgt].
    rewrite Hge, Hgt. reflexivity.
Qed.

(** A payment that passes the three checks is recorded: the answer is 200
    and the contractor's invoice carries the new amount and status, whatever
    happens in the project step. *)
Lemma recordPayment_recorded (js : Builtins) (faults : nat -> bool) (now : Z)
    (uid invoiceId : Z) (amount paymentMethod notes : JSValue) (d : DB)
    (invoice : Invoice.t) :
  faults 0%nat = false ->
  faults 1%nat = false ->
  amountRejected js amount = false ->
  storage.getInvoice invoiceId uid d = Some invoice ->
  (totalOf js invoice <? paidAfter js invoice amount)%float = false ->
  exists receipt d' invoice',
    serve (recordPayment js faults now uid invoiceId amount paymentMethod notes) d
    = (Some (json 200 (ReceiptJson receipt)), d')
    /\ storage.getInvoice invoiceId uid d' = Some invoice'
    /\ Invoice.amountPaid invoice'
       = Some (numberToString js (paidAfter js invoice amount))
    /\ Invoice.status invoice'
       = (if (totalOf js invoice <=? paidAfter js invoice amount)%float then "paid"
          else if (0 <? paidAfter js invoice amount)%float then "partially_paid"
          else Invoice.status invoice).
Proof.
  intros H0 H1 Hamount Hinv Hfits.
  unfold amountRejected in Hamount. unfold totalOf, paidAfter, paidSoFar in *.
  unfold recordPayment, serve, tryCatch. rewrite Hamount.
  rewrite run_query by exact H0. cbn [db calls]. rewrite Hinv. cbv zeta.
  rewrite Hfits. rewrite run_call by exact H1.
  cbn [db calls fst snd storage.updateInvoice]. rewrite Hinv. cbn [option_map].
  set (paid := (parseFloatStr js (textOr (Invoice.amountPaid invoice) "0")
                + parseFloat js amount)%float).
  set (status := if (parseFloatStr js (Invoice.total invoice) <=? paid)%float
                 then "paid"
                 else if (0 <? paid)%float then "partially_paid"
                 else Invoice.status invoice).
  remember (fun i : Invoice.t =>
              Invoice.with_status status
                (Invoice.with_amountPaid (numberToString js paid) i))
    as patch eqn:Hpatch.
  change (fun i : Invoice.t =>
            if storage.isInvoice invoiceId uid i
            then Invoice.with_status status
                   (Invoice.with_amountPaid (numberToString js paid) i)
            else i)
    with (fun i : Invoice.t =>
            if storage.isInvoice invoiceId uid i
            then (fun i => Invoice.with_status status
                             (Invoice.with_amountPaid (numberToString js paid) i)) i
            else i).
  change (Invoice.with_status status
            (Invoice.with_amountPaid (numberToString js paid) invoice))
    with ((fun i => Invoice.with_status status
                      (Invoice.with_amountPaid (numberToString js paid) i)) invoice).
  rewrite <- Hpatch.
  assert (Hkeys : forall x, storage.isInvoice invoiceId uid (patch x)
                            = storage.isInvoice invoiceId uid x)
    by (intros x; rewrite Hpatch; reflexivity).
  assert (Hfound : find (storage.isInvoice invoiceId uid)
                     (map (fun i => if storage.isInvoice invoiceId uid i
                                    then patch i else i) (invoices d))
                   = Some (patch invoice)).
  { rewrite find_patched by exact Hkeys.
    unfold storage.getInvoice in Hinv. rewrite Hinv. reflexivity. }
  assert (Hpaid : Invoice.amountPaid (patch invoice) = Some (numberToString js paid)
                  /\ Invoice.status (patch invoice) = status)
    by (rewrite Hpatch; split; reflexivity).
  destruct Hpaid as [Hpaid Hstatus].
  unfold bind at 1.
  destruct (0 <? paid)%float eqn:Hpositive.
  - destruct (autoUpdateProject_keeps_invoices js faults now uid invoiceId invoice
                (mkWorld (with_invoices
                            (map (fun i => if storage.isInvoice invoiceId uid i
                                           then patch i else i) (invoices d)) d) 2))
      as [u [w' [Hrun Hkept]]].
    rewrite Hrun. unfold ret.
    eexists. exists (db w'). cbn [db invoices with_invoices] in Hkept.
    destruct Hkept as [Hsame|[p Hlinked]].
    + exists (patch invoice). split; [reflexivity|].
      unfold storage.getInvoice.
      split; [rewrite Hsame; exact Hfound|]. split; assumption.
    + exists (Invoice.with_projectId p (patch invoice)). split; [reflexivity|].
      unfold storage.getInvoice. rewrite Hlinked.
      rewrite find_patched by (intros x; reflexivity).
      split; [rewrite Hfound; reflexivity|]. split; assumption.
  - unfold ret. eexists. eexists. exists (patch invoice). split; [reflexivity|].
    unfold storage.getInvoice. cbn [invoices with_invoices].
    split; [exact Hfound|]. split; assumption.
Qed.

(** C1, as the claim states it, fails on an invoice whose total is zero: a
    payment of "0" leaves [P + a = 0 <= T], and the status goes from
    "pending" to "paid" instead of staying as it was. *)
Lemma zero_total_payment_counterexample :
  storage.getInvoice 41 1 Sample.data = Some Sample.invoice41
  /\ amountRejected Node.builtins (JStr "0") = false
  /\ (paidAfter Node.builtins Sample.invoice41 (JStr "0")
      <=? totalOf Node.builtins Sample.invoice41)%float = true
  /\ (paidAfter Node.builtins Sample.invoice41 (JStr "0") =? 0)%float = true
  /\ Invoice.status Sample.invoice41 = "pending"
  /\ option_map Invoice.status
       (storage.getInvoice 41 1
          (snd (serve (recordPayment Node.builtins healthy Sample.today 1 41
                         (JStr "0") JUndefined JUndefined)
                      Sample.data)))
     = Some "paid".
Proof. repeat split; vm_compute; reflexivity. Qed.

(** C1 (amended): a payment of amount [a] that is recorded on an invoice
    with [P] paid and total [T], [P + a <= T], leaves the invoice with
    [P + a] paid and with status "paid" when [P + a >= T], "partially_paid"
    when [0 < P + a < T], and its previous status when [P + a = 0 < T]. *)
Theorem recordPayment_updates_invoice (js : Builtins) (faults : nat -> bool)
    (now : Z) (uid invoiceId : Z) (amount paymentMethod notes : JSValue) (d : DB)
    (invoice : Invoice.t) :
  faults 0%nat = false ->
  faults 1%nat = false ->
  amountRejected js amount = false ->
  storage.getInvoice invoiceId uid d = Some invoice ->
  (paidAfter js invoice amount <=? totalOf js invoice)%float = true ->
  let out :=
    serve (recordPayment js faults now uid invoiceId amount paymentMethod notes) d in
  let paid := paidAfter js invoice amount in
  let total := totalOf js invoice in
  exists receipt invoice',
    fst out = Some (json 200 (ReceiptJson receipt))
    /\ storage.getInvoice invoiceId uid (snd out) = Some invoice'
    /\ Invoice.amountPaid invoice' = Some (numberToString js paid)
    /\ ((total <=? paid)%float = true -> Invoice.status invoice' = "paid")
    /\ ((0 <? paid)%float = true -> (paid <? total)%float = true ->
        Invoice.status invoice' = "partially_paid")
    /\ ((paid =? 0)%float = true -> (0 <? total)%float = true ->
        Invoice.status invoice' = Invoice.status invoice).
Proof.
  intros H0 H1 Hamount Hinv Hfits out paid total. subst out paid total.
  destruct (recordPayment_recorded js faults now uid invoiceId amount paymentMethod
              notes d invoice H0 H1 Hamount Hinv (leb_not_gt _ _ Hfits))
    as [receipt [d' [invoice' [Hrun [Hfound [Hpaid Hstatus]]]]]].
  rewrite Hrun. cbn [fst snd]. exists receipt, invoice'.
  split; [reflexivity|]. split; [exact Hfound|]. split; [exact Hpaid|].
  rewrite Hstatus.
  exact (payment_status_cases (totalOf js invoice) (paidAfter js invoice amount)
           (Invoice.status invoice)).
Qed.

Lemma recordPayment_updates_invoice_witness :
  healthy 0%nat = false /\ healthy 1%nat = false /\
  amountRejected Node.builtins (JNum 250.5) = false /\
  storage.getInvoice 40 1 Sample.data = Some Sample.invoice40 /\
  (paidAfter Node.builtins Sample.invoice40 (JNum 250.5)
   <=? totalOf Node.builtins Sample.invoice40)%float = true /\
  exists invoice',
    storage.getInvoice 40 1
      (snd (serve (recordPayment Node.builtins healthy Sample.today 1 40
                     (JNum 250.5) JUndefined JUndefined) Sample.data))
    = Some invoice'
    /\ Invoice.amountPaid invoice' = Some "250.5"
    /\ Invoice.status invoice' = "partially_paid".
Proof.
  split; [reflexivity|]. split; [reflexivity|]. split; [reflexivity|].
  split; [reflexivity|]. split; [reflexivity|].
  destruct (recordPayment_updates_invoice Node.builtins healthy Sample.today 1 40
              (JNum 250.5) JUndefined JUndefined Sample.data Sample.invoice40
              eq_refl eq_refl eq_refl eq_refl eq_refl)
    as [receipt [invoice' [_ [Hfound [Hpaid [_ [Hpartial _]]]]]]].
  exists invoice'. split; [exact Hfound|]. split; [exact Hpaid|].
  apply Hpartial; reflexivity.
Defined.

(** C5, as the claim states it, fails on a numeric zero: the amount is
    present and is a number, the invoice exists and [P + 0 <= T], yet the
    payment is refused with 400. *)
Lemma numeric_zero_amount_counterexample :
  storage.getInvoice 40 1 Sample.data = Some Sample.invoice40
  /\ (totalOf Node.builtins Sample.invoice40
      <? paidAfter Node.builtins Sample.invoice40 (JNum 0))%float = false
  /\ serve (recordPayment Node.builtins healthy Sample.today 1 40
              (JNum 0) JUndefined JUndefined) Sample.data
     = (Some (json 400 (Message "Valid payment amount is required")), Sample.data).
Proof. repeat split; vm_compute; reflexivity. Qed.

(** C5 (amended): when the two database calls it needs do not fail, the
    payment route refuses a request in exactly three cases, checked in this
    order: the amount is falsy (absent, null, false, empty, or a numeric
    zero) or does not parse as a number (400); the contractor has no such
    invoice (404); the amount paid so far plus the amount exceeds the total
    (400).  A refusal leaves the database as it was.  Any other request is
    answered 200, whatever the sign of the amount and the status of the
    invoice. *)
Theorem recordPayment_refusals (js : Builtins) (faults : nat -> bool) (now : Z)
    (uid invoiceId : Z) (amount paymentMethod notes : JSValue) (d : DB) :
  faults 0%nat = false ->
  faults 1%nat = false ->
  let out :=
    serve (recordPayment js faults now uid invoiceId amount paymentMethod notes) d in
  (amountRejected js amount = true ->
   out = (Some (json 400 (Message "Valid payment amount is required")), d))
  /\
  (amountRejected js amount = false ->
   storage.getInvoice invoiceId uid d = None ->
   out = (Some (json 404 (Message "Invoice not found")), d))
  /\
  (forall invoice,
     amountRejected js amount = false ->
     storage.getInvoice invoiceId uid d = Some invoice ->
     (totalOf js invoice <? paidAfter js invoice amount)%float = true ->
     exists refusal, out = (Some (json 400 refusal), d))
  /\
  (forall invoice,
     amountRejected js amount = false ->
     storage.getInvoice invoiceId uid d = Some invoice ->
     (totalOf js invoice <? paidAfter js invoice amount)%float = false ->
     exists receipt, fst out = Some (json 200 (ReceiptJson receipt)))
  /\
  (forall x, amount = JNum x -> (x =? 0)%float = true ->
             amountRejected js amount = true).
Proof.
  intros H0 H1 out. subst out. split; [|split; [|split; [|split]]].
  - intros Hamount. unfold amountRejected in Hamount.
    unfold recordPayment, serve, tryCatch. rewrite Hamount. reflexivity.
  - intros Hamount Hnone. unfold amountRejected in Hamount.
    unfold recordPayment, serve, tryCatch. rewrite Hamount.
    rewrite run_query by exact H0. cbn [db calls]. rewrite Hnone. reflexivity.
  - intros invoice Hamount Hinv Hexceeds.
    unfold amountRejected in Hamount. unfold totalOf, paidAfter, paidSoFar in Hexceeds.
    unfold recordPayment, serve, tryCatch. rewrite Hamount.
    rewrite run_query by exact H0. cbn [db calls]. rewrite Hinv. cbv zeta.
    rewrite Hexceeds. eexists. reflexivity.
  - intros invoice Hamount Hinv Hfits.
    destruct (recordPayment_recorded js faults now uid invoiceId amount paymentMethod
                notes d invoice H0 H1 Hamount Hinv Hfits)
      as [receipt [d' [invoice' [Hrun _]]]].
    rewrite Hrun. exists receipt. reflexivity.
  - intros x Hx Hzero. subst amount. unfold amountRejected.
    rewrite (zero_is_falsy x Hzero). reflexivity.
Qed.

Lemma recordPayment_refusals_witness :
  healthy 0%nat = false /\ healthy 1%nat = false /\
  amountRejected Node.builtins (JNum (-50)) = false /\
  storage.getInvoice 44 1 Sample.data = Some Sample.invoice44 /\
  Invoice.status Sample.invoice44 = "cancelled" /\
  (totalOf Node.builtins Sample.invoice44
   <? paidAfter Node.builtins Sample.invoice44 (JNum (-50)))%float = false /\
  (exists receipt,
     fst (serve (recordPayment Node.builtins healthy Sample.today 1 44
                   (JNum (-50)) JUndefined JUndefined) Sample.data)
     = Some (json 200 (ReceiptJson receipt))) /\
  amountRejected Node.builtins JUndefined = true /\
  serve (recordPayment Node.builtins healthy Sample.today 1 44
           JUndefined JUndefined JUndefined) Sample.data
  = (Some (json 400 (Message "Valid payment amount is required")), Sample.data).
Proof.
  split; [reflexivity|]. split; [reflexivity|]. split; [reflexivity|].
  split; [reflexivity|]. split; [reflexivity|]. split; [reflexivity|].
  destruct (recordPayment_refusals Node.builtins healthy Sample.today 1 44
              (JNum (-50)) JUndefined JUndefined Sample.data eq_refl eq_refl)
    as [_ [_ [_ [Haccepted _]]]].
  destruct (recordPayment_refusals Node.builtins healthy Sample.today 1 44
              JUndefined JUndefined JUndefined Sample.data eq_refl eq_refl)
    as [Hrefused _].
  split; [exact (Haccepted Sample.invoice44 eq_refl eq_refl eq_refl)|].
  split; [reflexivity|]. apply Hrefused. reflexivity.
Defined.

(** After a recorded payment that leaves a positive amount paid, the
    database is the one the project step leaves, run on the updated
    invoice table as the third call of the request. *)
Lemma recordPayment_then_project (js : Builtins) (faults : nat -> bool) (now : Z)
    (uid invoiceId : Z) (amount paymentMethod notes : JSValue) (d : DB)
    (invoice : Invoice.t) :
  faults 0%nat = false ->
  faults 1%nat = false ->
  amountRejected js amount = false ->
  storage.getInvoice invoiceId uid d = Some invoice ->
  (totalOf js invoice <? paidAfter js invoice amount)%float = false ->
  (0 <? paidAfter js invoice amount)%float = true ->
  snd (serve (recordPayment js faults now uid invoiceId amount paymentMethod notes) d)
  = db (snd (autoUpdateProject js faults now uid invoiceId invoice
               (mkWorld (with_invoices (paidRows js uid invoiceId invoice amount d) d)
                        2))).
Proof.
  intros H0 H1 Hamount Hinv Hfits Hpositive.
  destruct (autoUpdateProject_keeps_invoices js faults now uid invoiceId invoice
              (mkWorld (with_invoices (paidRows js uid invoiceId invoice amount d) d) 2))
    as [u [w' [Hrun _]]].
  rewrite Hrun.
  unfold paidRows, paymentPatch, statusAfter in Hrun.
  unfold amountRejected in Hamount. unfold totalOf, paidAfter, paidSoFar in *.
  rewrite Hpositive in Hrun.
  unfold recordPayment, serve, tryCatch. rewrite Hamount.
  rewrite run_query by exact H0. cbn [db calls]. rewrite Hinv. cbv zeta.
  rewrite Hfits. rewrite run_call by exact H1.
  cbn [db calls fst snd storage.updateInvoice]. rewrite Hinv, Hpositive.
  cbn [option_map]. unfold bind at 1. rewrite Hrun. reflexivity.
Qed.

(** C4: after a payment that leaves a positive amount paid, and when no
    database call fails: a linked project that is "pending" gets the
    status "in_progress", its other columns and the other projects staying
    as they were; a linked project in another status is left as it is;
    without a linked project, and when the invoice's client exists, a
    "pending" project whose budget is the invoice total is created for
    that client and the invoice is linked to it. *)
Theorem payment_project_step (js : Builtins) (faults : nat -> bool) (now : Z)
    (uid invoiceId : Z) (amount paymentMethod notes : JSValue) (d : DB)
    (invoice : Invoice.t) :
  (forall n, faults n = false) ->
  amountRejected js amount = false ->
  storage.getInvoice invoiceId uid d = Some invoice ->
  (totalOf js invoice <? paidAfter js invoice amount)%float = false ->
  (0 <? paidAfter js invoice amount)%float = true ->
  let d' :=
    snd (serve (recordPayment js faults now uid invoiceId amount paymentMethod notes) d) in
  (forall projectId p,
     Invoice.projectId invoice = Some projectId ->
     projectId <> 0 ->
     storage.getProject projectId uid d = Some p ->
     (Project.status p = "pending" ->
      exists promoted,
        storage.getProject projectId uid d' = Some promoted
        /\ Project.status promoted = "in_progress"
        /\ Project.id promoted = Project.id p
        /\ Project.contractorId promoted = Project.contractorId p
        /\ Project.clientId promoted = Project.clientId p
        /\ Project.title promoted = Project.title p
        /\ Project.description promoted = Project.description p
        /\ Project.budget promoted = Project.budget p
        /\ Project.startDate promoted = Project.startDate p
        /\ Project.endDate promoted = Project.endDate p
        /\ Project.notes promoted = Project.notes p
        /\ List.length (projects d') = List.length (projects d)
        /\ (forall q, In q (projects d) ->
                      storage.isProject projectId uid q = false ->
                      In q (projects d')))
     /\ (Project.status p <> "pending" -> projects d' = projects d))
  /\
  (truthyInt (Invoice.projectId invoice) = false ->
   forall c,
     storage.getClient (Invoice.clientId invoice) uid d = Some c ->
     exists created linked,
       projects d' = (projects d ++ [created])%list
       /\ Project.status created = "pending"
       /\ Project.budget created = Some (NumberStr js (Invoice.total invoice))
       /\ Project.contractorId created = uid
       /\ Project.clientId created = Invoice.clientId invoice
       /\ storage.getInvoice invoiceId uid d' = Some linked
       /\ Invoice.projectId linked = Some (Project.id created)).
Proof.
  intros Hf Hamount Hinv Hfits Hpositive d'. subst d'.
  rewrite (recordPayment_then_project js faults now uid invoiceId amount paymentMethod
             notes d invoice (Hf 0%nat) (Hf 1%nat) Hamount Hinv Hfits Hpositive).
  split.
  - intros projectId p Hlink Hnonzero Hp.
    assert (Htruthy : truthyInt (Invoice.projectId invoice) = true).
    { rewrite Hlink. cbn. apply Z.eqb_neq in Hnonzero. rewrite Hnonzero. reflexivity. }
    assert (Hid : intOr (Invoice.projectId invoice) 0 = projectId).
    { rewrite Hlink. cbn. apply Z.eqb_neq in Hnonzero. rewrite Hnonzero. reflexivity. }
    unfold autoUpdateProject, tryCatch. rewrite Htruthy, Hid.
    rewrite run_query by apply Hf. cbn [db calls].
    change (storage.getProject projectId uid
              (with_invoices (paidRows js uid invoiceId invoice amount d) d))
      with (storage.getProject projectId uid d).
    rewrite Hp. split.
    + intros Hpending. rewrite Hpending.
      change (String.eqb "pending" "pending") with true. cbv beta iota.
      rewrite run_call by apply Hf. unfold ret.
      cbn [db calls fst snd storage.updateProject with_projects with_invoices projects].
      exists (Project.with_status "in_progress" p).
      split.
      { unfold storage.getProject, with_projects, with_invoices. cbn [projects].
        rewrite find_patched by (intros x; reflexivity).
        unfold storage.getProject in Hp. rewrite Hp. reflexivity. }
      do 10 (split; [reflexivity|]).
      split; [apply length_map|].
      intros q Hq Hother. apply in_map_iff. exists q. rewrite Hother.
      split; [reflexivity|exact Hq].
    + intros Hother. rewrite (string_eqb_false _ _ Hother). reflexivity.
  - intros Hunlinked c Hclient.
    unfold autoUpdateProject, tryCatch. rewrite Hunlinked.
    rewrite run_query by apply Hf. cbn [db calls].
    change (storage.getClient (Invoice.clientId invoice) uid
              (with_invoices (paidRows js uid invoiceId invoice amount d) d))
      with (storage.getClient (Invoice.clientId invoice) uid d).
    rewrite Hclient. cbv beta iota.
    rewrite run_call by apply Hf.
    cbn [db calls fst snd storage.createSimpleProject].
    rewrite run_call by apply Hf. unfold ret.
    cbn [db calls fst snd storage.updateInvoice with_projects with_invoices projects invoices].
    eexists. eexists. split; [reflexivity|].
    split; [reflexivity|]. split; [reflexivity|]. split; [reflexivity|].
    split; [reflexivity|].
    split.
    + unfold storage.getInvoice, with_projects, with_invoices. cbn [invoices].
      rewrite find_patched by (intros x; reflexivity).
      unfold paidRows. rewrite find_patched by (intros x; reflexivity).
      unfold storage.getInvoice in Hinv. rewrite Hinv. reflexivity.
    + reflexivity.
Qed.

Lemma payment_project_step_witness :
  (forall n, healthy n = false) /\
  amountRejected Node.builtins (JStr "200") = false /\
  storage.getInvoice 40 1 Sample.data = Some Sample.invoice40 /\
  (totalOf Node.builtins Sample.invoice40
   <? paidAfter Node.builtins Sample.invoice40 (JStr "200"))%float = false /\
  (0 <? paidAfter Node.builtins Sample.invoice40 (JStr "200"))%float = true /\
  Invoice.projectId Sample.invoice40 = Some 20 /\
  storage.getProject 20 1 Sample.data = Some Sample.project20 /\
  Project.status Sample.project20 = "pending" /\
  option_map Project.status
    (storage.getProject 20 1
       (snd (serve (recordPayment Node.builtins healthy Sample.today 1 40
                      (JStr "200") JUndefined JUndefined) Sample.data)))
  = Some "in_progress" /\
  storage.getInvoice 43 1 Sample.data = Some Sample.invoice43 /\
  (totalOf Node.builtins Sample.invoice43
   <? paidAfter Node.builtins Sample.invoice43 (JStr "200"))%float = false /\
  (0 <? paidAfter Node.builtins Sample.invoice43 (JStr "200"))%float = true /\
  truthyInt (Invoice.projectId Sample.invoice43) = false /\
  storage.getClient (Invoice.clientId Sample.invoice43) 1 Sample.data
  = Some Sample.client10 /\
  exists created,
    projects (snd (serve (recordPayment Node.builtins healthy Sample.today 1 43
                            (JStr "200") JUndefined JUndefined) Sample.data))
    = (projects Sample.data ++ [created])%list
    /\ Project.status created = "pending"
    /\ Project.budget created = Some 200%float.
Proof.
  split; [intros n; reflexivity|]. split; [reflexivity|]. split; [reflexivity|].
  split; [vm_compute; reflexivity|]. split; [vm_compute; reflexivity|].
  split; [reflexivity|]. split; [reflexivity|]. split; [reflexivity|].
  destruct (payment_project_step Node.builtins healthy Sample.today 1 40
              (JStr "200") JUndefined JUndefined Sample.data Sample.invoice40
              (fun n => eq_refl) eq_refl eq_refl
              ltac:(vm_compute; reflexivity) ltac:(vm_compute; reflexivity))
    as [Hlinked _].
  destruct (Hlinked 20 Sample.project20 eq_refl ltac:(discriminate) eq_refl)
    as [Hpromote _].
  destruct (Hpromote eq_refl) as [promoted [Hrow [Hstatus _]]].
  split; [rewrite Hrow; cbn [option_map]; rewrite Hstatus; reflexivity|].
  split; [reflexivity|]. split; [reflexivity|]. split; [reflexivity|].
  split; [reflexivity|]. split; [reflexivity|].
  destruct (payment_project_step Node.builtins healthy Sample.today 1 43
              (JStr "200") JUndefined JUndefined Sample.data Sample.invoice43
              (fun n => eq_refl) eq_refl eq_refl eq_refl eq_refl)
    as [_ Hcreate].
  destruct (Hcreate eq_refl Sample.client10 eq_refl)
    as [created [linked [Hrows [Hstatus' [Hbudget _]]]]].
  exists created. split; [exact Hrows|]. split; [exact Hstatus'|exact Hbudget].
Defined.

(** ** Rows of another contractor *)

(** Behind the ownership middleware, a row the contractor does not have,
    whether it is missing or belongs to someone else, is answered 404 and
    nothing is written. *)
Lemma guarded_routes_hide_foreign_rows (js : Builtins) (faults : nat -> bool)
    (now : Z) (clock : nat -> Z) (random : float) (schema : Schema Client.t) (uid : Z) (r : Request)
    (entity : EntityType) (id : Z) (d : DB) :
  faults 0%nat = false ->
  addressed r = Some (entity, id) ->
  owns uid entity id d = false ->
  serve (route js faults now clock random schema uid r) d
  = (Some (json 404 (Message "Resource not found")), d).
Proof.
  intros H0 Haddr Hforeign.
  destruct r; cbn [addressed] in Haddr; try discriminate;
    injection Haddr as Hentity Hid; subst entity id0;
    cbn [owns] in Hforeign;
    unfold route, verifyResourceOwnership, serve, tryCatch;
    (rewrite run_query by exact H0); cbn [db calls]; cbv beta iota;
    rewrite Hforeign; reflexivity.
Qed.

(** X28: the assignment route looks the estimate and the agent up among the
    contractor's own: either one missing or foreign is answered 404 and
    nothing is written. *)
Lemma assignEstimate_hides_foreign_rows (faults : nat -> bool) (c : Z)
    (req : AssignRequest) (d : DB) :
  faults 0%nat = false ->
  faults 1%nat = false ->
  requestedEstimate c req d = None \/ requestedAgent c req d = None ->
  exists message,
    serve (assignEstimate faults c req) d = (Some (json 404 (Message message)), d).
Proof.
  intros H0 H1 Hmissing. unfold assignEstimate, serve, tryCatch.
  rewrite run_query by exact H0. cbn [db calls].
  unfold requestedEstimate, requestedAgent in Hmissing.
  destruct (find _ (estimates d)) as [estimate|] eqn:He.
  - destruct Hmissing as [Hmissing|Hmissing]; [discriminate|].
    rewrite run_query by exact H1. cbn [db calls]. rewrite Hmissing.
    eexists. reflexivity.
  - eexists. reflexivity.
Qed.

(** X29: listing the items of an invoice is never answered 404 and never
    writes: the route has no ownership check and no "not found" branch. *)
Lemma getInvoiceItems_never_404 (js : Builtins) (faults : nat -> bool) (now : Z)
    (clock : nat -> Z) (random : float) (schema : Schema Client.t) (uid invoiceId : Z) (d : DB) :
  exists response,
    serve (route js faults now clock random schema uid (GetInvoiceItems invoiceId)) d
    = (Some response, d)
    /\ (code response = 200 \/ code response = 500).
Proof.
  unfold route, getInvoiceItems. run_handler.
  destruct (faults 0%nat); eexists; (split; [reflexivity|]); cbn; tauto.
Qed.

(** C6, at the failing input: invoice 42 belongs to contractor 2; when
    contractor 1 lists its items the answer is 200 with an empty list, not
    404, whereas the sibling route that lists the items of an estimate of
    contractor 2 is answered 404. *)
Theorem foreign_invoice_items_listing :
  storage.getInvoice 42 2 Sample.data = Some Sample.invoice42
  /\ storage.getInvoice 42 1 Sample.data = None
  /\ Sample.run healthy 1 (GetInvoiceItems 42) Sample.data
     = (Some (json 200 (InvoiceItemsJson [])), Sample.data)
  /\ storage.getEstimate 32 2 Sample.data = Some Sample.estimate32
  /\ Sample.run healthy 1 (GetEstimateItems 32) Sample.data
     = (Some (json 404 (Message "Resource not found")), Sample.data).
Proof. repeat split; vm_compute; reflexivity. Qed.

(** Back-to-back appointments do not conflict: a slot that starts where
    another ends, or ends where another starts, is free of it. *)
Lemma back_to_back_is_free (c : Z) (req : AssignRequest) (e : Estimate.t) (start : Z) :
  Estimate.appointmentDate e = Some start ->
  appointmentDate req = slotEnd start (Estimate.appointmentDuration e)
  \/ slotEnd (appointmentDate req) (appointmentDuration req) = start ->
  ~ conflictsWith c req e.
Proof.
  intros Hstart Htouch [_ [_ [_ [start' [Hstart' [Hlt Hgt]]]]]].
  rewrite Hstart in Hstart'. injection Hstart' as Heq. subst start'.
  destruct Htouch as [Htouch|Htouch]; lia.
Qed.

(** * Further properties of the routes *)

(** ** Cancelling an invoice *)

(** What the cancellation of an invoice that is neither cancelled nor paid
    computes. *)
Lemma cancelInvoice_run (js : Builtins) (faults : nat -> bool)
    (uid invoiceId : Z) (notes : JSValue) (d : DB) (invoice : Invoice.t) :
  faults 0%nat = false ->
  faults 1%nat = false ->
  storage.getInvoice invoiceId uid d = Some invoice ->
  Invoice.status invoice <> "cancelled" ->
  Invoice.status invoice <> "paid" ->
  serve (cancelInvoice js faults uid invoiceId notes) d
  = (Some (json 200 (InvoiceJson (Some (cancelledInvoice js notes invoice invoice)))),
     with_invoices
       (map (fun i => if storage.isInvoice invoiceId uid i
                      then cancelledInvoice js notes invoice i else i)
            (invoices d)) d).
Proof.
  intros H0 H1 Hinv Hc Hp.
  unfold cancelInvoice. run_handler. rewrite H0, Hinv. cbn [db calls fst snd].
  rewrite (string_eqb_false _ _ Hc), (string_eqb_false _ _ Hp).
  cbn [db calls fst snd]. rewrite H1.
  unfold storage.updateInvoice. rewrite Hinv. cbn [option_map db calls fst snd].
  unfold cancelledInvoice, cancellationLine.
  destruct (truthy notes); reflexivity.
Qed.

(** The row an update leaves is the one its id finds. *)
Lemma getInvoice_patched (uid invoiceId : Z) (patch : Invoice.t -> Invoice.t)
    (d : DB) (invoice : Invoice.t) :
  (forall i, storage.isInvoice invoiceId uid (patch i)
             = storage.isInvoice invoiceId uid i) ->
  storage.getInvoice invoiceId uid d = Some invoice ->
  storage.getInvoice invoiceId uid
    (with_invoices
       (map (fun i => if storage.isInvoice invoiceId uid i then patch i else i)
            (invoices d)) d)
  = Some (patch invoice).
Proof.
  intros Hkeys Hinv. unfold storage.getInvoice, with_invoices. cbn [invoices].
  rewrite find_patched by exact Hkeys.
  unfold storage.getInvoice in Hinv. rewrite Hinv. reflexivity.
Qed.

(** X1: cancelling an invoice that is neither cancelled nor paid sets its
    status to "cancelled" and appends the cancellation line to its notes:
    the new notes are the line alone when there were no notes, and the old
    notes, an empty line and the line otherwise; every other column of the
    row, every other invoice and every other table stay as they were.  A
    cancelled invoice and a paid one are answered 400 and nothing
    changes. *)
Theorem cancelInvoice_frame (js : Builtins) (faults : nat -> bool)
    (uid invoiceId : Z) (notes : JSValue) (d : DB) (invoice : Invoice.t) :
  faults 0%nat = false ->
  faults 1%nat = false ->
  storage.getInvoice invoiceId uid d = Some invoice ->
  let out := serve (cancelInvoice js faults uid invoiceId notes) d in
  let line :=
    if truthy notes then "Cancelled: " ++ toStringJS js notes
    else "Invoice cancelled" in
  (Invoice.status invoice = "cancelled" ->
   out = (Some (json 400 (Message "Invoice is already cancelled")), d))
  /\
  (Invoice.status invoice = "paid" ->
   out = (Some (json 400 (Message "Cannot cancel a paid invoice")), d))
  /\
  (Invoice.status invoice <> "cancelled" -> Invoice.status invoice <> "paid" ->
   exists invoice',
     fst out = Some (json 200 (InvoiceJson (Some invoice')))
     /\ storage.getInvoice invoiceId uid (snd out) = Some invoice'
     /\ Invoice.status invoice' = "cancelled"
     /\ Invoice.notes invoice'
        = Some (match Invoice.notes invoice with
                | None => line
                | Some "" => line
                | Some old => old ++ String "010"%char (String "010"%char line)
                end)
     /\ (forall reason, notes = JStr reason -> reason <> "" ->
         line = "Cancelled: " ++ reason)
     /\ Invoice.id invoice' = Invoice.id invoice
     /\ Invoice.contractorId invoice' = Invoice.contractorId invoice
     /\ Invoice.clientId invoice' = Invoice.clientId invoice
     /\ Invoice.projectId invoice' = Invoice.projectId invoice
     /\ Invoice.estimateId invoice' = Invoice.estimateId invoice
     /\ Invoice.invoiceNumber invoice' = Invoice.invoiceNumber invoice
     /\ Invoice.issueDate invoice' = Invoice.issueDate invoice
     /\ Invoice.dueDate invoice' = Invoice.dueDate invoice
     /\ Invoice.subtotal invoice' = Invoice.subtotal invoice
     /\ Invoice.tax invoice' = Invoice.tax invoice
     /\ Invoice.discount invoice' = Invoice.discount invoice
     /\ Invoice.total invoice' = Invoice.total invoice
     /\ Invoice.amountPaid invoice' = Invoice.amountPaid invoice
     /\ Invoice.terms invoice' = Invoice.terms invoice
     /\ Invoice.contractorSignature invoice' = Invoice.contractorSignature invoice
     /\ List.length (invoices (snd out)) = List.length (invoices d)
     /\ (forall other,
           storage.isInvoice invoiceId uid other = false ->
           In other (invoices d) -> In other (invoices (snd out)))
     /\ with_invoices (invoices d) (snd out) = d).
Proof.
  intros H0 H1 Hinv out line. subst out. split; [|split].
  - intros Hs. unfold cancelInvoice. run_handler.
    rewrite H0, Hinv. cbn [db calls fst snd]. rewrite Hs. reflexivity.
  - intros Hs. unfold cancelInvoice. run_handler.
    rewrite H0, Hinv. cbn [db calls fst snd]. rewrite Hs. reflexivity.
  - intros Hc Hp.
    rewrite (cancelInvoice_run js faults uid invoiceId notes d invoice H0 H1 Hinv Hc Hp).
    cbn [fst snd]. exists (cancelledInvoice js notes invoice invoice).
    split; [reflexivity|].
    split; [apply getInvoice_patched; [intros i; reflexivity|exact Hinv]|].
    split; [reflexivity|].
    split.
    { cbn [cancelledInvoice invoiceWithNotes Invoice.notes]. f_equal.
      rewrite notesPrefix_appended. reflexivity. }
    split.
    { intros reason Hreason Hfilled. subst line notes.
      cbn [truthy toStringJS]. rewrite (string_eqb_false _ _ Hfilled). reflexivity. }
    do 15 (split; [reflexivity|]).
    split; [unfold with_invoices; cbn [invoices]; apply length_map|].
    split.
    + intros other Hother Hin. unfold with_invoices. cbn [invoices].
      apply in_map_iff. exists other. rewrite Hother. split; [reflexivity|exact Hin].
    + destruct d; reflexivity.
Qed.

Lemma cancelInvoice_frame_witness :
  healthy 0%nat = false /\
  healthy 1%nat = false /\
  storage.getInvoice 45 1 Fixtures.data = Some Fixtures.invoice45 /\
  Invoice.status Fixtures.invoice45 <> "cancelled" /\
  Invoice.status Fixtures.invoice45 <> "paid" /\
  exists invoice',
    storage.getInvoice 45 1
      (snd (serve (cancelInvoice Node.builtins healthy 1 45 (JStr "duplicate"))
                  Fixtures.data))
    = Some invoice'
    /\ Invoice.status invoice' = "cancelled"
    /\ Invoice.notes invoice'
       = Some ("Deposit agreed"
               ++ String "010"%char (String "010"%char "Cancelled: duplicate")).
Proof.
  split; [reflexivity|]. split; [reflexivity|]. split; [reflexivity|].
  split; [discriminate|]. split; [discriminate|].
  destruct (cancelInvoice_frame Node.builtins healthy 1 45 (JStr "duplicate")
              Fixtures.data Fixtures.invoice45 eq_refl eq_refl eq_refl)
    as [_ [_ Hlive]].
  destruct (Hlive ltac:(discriminate) ltac:(discriminate))
    as [invoice' [_ [Hrow [Hstatus [Hnotes _]]]]].
  exists invoice'. split; [exact Hrow|]. split; [exact Hstatus|exact Hnotes].
Defined.

(** X2: an invoice that a payment has settled cannot be cancelled afterwards:
    once a payment that brings the amount paid to the total is recorded,
    the cancellation is answered 400 and writes nothing. *)
Theorem settled_invoice_is_not_cancelled (js : Builtins)
    (faults later : nat -> bool) (now uid invoiceId : Z)
    (amount paymentMethod notes reason : JSValue) (d : DB) (invoice : Invoice.t) :
  faults 0%nat = false ->
  faults 1%nat = false ->
  later 0%nat = false ->
  amountRejected js amount = false ->
  storage.getInvoice invoiceId uid d = Some invoice ->
  (totalOf js invoice <? paidAfter js invoice amount)%float = false ->
  (totalOf js invoice <=? paidAfter js invoice amount)%float = true ->
  let d' :=
    snd (serve (recordPayment js faults now uid invoiceId amount paymentMethod notes) d) in
  serve (cancelInvoice js later uid invoiceId reason) d'
  = (Some (json 400 (Message "Cannot cancel a paid invoice")), d').
Proof.
  intros H0 H1 L0 Hamount Hinv Hfits Hfull d'. subst d'.
  destruct (recordPayment_recorded js faults now uid invoiceId amount paymentMethod
              notes d invoice H0 H1 Hamount Hinv Hfits)
    as [receipt [d' [invoice' [Hrun [Hinv' [_ Hstatus]]]]]].
  rewrite Hrun. cbn [snd]. rewrite Hfull in Hstatus.
  unfold cancelInvoice. run_handler. rewrite L0, Hinv'. cbn [db calls fst snd].
  rewrite Hstatus. reflexivity.
Qed.

Lemma settled_invoice_is_not_cancelled_witness :
  healthy 0%nat = false /\
  healthy 1%nat = false /\
  amountRejected Node.builtins (JStr "200") = false /\
  storage.getInvoice 43 1 Sample.data = Some Sample.invoice43 /\
  (totalOf Node.builtins Sample.invoice43
   <? paidAfter Node.builtins Sample.invoice43 (JStr "200"))%float = false /\
  (totalOf Node.builtins Sample.invoice43
   <=? paidAfter Node.builtins Sample.invoice43 (JStr "200"))%float = true /\
  fst (serve (cancelInvoice Node.builtins healthy 1 43 JUndefined)
         (snd (serve (recordPayment Node.builtins healthy Sample.today 1 43
                        (JStr "200") JUndefined JUndefined) Sample.data)))
  = Some (json 400 (Message "Cannot cancel a paid invoice")).
Proof.
  split; [reflexivity|]. split; [reflexivity|]. split; [vm_compute; reflexivity|].
  split; [reflexivity|]. split; [vm_compute; reflexivity|].
  split; [vm_compute; reflexivity|].
  rewrite (settled_invoice_is_not_cancelled Node.builtins healthy healthy
             Sample.today 1 43 (JStr "200") JUndefined JUndefined JUndefined
             Sample.data Sample.invoice43 eq_refl eq_refl eq_refl
             ltac:(vm_compute; reflexivity) eq_refl
             ltac:(vm_compute; reflexivity) ltac:(vm_compute; reflexivity)).
  reflexivity.
Defined.

(** X3: the payment route does not look at the status: an invoice that was
    cancelled takes a payment that fits its total, and a payment that
    leaves a positive amount paid overwrites the status, so the invoice is
    no longer "cancelled". *)
Theorem payment_reopens_cancelled_invoice (js : Builtins)
    (faults later : nat -> bool) (now uid invoiceId : Z)
    (reason amount paymentMethod notes : JSValue) (d : DB) (invoice : Invoice.t) :
  faults 0%nat = false ->
  faults 1%nat = false ->
  later 0%nat = false ->
  later 1%nat = false ->
  storage.getInvoice invoiceId uid d = Some invoice ->
  Invoice.status invoice <> "cancelled" ->
  Invoice.status invoice <> "paid" ->
  amountRejected js amount = false ->
  (totalOf js invoice <? paidAfter js invoice amount)%float = false ->
  (0 <? paidAfter js invoice amount)%float = true ->
  let d1 := snd (serve (cancelInvoice js faults uid invoiceId reason) d) in
  exists cancelled,
    storage.getInvoice invoiceId uid d1 = Some cancelled
    /\ Invoice.status cancelled = "cancelled"
    /\ exists receipt d2 invoice2,
         serve (recordPayment js later now uid invoiceId amount paymentMethod notes) d1
         = (Some (json 200 (ReceiptJson receipt)), d2)
         /\ storage.getInvoice invoiceId uid d2 = Some invoice2
         /\ (Invoice.status invoice2 = "paid"
             \/ Invoice.status invoice2 = "partially_paid").
Proof.
  intros H0 H1 L0 L1 Hinv Hc Hp Hamount Hfits Hpositive d1. subst d1.
  rewrite (cancelInvoice_run js faults uid invoiceId reason d invoice H0 H1 Hinv Hc Hp).
  cbn [snd].
  pose proof (getInvoice_patched uid invoiceId (cancelledInvoice js reason invoice)
                d invoice (fun i => eq_refl) Hinv) as Hinv1.
  exists (cancelledInvoice js reason invoice invoice).
  split; [exact Hinv1|]. split; [reflexivity|].
  assert (Hsame : paidAfter js (cancelledInvoice js reason invoice invoice) amount
                  = paidAfter js invoice amount
                  /\ totalOf js (cancelledInvoice js reason invoice invoice)
                     = totalOf js invoice)
    by (destruct invoice; split; reflexivity).
  destruct Hsame as [Hpaid Htotal].
  destruct (recordPayment_recorded js later now uid invoiceId amount paymentMethod
              notes _ _ L0 L1 Hamount Hinv1
              ltac:(rewrite Hpaid, Htotal; exact Hfits))
    as [receipt [d2 [invoice2 [Hrun [Hinv2 [_ Hstatus]]]]]].
  exists receipt, d2, invoice2. split; [exact Hrun|]. split; [exact Hinv2|].
  rewrite Hpaid, Htotal, Hpositive in Hstatus.
  destruct (totalOf js invoice <=? paidAfter js invoice amount)%float;
    [left|right]; exact Hstatus.
Qed.

Lemma payment_reopens_cancelled_invoice_witness :
  healthy 0%nat = false /\
  healthy 1%nat = false /\
  storage.getInvoice 43 1 Sample.data = Some Sample.invoice43 /\
  Invoice.status Sample.invoice43 <> "cancelled" /\
  Invoice.status Sample.invoice43 <> "paid" /\
  amountRejected Node.builtins (JStr "50") = false /\
  (totalOf Node.builtins Sample.invoice43
   <? paidAfter Node.builtins Sample.invoice43 (JStr "50"))%float = false /\
  (0 <? paidAfter Node.builtins Sample.invoice43 (JStr "50"))%float = true /\
  exists cancelled receipt d2 invoice2,
    storage.getInvoice 43 1
      (snd (serve (cancelInvoice Node.builtins healthy 1 43 JUndefined) Sample.data))
    = Some cancelled
    /\ Invoice.status cancelled = "cancelled"
    /\ serve (recordPayment Node.builtins healthy Sample.today 1 43 (JStr "50")
                JUndefined JUndefined)
         (snd (serve (cancelInvoice Node.builtins healthy 1 43 JUndefined) Sample.data))
       = (Some (json 200 (ReceiptJson receipt)), d2)
    /\ storage.getInvoice 43 1 d2 = Some invoice2
    /\ (Invoice.status invoice2 = "paid" \/ Invoice.status invoice2 = "partially_paid").
Proof.
  split; [reflexivity|]. split; [reflexivity|]. split; [reflexivity|].
  split; [discriminate|]. split; [discriminate|].
  split; [vm_compute; reflexivity|]. split; [vm_compute; reflexivity|].
  split; [vm_compute; reflexivity|].
  destruct (payment_reopens_cancelled_invoice Node.builtins healthy healthy
              Sample.today 1 43 JUndefined (JStr "50") JUndefined JUndefined
              Sample.data Sample.invoice43 eq_refl eq_refl eq_refl eq_refl eq_refl
              ltac:(discriminate) ltac:(discriminate)
              ltac:(vm_compute; reflexivity) ltac:(vm_compute; reflexivity)
              ltac:(vm_compute; reflexivity))
    as [cancelled [Hrow [Hstatus [receipt [d2 [invoice2 [Hrun [Hrow2 Hstatus2]]]]]]]].
  exists cancelled, receipt, d2, invoice2.
  split; [exact Hrow|]. split; [exact Hstatus|]. split; [exact Hrun|].
  split; [exact Hrow2|exact Hstatus2].
Defined.

(** ** What a payment leaves alone *)

Lemma paymentFrame_refl (uid invoiceId : Z) (d : DB) : paymentFrame uid invoiceId d d.
Proof.
  unfold paymentFrame. repeat (split; [reflexivity|]).
  split; [intros i Hi _; exact Hi|].
  split; [exists []; rewrite app_nil_r; reflexivity|intros p Hp _; exact Hp].
Qed.

Lemma paymentFrame_trans (uid invoiceId : Z) (d1 d2 d3 : DB) :
  paymentFrame uid invoiceId d1 d2 -> paymentFrame uid invoiceId d2 d3 ->
  paymentFrame uid invoiceId d1 d3.
Proof.
  unfold paymentFrame.
  intros [Hc [He [Hei [Hii [Ha [Hev [Hid [Hin [[added Hadd] Hp]]]]]]]]]
         [Hc' [He' [Hei' [Hii' [Ha' [Hev' [Hid' [Hin' [[added' Hadd'] Hp']]]]]]]]].
  split; [congruence|]. split; [congruence|]. split; [congruence|].
  split; [congruence|]. split; [congruence|]. split; [congruence|].
  split; [congruence|].
  split; [intros i Hi Hother; apply Hin'; [apply Hin; assumption|exact Hother]|].
  split.
  - exists (added ++ added')%list. rewrite Hadd', Hadd, app_assoc. reflexivity.
  - intros p Hin1 Hother. apply Hp'; [apply Hp; assumption|exact Hother].
Qed.

Lemma map_patched_ids {A} (idOf : A -> Z) (hit : A -> bool) (patch : A -> A)
    (l : list A) :
  (forall x, idOf (patch x) = idOf x) ->
  map idOf (map (fun x => if hit x then patch x else x) l) = map idOf l.
Proof.
  intros Hid. rewrite map_map. apply map_ext. intros x.
  destruct (hit x); [apply Hid|reflexivity].
Qed.

Lemma in_map_patched {A} (hit : A -> bool) (patch : A -> A) (l : list A) (x : A) :
  In x l -> hit x = false -> In x (map (fun y => if hit y then patch y else y) l).
Proof.
  intros Hin Hmiss. apply in_map_iff. exists x. rewrite Hmiss. split; [reflexivity|exact Hin].
Qed.

Lemma paymentFrame_invoices (uid invoiceId : Z) (patch : Invoice.t -> Invoice.t)
    (d : DB) :
  (forall i, Invoice.id (patch i) = Invoice.id i) ->
  paymentFrame uid invoiceId d
    (with_invoices
       (map (fun i => if storage.isInvoice invoiceId uid i then patch i else i)
            (invoices d)) d).
Proof.
  intros Hid. unfold paymentFrame, with_invoices.
  cbn [clients projects estimates estimateItems invoices invoiceItems agents events].
  repeat (split; [reflexivity|]).
  split; [apply map_patched_ids; exact Hid|].
  split; [intros i Hi Hother; apply in_map_patched; assumption|].
  split; [exists []; rewrite app_nil_r; reflexivity|intros p Hp _; exact Hp].
Qed.

Lemma paymentFrame_project_patched (uid invoiceId projectId : Z)
    (patch : Project.t -> Project.t) (d : DB) :
  (forall p, Project.id (patch p) = Project.id p) ->
  paymentFrame uid invoiceId d
    (with_projects
       (map (fun p => if storage.isProject projectId uid p then patch p else p)
            (projects d)) d).
Proof.
  intros Hid. unfold paymentFrame, with_projects.
  cbn [clients projects estimates estimateItems invoices invoiceItems agents events].
  repeat (split; [reflexivity|]).
  split; [intros i Hi _; exact Hi|].
  split.
  - exists []. rewrite app_nil_r. apply map_patched_ids. exact Hid.
  - intros p Hp Hother. apply in_map_patched; [exact Hp|].
    unfold storage.isProject.
    destruct (Project.contractorId p =? uid) eqn:Hc;
      [apply Z.eqb_eq in Hc; contradiction|apply andb_false_r].
Qed.

Lemma paymentFrame_project_added (uid invoiceId : Z) (row : Project.t) (d : DB) :
  paymentFrame uid invoiceId d (with_projects (projects d ++ [row])%list d).
Proof.
  unfold paymentFrame, with_projects.
  cbn [clients projects estimates estimateItems invoices invoiceItems agents events].
  repeat (split; [reflexivity|]).
  split; [intros i Hi _; exact Hi|].
  split.
  - exists [Project.id row]. rewrite map_app. reflexivity.
  - intros p Hp _. apply in_or_app. left. exact Hp.
Qed.

(** The project step never throws and stays within the frame. *)
Lemma autoUpdateProject_frame (js : Builtins) (faults : nat -> bool)
    (now uid invoiceId : Z) (invoice : Invoice.t) (w : World) :
  exists u w',
    autoUpdateProject js faults now uid invoiceId invoice w = (Ok u, w')
    /\ paymentFrame uid invoiceId (db w) (db w').
Proof.
  unfold autoUpdateProject, tryCatch, bind, query, call, ret.
  destruct (truthyInt (Invoice.projectId invoice)); cbn [db calls];
    (destruct (faults (calls w)); cbn [db calls fst snd];
     [eexists; eexists; split; [reflexivity|]; apply paymentFrame_refl|]).
  - destruct (storage.getProject _ uid (db w)) as [p|];
      [|eexists; eexists; split; [reflexivity|]; apply paymentFrame_refl].
    destruct (String.eqb (Project.status p) "pending");
      [|eexists; eexists; split; [reflexivity|]; apply paymentFrame_refl].
    cbn [db calls].
    destruct (faults (S (calls w))); cbn [db calls fst snd storage.updateProject];
      eexists; eexists; (split; [reflexivity|]);
      [apply paymentFrame_refl
      |apply paymentFrame_project_patched; intros q; reflexivity].
  - destruct (storage.getClient _ uid (db w)) as [c|];
      [|eexists; eexists; split; [reflexivity|]; apply paymentFrame_refl].
    cbn [db calls].
    destruct (faults (S (calls w))); cbn [db calls fst snd storage.createSimpleProject];
      [eexists; eexists; split; [reflexivity|]; apply paymentFrame_refl|].
    destruct (faults (S (S (calls w)))); cbn [db calls fst snd storage.updateInvoice];
      eexists; eexists; (split; [reflexivity|]).
    + apply paymentFrame_project_added.
    + eapply paymentFrame_trans; [apply paymentFrame_project_added|].
      apply paymentFrame_invoices. intros i. reflexivity.
Qed.

(** X4: whatever the request and whichever database calls fail, a payment
    touches nothing but the invoice it addresses and the projects of its
    contractor: clients, estimates, items, agents and events are as before,
    no invoice appears or disappears, every other invoice is as before, no
    project disappears and the projects of other contractors are as
    before. *)
Theorem recordPayment_frame (js : Builtins) (faults : nat -> bool)
    (now uid invoiceId : Z) (amount paymentMethod notes : JSValue) (d : DB) :
  paymentFrame uid invoiceId d
    (snd (serve (recordPayment js faults now uid invoiceId amount paymentMethod notes) d)).
Proof.
  unfold recordPayment, serve, tryCatch.
  destruct (negb (truthy amount) || isNaN (parseFloat js amount));
    [unfold ret; cbn [db snd]; apply paymentFrame_refl|].
  unfold bind at 1, query at 1, call at 1. cbn [db calls].
  destruct (faults 0%nat); [unfold ret; cbn [db snd]; apply paymentFrame_refl|].
  cbn [db calls].
  destruct (storage.getInvoice invoiceId uid d) as [invoice|];
    [|unfold ret; cbn [db snd]; apply paymentFrame_refl].
  cbv zeta.
  destruct (_ <? _)%float; [unfold ret; cbn [db snd]; apply paymentFrame_refl|].
  unfold bind at 1, call at 1. cbn [db calls].
  destruct (faults 1%nat); [unfold ret; cbn [db snd]; apply paymentFrame_refl|].
  cbn [db calls fst snd storage.updateInvoice].
  unfold bind at 1.
  destruct (0 <? _)%float.
  - match goal with
    | |- context [autoUpdateProject js faults now uid invoiceId invoice ?w] =>
        destruct (autoUpdateProject_frame js faults now uid invoiceId invoice w)
          as [u [w' [Hrun Hframe]]]
    end.
    rewrite Hrun. unfold ret. cbn [db snd]. cbn [db] in Hframe.
    eapply paymentFrame_trans; [|exact Hframe].
    apply paymentFrame_invoices. intros i. reflexivity.
  - unfold ret. cbn [db snd].
    apply paymentFrame_invoices. intros i. reflexivity.
Qed.

(** ** Deciding an estimate *)

Lemma getEstimate_patched (uid estimateId : Z) (patch : Estimate.t -> Estimate.t)
    (d : DB) (estimate : Estimate.t) :
  (forall e, storage.isEstimate estimateId uid (patch e)
             = storage.isEstimate estimateId uid e) ->
  storage.getEstimate estimateId uid d = Some estimate ->
  storage.getEstimate estimateId uid
    (with_estimates
       (map (fun e => if storage.isEstimate estimateId uid e then patch e else e)
            (estimates d)) d)
  = Some (patch estimate).
Proof.
  intros Hkeys He. unfold storage.getEstimate, with_estimates. cbn [estimates].
  rewrite find_patched by exact Hkeys.
  unfold storage.getEstimate in He. rewrite He. reflexivity.
Qed.

Lemma undecided_passes_guard (e : Estimate.t) :
  undecided e ->
  negb (String.eqb (Estimate.status e) "draft")
  && negb (String.eqb (Estimate.status e) "sent") = false.
Proof. intros [Hs|Hs]; rewrite Hs; reflexivity. Qed.

(** What accepting an undecided estimate computes. *)
Lemma acceptEstimate_run (js : Builtins) (faults : nat -> bool)
    (uid estimateId : Z) (notes : JSValue) (d : DB) (estimate : Estimate.t) :
  faults 0%nat = false ->
  faults 1%nat = false ->
  storage.getEstimate estimateId uid d = Some estimate ->
  undecided estimate ->
  serve (acceptEstimate js faults uid estimateId notes) d
  = (Some (json 200 (EstimateJson (Some (acceptedEstimate js notes estimate estimate)))),
     with_estimates
       (map (fun e => if storage.isEstimate estimateId uid e
                      then acceptedEstimate js notes estimate e else e)
            (estimates d)) d).
Proof.
  intros H0 H1 He Hopen.
  unfold acceptEstimate. run_handler. rewrite H0, He. cbn [db calls fst snd].
  rewrite (undecided_passes_guard _ Hopen). cbn [db calls fst snd]. rewrite H1.
  unfold storage.updateEstimate. rewrite He. cbn [option_map db calls fst snd].
  unfold acceptedEstimate. destruct (truthy notes); reflexivity.
Qed.

(** What rejecting an undecided estimate, with a reason, computes. *)
Lemma rejectEstimate_run (js : Builtins) (faults : nat -> bool)
    (uid estimateId : Z) (notes : JSValue) (d : DB) (estimate : Estimate.t) :
  faults 0%nat = false ->
  faults 1%nat = false ->
  storage.getEstimate estimateId uid d = Some estimate ->
  undecided estimate ->
  truthy notes = true ->
  serve (rejectEstimate js faults uid estimateId notes) d
  = (Some (json 200 (EstimateJson (Some (rejectedEstimate js notes estimate estimate)))),
     with_estimates
       (map (fun e => if storage.isEstimate estimateId uid e
                      then rejectedEstimate js notes estimate e else e)
            (estimates d)) d).
Proof.
  intros H0 H1 He Hopen Hnotes.
  unfold rejectEstimate. run_handler. rewrite H0, He. cbn [db calls fst snd].
  rewrite (undecided_passes_guard _ Hopen), Hnotes. cbn [db calls fst snd negb]. rewrite H1.
  unfold storage.updateEstimate. rewrite He. cbn [option_map db calls fst snd].
  reflexivity.
Qed.

(** An estimate whose status is [status] is turned down by both routes. *)
Lemma decided_is_refused (js : Builtins) (faults : nat -> bool)
    (uid estimateId : Z) (notes : JSValue) (d : DB) (e : Estimate.t) :
  faults 0%nat = false ->
  storage.getEstimate estimateId uid d = Some e ->
  Estimate.status e = "accepted" \/ Estimate.status e = "rejected" ->
  serve (acceptEstimate js faults uid estimateId notes) d
  = (Some (json 400 (Message ("Estimate cannot be accepted from current status: "
                              ++ Estimate.status e))), d)
  /\ serve (rejectEstimate js faults uid estimateId notes) d
     = (Some (json 400 (Message ("Estimate cannot be rejected from current status: "
                                 ++ Estimate.status e))), d).
Proof.
  intros H0 He Hs.
  unfold acceptEstimate, rejectEstimate. run_handler.
  rewrite H0, He. cbn [db calls fst snd].
  destruct Hs as [Hs|Hs]; rewrite Hs; split; reflexivity.
Qed.

(** X6: a decision is final: once an undecided estimate is accepted, or
    rejected with a reason, its status is "accepted" or "rejected" and the
    decision is appended to its notes (after the old notes and an empty
    line when there were notes); every later request to accept it or to
    reject it is answered 400 and leaves the database as the decision left
    it. *)
Theorem decision_is_final (js : Builtins) (faults later : nat -> bool)
    (uid estimateId : Z) (notes again : JSValue) (d : DB) (estimate : Estimate.t) :
  faults 0%nat = false ->
  faults 1%nat = false ->
  later 0%nat = false ->
  storage.getEstimate estimateId uid d = Some estimate ->
  undecided estimate ->
  let appended line :=
    Some (match Estimate.notes estimate with
          | None => line
          | Some "" => line
          | Some old => old ++ String "010"%char (String "010"%char line)
          end) in
  (let d' := snd (serve (acceptEstimate js faults uid estimateId notes) d) in
   exists accepted,
     storage.getEstimate estimateId uid d' = Some accepted
     /\ Estimate.status accepted = "accepted"
     /\ Estimate.notes accepted
        = appended (if truthy notes then "Accepted: " ++ toStringJS js notes
                    else "Estimate accepted")
     /\ Estimate.total accepted = Estimate.total estimate
     /\ serve (acceptEstimate js later uid estimateId again) d'
        = (Some (json 400 (Message
             "Estimate cannot be accepted from current status: accepted")), d')
     /\ serve (rejectEstimate js later uid estimateId again) d'
        = (Some (json 400 (Message
             "Estimate cannot be rejected from current status: accepted")), d'))
  /\
  (truthy notes = true ->
   let d' := snd (serve (rejectEstimate js faults uid estimateId notes) d) in
   exists rejected,
     storage.getEstimate estimateId uid d' = Some rejected
     /\ Estimate.status rejected = "rejected"
     /\ Estimate.notes rejected = appended ("Rejected: " ++ toStringJS js notes)
     /\ Estimate.total rejected = Estimate.total estimate
     /\ serve (acceptEstimate js later uid estimateId again) d'
        = (Some (json 400 (Message
             "Estimate cannot be accepted from current status: rejected")), d')
     /\ serve (rejectEstimate js later uid estimateId again) d'
        = (Some (json 400 (Message
             "Estimate cannot be rejected from current status: rejected")), d')).
Proof.
  intros H0 H1 L0 He Hopen appended. split.
  - intros d'. subst d'.
    rewrite (acceptEstimate_run js faults uid estimateId notes d estimate H0 H1 He Hopen).
    cbn [snd].
    pose proof (getEstimate_patched uid estimateId (acceptedEstimate js notes estimate)
                  d estimate (fun e => eq_refl) He) as He'.
    destruct (decided_is_refused js later uid estimateId again _ _ L0 He'
                (or_introl eq_refl)) as [Ha Hr].
    exists (acceptedEstimate js notes estimate estimate).
    split; [exact He'|]. split; [reflexivity|].
    split.
    { subst appended. cbn [acceptedEstimate Estimate.with_notes Estimate.notes].
      f_equal. apply notesPrefix_appended. }
    split; [reflexivity|]. split; [exact Ha|exact Hr].
  - intros Hnotes d'. subst d'.
    rewrite (rejectEstimate_run js faults uid estimateId notes d estimate H0 H1 He
               Hopen Hnotes).
    cbn [snd].
    pose proof (getEstimate_patched uid estimateId (rejectedEstimate js notes estimate)
                  d estimate (fun e => eq_refl) He) as He'.
    destruct (decided_is_refused js later uid estimateId again _ _ L0 He'
                (or_intror eq_refl)) as [Ha Hr].
    exists (rejectedEstimate js notes estimate estimate).
    split; [exact He'|]. split; [reflexivity|].
    split.
    { subst appended. cbn [rejectedEstimate Estimate.with_notes Estimate.notes].
      f_equal. apply notesPrefix_appended. }
    split; [reflexivity|]. split; [exact Ha|exact Hr].
Qed.

Lemma decision_is_final_witness :
  healthy 0%nat = false /\
  healthy 1%nat = false /\
  storage.getEstimate 34 1 Fixtures.data = Some Fixtures.estimate34 /\
  undecided Fixtures.estimate34 /\
  truthy (JStr "too dear") = true /\
  (exists rejected,
     storage.getEstimate 34 1
       (snd (serve (rejectEstimate Node.builtins healthy 1 34 (JStr "too dear"))
                   Fixtures.data))
     = Some rejected
     /\ Estimate.status rejected = "rejected"
     /\ Estimate.notes rejected
        = Some ("Call first"
                ++ String "010"%char (String "010"%char "Rejected: too dear"))) /\
  code_of (fst (serve (rejectEstimate Node.builtins healthy 1 34 (JStr "no"))
                  (snd (serve (rejectEstimate Node.builtins healthy 1 34 (JStr "too dear"))
                              Fixtures.data))))
  = Some 400.
Proof.
  split; [reflexivity|]. split; [reflexivity|]. split; [reflexivity|].
  split; [right; reflexivity|]. split; [reflexivity|].
  destruct (decision_is_final Node.builtins healthy healthy 1 34 (JStr "too dear")
              (JStr "no") Fixtures.data Fixtures.estimate34 eq_refl eq_refl eq_refl
              eq_refl (or_intror eq_refl)) as [_ Hreject].
  destruct (Hreject eq_refl) as [rejected [Hrow [Hstatus [Hnotes [_ [_ Hagain]]]]]].
  split.
  - exists rejected. split; [exact Hrow|]. split; [exact Hstatus|exact Hnotes].
  - rewrite Hagain. reflexivity.
Defined.

(** ** Converting once, and converting without a transaction *)

(** The loop that copies the items, when none of its calls fails. *)
Lemma copy_items_run_within (faults : nat -> bool) (invoiceId : Z)
    (items : list EstimateItem.t) :
  forall w,
    (forall n, (calls w <= n < calls w + List.length items)%nat -> faults n = false) ->
    forEach items (fun item =>
      call faults
        (storage.createInvoiceItem (fun id =>
           InvoiceItem.mk id invoiceId
             (EstimateItem.description item)
             (EstimateItem.quantity item)
             (EstimateItem.unitPrice item)
             (EstimateItem.amount item)
             (EstimateItem.notes item))) ;;;
      ret tt) w
    = (Ok tt,
       mkWorld
         (with_invoiceItems
            (invoiceItems (db w)
             ++ copiedItems invoiceId (invoiceItems (db w)) items)%list (db w))
         (calls w + List.length items)).
Proof.
  induction items as [|item rest IH]; intros w Hf.
  - destruct w as [[] n]. cbn. unfold ret, with_invoiceItems. cbn.
    rewrite app_nil_r, Nat.add_0_r. reflexivity.
  - cbn [forEach]. unfold bind at 1.
    rewrite run_call by (apply Hf; cbn [List.length]; lia).
    unfold ret at 1.
    rewrite IH by (intros n Hn; apply Hf; cbn [calls List.length] in *; lia).
    cbn [db calls List.length copiedItems fst snd storage.createInvoiceItem].
    unfold with_invoiceItems. cbn [invoiceItems clients projects estimates estimateItems invoices agents events].
    rewrite <- app_assoc. cbn [app]. rewrite Nat.add_succ_r. reflexivity.
Qed.

Lemma getEstimate_patched_over (uid estimateId : Z)
    (patch : Estimate.t -> Estimate.t) (d base : DB) (estimate : Estimate.t) :
  (forall e, storage.isEstimate estimateId uid (patch e)
             = storage.isEstimate estimateId uid e) ->
  storage.getEstimate estimateId uid d = Some estimate ->
  storage.getEstimate estimateId uid
    (with_estimates
       (map (fun e => if storage.isEstimate estimateId uid e then patch e else e)
            (estimates d)) base)
  = Some (patch estimate).
Proof.
  intros Hkeys He. unfold storage.getEstimate, with_estimates. cbn [estimates].
  rewrite find_patched by exact Hkeys.
  unfold storage.getEstimate in He. rewrite He. reflexivity.
Qed.

(** X7: an estimate is converted once: after a conversion the table holds one
    more invoice, the estimate is "converted", and a second conversion is
    answered 400 and writes nothing, so no second invoice is made. *)
Theorem conversion_happens_once (js : Builtins) (faults later : nat -> bool)
    (now now' : Z) (clock clock' : nat -> Z) (random random' : float) (uid estimateId : Z) (d : DB)
    (estimate : Estimate.t) :
  (forall n, faults n = false) ->
  later 0%nat = false ->
  storage.getEstimate estimateId uid d = Some estimate ->
  Estimate.status estimate = "accepted" ->
  let d' := snd (serve (convertToInvoice js faults now clock random uid estimateId) d) in
  invoices d' = (invoices d ++ [convertedInvoice js now clock random uid estimate d])%list
  /\ option_map Estimate.status (storage.getEstimate estimateId uid d') = Some "converted"
  /\ serve (convertToInvoice js later now' clock' random' uid estimateId) d'
     = (Some (json 400 (Message
          "Only accepted estimates can be converted to invoices. Please accept the estimate first.")),
        d').
Proof.
  intros Hf L0 He Hs d'. subst d'.
  rewrite (convertToInvoice_run js faults now clock random uid estimateId d estimate
             Hf He Hs).
  cbn [snd].
  epose proof (getEstimate_patched_over uid estimateId
                 (fun e => Estimate.with_notes
                             (Some (notesPrefix (Estimate.notes estimate)
                                    ++ "Converted to Invoice #"
                                    ++ newInvoiceNumber js now random))
                             (Estimate.with_status "converted" e))
                 d _ estimate (fun e => eq_refl) He) as Hfound.
  cbv beta in Hfound.
  split; [reflexivity|]. split.
  - rewrite Hfound. reflexivity.
  - unfold convertToInvoice at 1, serve, tryCatch.
    rewrite run_query by exact L0. cbn [db calls]. rewrite Hfound.
    reflexivity.
Qed.

Lemma conversion_happens_once_witness :
  (forall n, healthy n = false) /\
  healthy 0%nat = false /\
  storage.getEstimate 30 1 Sample.data = Some Sample.estimate30 /\
  Estimate.status Sample.estimate30 = "accepted" /\
  code_of (fst (serve (convertToInvoice Node.builtins healthy (Sample.today + Sample.hour)
                         (fun _ => Sample.today + Sample.hour) 0.25%float 1 30)
                  (snd (serve (convertToInvoice Node.builtins healthy Sample.today
                                 (fun _ => Sample.today) 0.5%float 1 30) Sample.data))))
  = Some 400.
Proof.
  split; [intros n; reflexivity|]. split; [reflexivity|]. split; [reflexivity|].
  split; [reflexivity|].
  destruct (conversion_happens_once Node.builtins healthy healthy Sample.today
              (Sample.today + Sample.hour) (fun _ => Sample.today)
              (fun _ => Sample.today + Sample.hour) 0.5%float 0.25%float 1 30 Sample.data
              Sample.estimate30 (fun n => eq_refl) eq_refl eq_refl eq_refl)
    as [_ [_ Hagain]].
  rewrite Hagain. reflexivity.
Defined.

(** X8: the conversion is not atomic: when the invoice and the items are
    written and the update of the estimate then throws, the request is
    answered 500 while the new invoice and its items stay in the database
    and the estimate stays "accepted"; repeating the request then makes a
    second invoice for the same estimate. *)
Theorem failed_conversion_leaves_invoice (js : Builtins) (faults : nat -> bool)
    (now now' : Z) (clock clock' : nat -> Z) (random random' : float) (uid estimateId : Z) (d : DB)
    (estimate : Estimate.t) :
  let items := storage.getEstimateItems estimateId uid d in
  (forall n, (n < 3 + List.length items)%nat -> faults n = false) ->
  faults (3 + List.length items)%nat = true ->
  storage.getEstimate estimateId uid d = Some estimate ->
  Estimate.status estimate = "accepted" ->
  let invoice := convertedInvoice js now clock random uid estimate d in
  let out := serve (convertToInvoice js faults now clock random uid estimateId) d in
  fst out = Some (json 500 (Message "Failed to convert estimate to work order"))
  /\ invoices (snd out) = (invoices d ++ [invoice])%list
  /\ invoiceItems (snd out)
     = (invoiceItems d ++ copiedItems (Invoice.id invoice) (invoiceItems d) items)%list
  /\ estimates (snd out) = estimates d
  /\ storage.getEstimate estimateId uid (snd out) = Some estimate
  /\ invoices (snd (serve (convertToInvoice js healthy now' clock' random' uid estimateId)
                      (snd out)))
     = (invoices d
        ++ [invoice; convertedInvoice js now' clock' random' uid estimate (snd out)])%list.
Proof.
  intros items Hf Hfault He Hs invoice out.
  assert (Hout : out
                 = (Some (json 500 (Message "Failed to convert estimate to work order")),
                    with_invoiceItems
                      (invoiceItems d
                       ++ copiedItems (Invoice.id invoice) (invoiceItems d) items)%list
                      (with_invoices (invoices d ++ [invoice])%list d))).
  { subst out invoice items. unfold convertToInvoice, serve, tryCatch.
    rewrite run_query by (apply Hf; cbn [calls]; lia). cbn [db calls]. rewrite He, Hs.
    change (String.eqb "accepted" "accepted") with true. cbn [negb].
    rewrite run_query by (apply Hf; cbn [calls]; lia). cbn [db calls].
    rewrite run_call by (apply Hf; cbn [calls]; lia).
    cbn [db calls fst snd storage.createInvoice].
    unfold bind at 1.
    rewrite copy_items_run_within
      by (intros n Hn; apply Hf; cbn [calls] in Hn; lia).
    cbn [db calls]. unfold bind at 1, call at 1. cbn [db calls].
    rewrite Hfault. unfold ret. reflexivity. }
  rewrite Hout. cbn [fst snd].
  assert (He' : storage.getEstimate estimateId uid
                  (with_invoiceItems
                     (invoiceItems d
                      ++ copiedItems (Invoice.id invoice) (invoiceItems d) items)%list
                     (with_invoices (invoices d ++ [invoice])%list d))
                = Some estimate) by exact He.
  split; [reflexivity|]. split; [reflexivity|]. split; [reflexivity|].
  split; [reflexivity|]. split; [exact He'|].
  rewrite (convertToInvoice_run js healthy now' clock' random' uid estimateId _ estimate
             (fun n => eq_refl) He' Hs).
  cbn [snd invoices with_estimates with_invoiceItems with_invoices].
  rewrite <- app_assoc. reflexivity.
Qed.

Lemma failed_conversion_leaves_invoice_witness :
  (forall n, (n < 3 + List.length (storage.getEstimateItems 30 1 Sample.data))%nat ->
             Sample.failing 5 n = false) /\
  Sample.failing 5 (3 + List.length (storage.getEstimateItems 30 1 Sample.data))%nat = true /\
  storage.getEstimate 30 1 Sample.data = Some Sample.estimate30 /\
  Estimate.status Sample.estimate30 = "accepted" /\
  code_of (fst (serve (convertToInvoice Node.builtins (Sample.failing 5) Sample.today
                         (fun _ => Sample.today) 0.5%float 1 30) Sample.data))
  = Some 500 /\
  List.length
    (invoices (snd (serve (convertToInvoice Node.builtins (Sample.failing 5) Sample.today
                             (fun _ => Sample.today) 0.5%float 1 30) Sample.data)))
  = 6%nat.
Proof.
  assert (Hbefore : forall n,
             (n < 3 + List.length (storage.getEstimateItems 30 1 Sample.data))%nat ->
             Sample.failing 5 n = false).
  { intros n Hn. change (n < 5)%nat in Hn. unfold Sample.failing.
    apply Nat.eqb_neq. lia. }
  split; [exact Hbefore|]. split; [reflexivity|]. split; [reflexivity|].
  split; [reflexivity|].
  destruct (failed_conversion_leaves_invoice Node.builtins (Sample.failing 5)
              Sample.today Sample.today (fun _ => Sample.today) (fun _ => Sample.today)
              0.5%float 0.5%float 1 30 Sample.data
              Sample.estimate30 Hbefore eq_refl eq_refl eq_refl)
    as [Hcode [Hinvoices _]].
  split; [rewrite Hcode; reflexivity|rewrite Hinvoices; reflexivity].
Defined.

(** ** Agents *)

Lemma filter_empty {A} (f : A -> bool) (l : list A) :
  (forall x, In x l -> f x = false) -> filter f l = [].
Proof.
  induction l as [|x l IH]; intros H; cbn [filter]; [reflexivity|].
  rewrite (H x (or_introl eq_refl)). apply IH. intros y Hy. apply H. right. exact Hy.
Qed.

Lemma bookedFor_spec (c agentId : Z) (e : Estimate.t) :
  eqColumn (Estimate.agentId e) agentId && (Estimate.contractorId e =? c) = true
  <-> bookedFor c agentId e.
Proof.
  unfold bookedFor, eqColumn. rewrite andb_true_iff, Z.eqb_eq.
  destruct (Estimate.agentId e) as [a|].
  - rewrite Z.eqb_eq. split; intros [Ha Hc]; split; congruence.
  - split; intros [Ha _]; discriminate.
Qed.

(** X9: an agent is deleted only while no estimate of the contractor is booked
    for it, whatever the status of the estimate: otherwise the answer is
    400 and nothing changes.  The deletion removes the contractor's agent
    with that id and nothing else, and is answered 200 whether or not there
    was such an agent. *)
Theorem deleteAgent_spec (faults : nat -> bool) (c agentId : Z) (d : DB) :
  faults 0%nat = false ->
  faults 1%nat = false ->
  let out := serve (deleteAgent faults c agentId) d in
  ((exists e, In e (estimates d) /\ bookedFor c agentId e) ->
   out = (Some (json 400 (Message
            "Cannot delete agent with active estimates. Please reassign or complete estimates first.")),
          d))
  /\
  ((forall e, In e (estimates d) -> ~ bookedFor c agentId e) ->
   fst out = Some (json 200 (Message "Agent deleted successfully"))
   /\ (forall a, In a (agents (snd out))
                 <-> In a (agents d)
                     /\ ~ (Agent.id a = agentId /\ Agent.contractorId a = c))
   /\ with_agents (agents d) (snd out) = d).
Proof.
  intros H0 H1 out. subst out. unfold deleteAgent. run_handler. rewrite H0.
  cbn [db calls fst snd]. split.
  - intros [e [Hin Hbooked]].
    destruct (filter _ (estimates d)) as [|x rest] eqn:Hfilter.
    + exfalso.
      assert (Hine : In e (filter (fun e => eqColumn (Estimate.agentId e) agentId
                                            && (Estimate.contractorId e =? c))
                             (estimates d)))
        by (apply filter_In; split; [exact Hin|apply bookedFor_spec; exact Hbooked]).
      rewrite Hfilter in Hine. exact Hine.
    + reflexivity.
  - intros Hfree.
    rewrite filter_empty.
    + cbn [List.length Z.of_nat Z.ltb Z.compare db calls fst snd]. rewrite H1.
      cbn [db calls fst snd]. split; [reflexivity|]. split.
      * intros a. unfold with_agents. cbn [agents]. rewrite filter_In.
        rewrite negb_true_iff, andb_false_iff, !Z.eqb_neq.
        split; intros [Hin Hkept]; (split; [exact Hin|]).
        -- intros [Hid Hc]. destruct Hkept; contradiction.
        -- destruct (Z.eq_dec (Agent.id a) agentId) as [Hid|Hid]; [|left; exact Hid].
           right. intros Hc. apply Hkept. split; assumption.
      * destruct d; reflexivity.
    + intros e Hin.
      destruct (eqColumn (Estimate.agentId e) agentId
                && (Estimate.contractorId e =? c)) eqn:Hsel; [|reflexivity].
      exfalso. apply (Hfree e Hin). apply bookedFor_spec. exact Hsel.
Qed.

Lemma deleteAgent_spec_witness :
  healthy 0%nat = false /\
  healthy 1%nat = false /\
  In Sample.estimate31 (estimates Sample.data) /\
  bookedFor 1 50 Sample.estimate31 /\
  serve (deleteAgent healthy 1 50) Sample.data
  = (Some (json 400 (Message
       "Cannot delete agent with active estimates. Please reassign or complete estimates first.")),
     Sample.data).
Proof.
  split; [reflexivity|]. split; [reflexivity|].
  assert (Hin : In Sample.estimate31 (estimates Sample.data))
    by (right; left; reflexivity).
  assert (Hbooked : bookedFor 1 50 Sample.estimate31) by (split; reflexivity).
  split; [exact Hin|]. split; [exact Hbooked|].
  destruct (deleteAgent_spec healthy 1 50 Sample.data eq_refl eq_refl) as [Hrefused _].
  apply Hrefused. exists Sample.estimate31. split; [exact Hin|exact Hbooked].
Defined.

(** What an assignment without a conflict leaves behind. *)
Lemma assignEstimate_assigned (faults : nat -> bool) (c : Z) (req : AssignRequest)
    (d : DB) (estimate : Estimate.t) (agent : Agent.t) :
  faults 0%nat = false -> faults 1%nat = false ->
  faults 2%nat = false -> faults 3%nat = false ->
  requestedEstimate c req d = Some estimate ->
  requestedAgent c req d = Some agent ->
  ~ (exists e, In e (estimates d) /\ conflictsWith c req e) ->
  let d' := snd (serve (assignEstimate faults c req) d) in
  code_of (fst (serve (assignEstimate faults c req) d)) = Some 200
  /\ estimates d' = assignedRows req d
  /\ agents d' = agents d
  /\ (events d' = events d
      \/ events d' = (events d ++ [appointmentEvent c req estimate agent d])%list).
Proof.
  intros H0 H1 H2 H3 He Ha Hno d'. subst d'.
  rewrite (assignEstimate_run faults c req d estimate agent H0 H1 H2 H3 He Ha).
  pose proof (hasTimeConflict_spec c req d) as Hspec.
  destruct (existsb _ _) eqn:Hex.
  - exfalso. apply Hno. apply Hspec. reflexivity.
  - cbn [fst snd]. split; [reflexivity|].
    destruct (faults 4%nat); repeat split; try reflexivity; [left|right]; reflexivity.
Qed.

(** The requested estimate is a row of the table, with the id of the
    request, and belongs to the contractor. *)
Lemma requestedEstimate_found (c : Z) (req : AssignRequest) (d : DB)
    (estimate : Estimate.t) :
  requestedEstimate c req d = Some estimate ->
  In estimate (estimates d)
  /\ Estimate.id estimate = estimateId req
  /\ Estimate.contractorId estimate = c.
Proof.
  unfold requestedEstimate. intros Hfind. apply find_some in Hfind.
  destruct Hfind as [Hin Hsel]. apply andb_true_iff in Hsel.
  destruct Hsel as [Hid Hc]. apply Z.eqb_eq in Hid. apply Z.eqb_eq in Hc.
  repeat split; assumption.
Qed.

(** The assigned estimate is a row of the table after the assignment. *)
Lemma assigned_row_is_booked (c : Z) (req : AssignRequest) (d : DB)
    (estimate : Estimate.t) :
  requestedEstimate c req d = Some estimate ->
  let row := Estimate.with_assignment (agentId req) (appointmentDate req)
               (intOr (appointmentDuration req) 60) "agent" estimate in
  In row (assignedRows req d) /\ bookedFor c (agentId req) row.
Proof.
  intros Hfound row. destruct (requestedEstimate_found c req d estimate Hfound)
    as [Hin [Hid Hc]].
  split.
  - unfold assignedRows. apply in_map_iff. exists estimate.
    rewrite Hid, Z.eqb_refl. split; [reflexivity|exact Hin].
  - split; [reflexivity|exact Hc].
Qed.

(** X10: an agent that has just been given an estimate cannot be deleted: after
    an assignment that went through, deleting the agent is answered 400 and
    nothing changes. *)
Theorem assigned_agent_cannot_be_deleted (faults later : nat -> bool) (c : Z)
    (req : AssignRequest) (d : DB) (estimate : Estimate.t) (agent : Agent.t) :
  faults 0%nat = false -> faults 1%nat = false ->
  faults 2%nat = false -> faults 3%nat = false ->
  later 0%nat = false ->
  requestedEstimate c req d = Some estimate ->
  requestedAgent c req d = Some agent ->
  ~ (exists e, In e (estimates d) /\ conflictsWith c req e) ->
  let d' := snd (serve (assignEstimate faults c req) d) in
  serve (deleteAgent later c (agentId req)) d'
  = (Some (json 400 (Message
       "Cannot delete agent with active estimates. Please reassign or complete estimates first.")),
     d')
  /\ agents d' = agents d.
Proof.
  intros H0 H1 H2 H3 L0 He Ha Hno d'.
  destruct (assignEstimate_assigned faults c req d estimate agent H0 H1 H2 H3 He Ha Hno)
    as [_ [Hrows [Hagents _]]].
  fold d' in Hrows, Hagents. split; [|exact Hagents].
  destruct (assigned_row_is_booked c req d estimate He) as [Hin Hbooked].
  unfold deleteAgent. run_handler. rewrite L0. cbn [db calls fst snd].
  rewrite Hrows.
  destruct (filter _ (assignedRows req d)) as [|x rest] eqn:Hfilter; [|reflexivity].
  exfalso.
  match type of Hin with
  | In ?row _ =>
      assert (Hine : In row (filter (fun e => eqColumn (Estimate.agentId e) (agentId req)
                                              && (Estimate.contractorId e =? c))
                               (assignedRows req d)))
        by (apply filter_In; split; [exact Hin|apply bookedFor_spec; exact Hbooked])
  end.
  rewrite Hfilter in Hine. exact Hine.
Qed.

Lemma assigned_agent_cannot_be_deleted_witness :
  healthy 0%nat = false /\ healthy 1%nat = false /\
  healthy 2%nat = false /\ healthy 3%nat = false /\
  requestedEstimate 1 Fixtures.noon Sample.data = Some Sample.estimate33 /\
  requestedAgent 1 Fixtures.noon Sample.data = Some Sample.agent50 /\
  ~ (exists e, In e (estimates Sample.data) /\ conflictsWith 1 Fixtures.noon e) /\
  code_of (fst (serve (deleteAgent healthy 1 50)
                  (snd (serve (assignEstimate healthy 1 Fixtures.noon) Sample.data))))
  = Some 400.
Proof.
  assert (Hfree : ~ (exists e, In e (estimates Sample.data)
                               /\ conflictsWith 1 Fixtures.noon e)).
  { intros Hconf. apply hasTimeConflict_spec in Hconf. vm_compute in Hconf. discriminate. }
  split; [reflexivity|]. split; [reflexivity|]. split; [reflexivity|].
  split; [reflexivity|]. split; [reflexivity|]. split; [reflexivity|].
  split; [exact Hfree|].
  destruct (assigned_agent_cannot_be_deleted healthy healthy 1 Fixtures.noon
              Sample.data Sample.estimate33 Sample.agent50
              eq_refl eq_refl eq_refl eq_refl eq_refl eq_refl eq_refl Hfree)
    as [Hrefused _].
  change (agentId Fixtures.noon) with 50 in Hrefused.
  rewrite Hrefused. reflexivity.
Defined.

(** ** The day of an agent *)

Lemma insertByDate_In (e x : Estimate.t) (s : list Estimate.t) :
  In x (insertByDate e s) <-> x = e \/ In x s.
Proof.
  induction s as [|y s IH]; cbn [insertByDate].
  - cbn [In]. intuition congruence.
  - destruct (Estimate.appointmentDate e) as [a|],
             (Estimate.appointmentDate y) as [b|];
      [destruct (a <? b)|..]; cbn [In]; rewrite ?IH; intuition congruence.
Qed.

Lemma orderByDate_fold_In (x : Estimate.t) (l : list Estimate.t) :
  forall acc,
    In x (fold_left (fun sorted e => insertByDate e sorted) l acc)
    <-> In x l \/ In x acc.
Proof.
  induction l as [|e l IH]; intros acc; cbn [fold_left].
  - cbn [In]. tauto.
  - rewrite IH, insertByDate_In. cbn [In]. intuition congruence.
Qed.

(** Ordering neither drops nor invents a row. *)
Lemma orderByDate_In (x : Estimate.t) (l : list Estimate.t) :
  In x (orderByDate l) <-> In x l.
Proof. unfold orderByDate. rewrite orderByDate_fold_In. cbn [In]. tauto. Qed.

Lemma appointmentDates_In (t : Z) (rows : list Estimate.t) :
  In t (appointmentDates rows)
  <-> exists e, In e rows /\ Estimate.appointmentDate e = Some t.
Proof.
  unfold appointmentDates. rewrite in_flat_map.
  split; intros [e [Hin H]]; exists e; (split; [exact Hin|]).
  - destruct (Estimate.appointmentDate e) as [t'|]; cbn [In] in H;
      [destruct H as [H|[]]; congruence|contradiction].
  - rewrite H. left. reflexivity.
Qed.

Lemma appointmentDates_cons (e : Estimate.t) (rows : list Estimate.t) :
  appointmentDates (e :: rows)
  = (match Estimate.appointmentDate e with
     | Some t => [t]
     | None => []
     end ++ appointmentDates rows)%list.
Proof. reflexivity. Qed.

Lemma insertByDate_sorted (e : Estimate.t) (t : Z) (s : list Estimate.t) :
  Estimate.appointmentDate e = Some t ->
  StronglySorted Z.le (appointmentDates s) ->
  StronglySorted Z.le (appointmentDates (insertByDate e s)).
Proof.
  intros He. induction s as [|x rest IH]; intros Hsorted; cbn [insertByDate].
  - rewrite appointmentDates_cons, He. cbn. repeat constructor.
  - rewrite He. rewrite appointmentDates_cons in Hsorted.
    destruct (Estimate.appointmentDate x) as [tx|] eqn:Hx.
    + cbn [app] in Hsorted. apply StronglySorted_inv in Hsorted.
      destruct Hsorted as [Hrest Hall].
      destruct (t <? tx) eqn:Hlt.
      * apply Z.ltb_lt in Hlt.
        rewrite appointmentDates_cons, He, appointmentDates_cons, Hx. cbn [app].
        constructor; [constructor; assumption|].
        constructor; [lia|].
        eapply Forall_impl; [|exact Hall]. cbv beta. intros y Hy. lia.
      * apply Z.ltb_ge in Hlt.
        rewrite appointmentDates_cons, Hx. cbn [app].
        constructor; [apply IH; exact Hrest|].
        apply Forall_forall. intros y Hy. apply appointmentDates_In in Hy.
        destruct Hy as [z [Hz Hdate]]. apply insertByDate_In in Hz.
        destruct Hz as [Hz|Hz].
        -- subst z. rewrite He in Hdate. injection Hdate as Hdate. lia.
        -- rewrite Forall_forall in Hall. apply Hall. apply appointmentDates_In.
           exists z. split; assumption.
    + cbn [app] in Hsorted. rewrite appointmentDates_cons, Hx. cbn [app].
      apply IH. exact Hsorted.
Qed.

Lemma orderByDate_fold_sorted (l : list Estimate.t) :
  (forall e, In e l -> exists t, Estimate.appointmentDate e = Some t) ->
  forall acc,
    StronglySorted Z.le (appointmentDates acc) ->
    StronglySorted Z.le
      (appointmentDates (fold_left (fun sorted e => insertByDate e sorted) l acc)).
Proof.
  induction l as [|e l IH]; intros Hdated acc Hsorted; cbn [fold_left]; [exact Hsorted|].
  destruct (Hdated e (or_introl eq_refl)) as [t He].
  apply IH.
  - intros x Hx. apply Hdated. right. exact Hx.
  - apply (insertByDate_sorted e t); assumption.
Qed.

Lemma bookedOn_spec (onDate : Z -> string -> bool) (c agentId : Z) (date : string)
    (e : Estimate.t) :
  eqColumn (Estimate.agentId e) agentId
  && (Estimate.contractorId e =? c)
  && match Estimate.appointmentDate e with
     | Some t => onDate t date
     | None => false
     end = true
  <-> bookedOn onDate c agentId date e.
Proof.
  unfold bookedOn. rewrite andb_true_iff, bookedFor_spec.
  destruct (Estimate.appointmentDate e) as [t|].
  - split.
    + intros [Hb Hd]. split; [exact Hb|]. exists t. split; [reflexivity|exact Hd].
    + intros [Hb [t' [Ht Hd]]]. injection Ht as Ht. subst t'. split; assumption.
  - split.
    + intros [_ Hd]. discriminate.
    + intros [_ [t' [Ht _]]]. discriminate.
Qed.

(** The rows listed for a day are the estimates booked for the agent on
    that day. *)
Lemma dayEstimates_In (onDate : Z -> string -> bool) (c agentId : Z) (date : string)
    (d : DB) (e : Estimate.t) :
  In e (dayEstimates onDate c agentId date d)
  <-> In e (estimates d) /\ bookedOn onDate c agentId date e.
Proof.
  unfold dayEstimates. rewrite orderByDate_In, filter_In, bookedOn_spec. tauto.
Qed.

Lemma agentAvailability_run (faults : nat -> bool) (onDate : Z -> string -> bool)
    (c agentId : Z) (date : string) (d : DB) :
  faults 0%nat = false ->
  serveReply (agentAvailability faults onDate c agentId date) d
  = (Some (mkReply 200
             (AvailabilityJson agentId date (dayEstimates onDate c agentId date d)
                (bookedHours (dayEstimates onDate c agentId date d))
                (Z.of_nat (List.length (dayEstimates onDate c agentId date d)) =? 0))),
     d).
Proof.
  intros H0. unfold agentAvailability, serveReply, tryCatch.
  rewrite run_query by exact H0. reflexivity.
Qed.

(** X11: the availability route answers with exactly the contractor's estimates
    that are booked for the agent on the date, in the order of their
    appointments, and says the agent is available exactly when there is no
    such estimate; it writes nothing. *)
Theorem agentAvailability_spec (faults : nat -> bool)
    (onDate : Z -> string -> bool) (c agentId : Z) (date : string) (d : DB) :
  faults 0%nat = false ->
  exists listed hours available,
    serveReply (agentAvailability faults onDate c agentId date) d
    = (Some (mkReply 200 (AvailabilityJson agentId date listed hours available)), d)
    /\ (forall e, In e listed
                  <-> In e (estimates d) /\ bookedOn onDate c agentId date e)
    /\ StronglySorted Z.le (appointmentDates listed)
    /\ List.length (appointmentDates listed) = List.length listed
    /\ (available = true
        <-> forall e, In e (estimates d) -> ~ bookedOn onDate c agentId date e).
Proof.
  intros H0. eexists. eexists. eexists.
  split; [apply agentAvailability_run; exact H0|].
  assert (Hdated : forall e, In e (dayEstimates onDate c agentId date d) ->
                             exists t, Estimate.appointmentDate e = Some t).
  { intros e He. apply dayEstimates_In in He. destruct He as [_ [_ [t [Ht _]]]].
    exists t. exact Ht. }
  split; [intros e; apply dayEstimates_In|]. split; [|split].
  - unfold dayEstimates, orderByDate. apply orderByDate_fold_sorted.
    + intros e He. apply filter_In in He. destruct He as [_ He].
      apply bookedOn_spec in He. destruct He as [_ [t [Ht _]]]. exists t. exact Ht.
    + constructor.
  - induction (dayEstimates onDate c agentId date d) as [|e l IH]; [reflexivity|].
    rewrite appointmentDates_cons.
    destruct (Hdated e (or_introl eq_refl)) as [t Ht]. rewrite Ht.
    cbn [app List.length]. f_equal. apply IH. intros x Hx. apply Hdated. right. exact Hx.
  - split.
    + intros Hnone e Hin Hbooked.
      assert (Hlisted : In e (dayEstimates onDate c agentId date d))
        by (apply dayEstimates_In; split; assumption).
      destruct (dayEstimates onDate c agentId date d); [exact Hlisted|].
      cbn [List.length] in Hnone. apply Z.eqb_eq in Hnone. lia.
    + intros Hfree.
      destruct (dayEstimates onDate c agentId date d) as [|e l] eqn:Hday; [reflexivity|].
      exfalso.
      assert (Hlisted : In e (dayEstimates onDate c agentId date d))
        by (rewrite Hday; left; reflexivity).
      apply dayEstimates_In in Hlisted. destruct Hlisted as [Hin Hbooked].
      exact (Hfree e Hin Hbooked).
Qed.

Lemma agentAvailability_spec_witness :
  healthy 0%nat = false /\
  exists listed hours,
    serveReply (agentAvailability healthy Fixtures.onDay 1 50 "20029") Sample.data
    = (Some (mkReply 200 (AvailabilityJson 50 "20029" listed hours false)), Sample.data)
    /\ In Sample.estimate31 listed.
Proof.
  split; [reflexivity|].
  destruct (agentAvailability_spec healthy Fixtures.onDay 1 50 "20029" Sample.data
              eq_refl) as [listed [hours [available [Hrun [Hin _]]]]].
  exists listed, hours.
  assert (Hlisted : In Sample.estimate31 listed).
  { apply Hin. split; [right; left; reflexivity|].
    split; [split; reflexivity|].
    exists (Sample.today + 9 * Sample.hour). split; reflexivity. }
  split; [|exact Hlisted].
  rewrite Hrun.
  assert (Hflag : available = false).
  { pose proof Hrun as Hrun'. vm_compute in Hrun'.
    injection Hrun' as _ _ Hflag. symmetry. exact Hflag. }
  rewrite Hflag. reflexivity.
Defined.

(** X12: after an assignment that went through, the agent is no longer
    available on the day of the appointment, and the estimate is among
    the rows listed for that day. *)
Theorem availability_after_assignment (faults later : nat -> bool)
    (onDate : Z -> string -> bool) (c : Z) (req : AssignRequest) (date : string)
    (d : DB) (estimate : Estimate.t) (agent : Agent.t) :
  faults 0%nat = false -> faults 1%nat = false ->
  faults 2%nat = false -> faults 3%nat = false ->
  later 0%nat = false ->
  requestedEstimate c req d = Some estimate ->
  requestedAgent c req d = Some agent ->
  ~ (exists e, In e (estimates d) /\ conflictsWith c req e) ->
  onDate (appointmentDate req) date = true ->
  let d' := snd (serve (assignEstimate faults c req) d) in
  exists listed hours,
    serveReply (agentAvailability later onDate c (agentId req) date) d'
    = (Some (mkReply 200 (AvailabilityJson (agentId req) date listed hours false)), d')
    /\ In (assignedEstimate req estimate) listed.
Proof.
  intros H0 H1 H2 H3 L0 He Ha Hno Hdate d'.
  destruct (assignEstimate_assigned faults c req d estimate agent H0 H1 H2 H3 He Ha Hno)
    as [_ [Hrows _]].
  fold d' in Hrows.
  destruct (assigned_row_is_booked c req d estimate He) as [Hin Hbooked].
  assert (Hlisted : In (assignedEstimate req estimate)
                       (dayEstimates onDate c (agentId req) date d')).
  { apply dayEstimates_In. rewrite Hrows. split; [exact Hin|].
    split; [exact Hbooked|]. exists (appointmentDate req). split; [reflexivity|exact Hdate]. }
  assert (Hflag : (Z.of_nat (List.length (dayEstimates onDate c (agentId req) date d'))
                   =? 0) = false).
  { destruct (dayEstimates onDate c (agentId req) date d'); [contradiction|].
    cbn [List.length]. apply Z.eqb_neq. lia. }
  exists (dayEstimates onDate c (agentId req) date d'),
         (bookedHours (dayEstimates onDate c (agentId req) date d')).
  split; [|exact Hlisted].
  rewrite (agentAvailability_run later onDate c (agentId req) date d' L0), Hflag.
  reflexivity.
Qed.

Lemma availability_after_assignment_witness :
  healthy 0%nat = false /\ healthy 1%nat = false /\
  healthy 2%nat = false /\ healthy 3%nat = false /\
  requestedEstimate 1 Fixtures.noon Sample.data = Some Sample.estimate33 /\
  requestedAgent 1 Fixtures.noon Sample.data = Some Sample.agent50 /\
  ~ (exists e, In e (estimates Sample.data) /\ conflictsWith 1 Fixtures.noon e) /\
  Fixtures.onDay (appointmentDate Fixtures.noon) "20029" = true /\
  exists listed hours,
    fst (serveReply (agentAvailability healthy Fixtures.onDay 1 50 "20029")
           (snd (serve (assignEstimate healthy 1 Fixtures.noon) Sample.data)))
    = Some (mkReply 200 (AvailabilityJson 50 "20029" listed hours false))
    /\ In (assignedEstimate Fixtures.noon Sample.estimate33) listed.
Proof.
  assert (Hfree : ~ (exists e, In e (estimates Sample.data)
                               /\ conflictsWith 1 Fixtures.noon e)).
  { intros Hconf. apply hasTimeConflict_spec in Hconf. vm_compute in Hconf. discriminate. }
  split; [reflexivity|]. split; [reflexivity|]. split; [reflexivity|].
  split; [reflexivity|]. split; [reflexivity|]. split; [reflexivity|].
  split; [exact Hfree|]. split; [reflexivity|].
  destruct (availability_after_assignment healthy healthy Fixtures.onDay 1 Fixtures.noon
              "20029" Sample.data Sample.estimate33 Sample.agent50
              eq_refl eq_refl eq_refl eq_refl eq_refl eq_refl eq_refl Hfree eq_refl)
    as [listed [hours [Hrun Hin]]].
  exists listed, hours. change (agentId Fixtures.noon) with 50 in Hrun.
  rewrite Hrun. split; [reflexivity|exact Hin].
Defined.

(** ** Assigning twice *)

Lemma assignedRows_again (req : AssignRequest) (d d1 : DB) :
  estimates d1 = assignedRows req d -> assignedRows req d1 = assignedRows req d.
Proof.
  intros Hrows. unfold assignedRows at 1. rewrite Hrows. unfold assignedRows.
  rewrite map_map. apply map_ext. intros e.
  destruct (Estimate.id e =? estimateId req) eqn:Hid.
  - cbn [Estimate.with_assignment Estimate.id]. rewrite Hid. reflexivity.
  - rewrite Hid. reflexivity.
Qed.

(** The other estimates of the agent are what they were before the
    assignment. *)
Lemma others_after_assignment (c : Z) (req : AssignRequest) (rows : list Estimate.t) :
  filter (fun e => eqColumn (Estimate.agentId e) (agentId req)
                   && (Estimate.contractorId e =? c)
                   && negb (Estimate.id e =? estimateId req)
                   && isNotNull (Estimate.appointmentDate e))
         (map (fun e => if Estimate.id e =? estimateId req
                        then assignedEstimate req e else e) rows)
  = filter (fun e => eqColumn (Estimate.agentId e) (agentId req)
                     && (Estimate.contractorId e =? c)
                     && negb (Estimate.id e =? estimateId req)
                     && isNotNull (Estimate.appointmentDate e))
           rows.
Proof.
  induction rows as [|e rows IH]; [reflexivity|]. cbn [map filter].
  destruct (Estimate.id e =? estimateId req) eqn:Hid.
  - cbn [assignedEstimate Estimate.with_assignment Estimate.id]. rewrite Hid.
    cbn [negb]. rewrite !andb_false_r. cbn [andb]. exact IH.
  - rewrite Hid, IH. reflexivity.
Qed.

(** X13: assigning the same estimate again is accepted, since an estimate never
    conflicts with itself; the estimates stay as the first assignment left
    them, but a second calendar event is inserted for the same
    appointment. *)
Theorem repeated_assignment_duplicates_event (faults later : nat -> bool) (c : Z)
    (req : AssignRequest) (d : DB) (estimate : Estimate.t) (agent : Agent.t) :
  (forall n, faults n = false) ->
  (forall n, later n = false) ->
  requestedEstimate c req d = Some estimate ->
  requestedAgent c req d = Some agent ->
  ~ (exists e, In e (estimates d) /\ conflictsWith c req e) ->
  let d1 := snd (serve (assignEstimate faults c req) d) in
  let out := serve (assignEstimate later c req) d1 in
  code_of (fst out) = Some 200
  /\ estimates (snd out) = estimates d1
  /\ exists first second,
       events d1 = (events d ++ [first])%list
       /\ events (snd out) = (events d ++ [first; second])%list
       /\ Event.title first = Event.title second
       /\ Event.startTime first = Event.startTime second
       /\ Event.endTime first = Event.endTime second
       /\ Event.id first < Event.id second.
Proof.
  intros Hf Hl He Ha Hno d1 out.
  pose proof (hasTimeConflict_spec c req d) as Hspec.
  assert (Hex : existsb (overlapsSlot (appointmentDate req)
                           (appointmentDate req + intOr (appointmentDuration req) 60 * 60000))
                  (filter (fun e => eqColumn (Estimate.agentId e) (agentId req)
                                    && (Estimate.contractorId e =? c)
                                    && negb (Estimate.id e =? estimateId req)
                                    && isNotNull (Estimate.appointmentDate e))
                          (estimates d)) = false).
  { destruct (existsb _ _); [|reflexivity]. exfalso. apply Hno. apply Hspec. reflexivity. }
  assert (Hd1 : d1 = with_events
                       (events d ++ [appointmentEvent c req estimate agent d])%list
                       (with_estimates (assignedRows req d) d)).
  { subst d1.
    rewrite (assignEstimate_run faults c req d estimate agent
               (Hf _) (Hf _) (Hf _) (Hf _) He Ha).
    rewrite Hex, (Hf 4%nat). reflexivity. }
  clearbody d1.
  assert (Hrows : estimates d1 = assignedRows req d) by (rewrite Hd1; reflexivity).
  assert (Hevents : events d1
                    = (events d ++ [appointmentEvent c req estimate agent d])%list)
    by (rewrite Hd1; reflexivity).
  assert (He1 : requestedEstimate c req d1 = Some (assignedEstimate req estimate)).
  { unfold requestedEstimate. rewrite Hrows. unfold assignedRows.
    rewrite (find_patched_wider
               (fun e => (Estimate.id e =? estimateId req) && (Estimate.contractorId e =? c))
               (fun e => Estimate.id e =? estimateId req)
               (assignedEstimate req)).
    - unfold requestedEstimate in He. rewrite He. reflexivity.
    - intros x Hx. apply andb_true_iff in Hx. apply Hx.
    - intros x. reflexivity. }
  assert (Ha1 : requestedAgent c req d1 = Some agent) by (rewrite Hd1; exact Ha).
  assert (Hex1 : existsb (overlapsSlot (appointmentDate req)
                            (appointmentDate req + intOr (appointmentDuration req) 60 * 60000))
                   (filter (fun e => eqColumn (Estimate.agentId e) (agentId req)
                                     && (Estimate.contractorId e =? c)
                                     && negb (Estimate.id e =? estimateId req)
                                     && isNotNull (Estimate.appointmentDate e))
                           (estimates d1)) = false).
  { rewrite Hrows. unfold assignedRows.
    pose proof (others_after_assignment c req (estimates d)) as Hothers.
    unfold assignedEstimate in Hothers. rewrite Hothers. exact Hex. }
  subst out.
  rewrite (assignEstimate_run later c req d1 (assignedEstimate req estimate) agent
             (Hl _) (Hl _) (Hl _) (Hl _) He1 Ha1).
  rewrite Hex1, (Hl 4%nat). cbn [fst snd code_of option_map code json].
  split; [reflexivity|].
  split; [cbn [estimates with_events with_estimates];
          rewrite Hrows; apply assignedRows_again; exact Hrows|].
  exists (appointmentEvent c req estimate agent d),
         (appointmentEvent c req (assignedEstimate req estimate) agent d1).
  split; [exact Hevents|].
  split; [cbn [events with_events with_estimates]; rewrite Hevents;
          rewrite <- app_assoc; reflexivity|].
  split; [reflexivity|]. split; [reflexivity|]. split; [reflexivity|].
  cbn [appointmentEvent Event.id]. rewrite Hevents.
  apply nextId_above. rewrite map_app. apply in_or_app. right. left. reflexivity.
Qed.

Lemma repeated_assignment_duplicates_event_witness :
  (forall n, healthy n = false) /\
  requestedEstimate 1 Fixtures.noon Sample.data = Some Sample.estimate33 /\
  requestedAgent 1 Fixtures.noon Sample.data = Some Sample.agent50 /\
  ~ (exists e, In e (estimates Sample.data) /\ conflictsWith 1 Fixtures.noon e) /\
  List.length
    (events (snd (serve (assignEstimate healthy 1 Fixtures.noon)
                    (snd (serve (assignEstimate healthy 1 Fixtures.noon) Sample.data)))))
  = 2%nat.
Proof.
  assert (Hfree : ~ (exists e, In e (estimates Sample.data)
                               /\ conflictsWith 1 Fixtures.noon e)).
  { intros Hconf. apply hasTimeConflict_spec in Hconf. vm_compute in Hconf. discriminate. }
  split; [intros n; reflexivity|]. split; [reflexivity|]. split; [reflexivity|].
  split; [exact Hfree|].
  destruct (repeated_assignment_duplicates_event healthy healthy 1 Fixtures.noon
              Sample.data Sample.estimate33 Sample.agent50
              (fun n => eq_refl) (fun n => eq_refl) eq_refl eq_refl Hfree)
    as [_ [_ [first [second [_ [Hevents _]]]]]].
  rewrite Hevents. reflexivity.
Defined.

(** ** Adding an item to an invoice *)

(** [{ ...o, k: v }.k] is [v]. *)
Lemma setField_prop (k : string) (v : JSValue) (o : list (string * JSValue)) :
  prop (JObj (setField k v o)) k = v.
Proof.
  unfold prop. induction o as [|[k' v'] rest IH]; cbn [setField find fst].
  - rewrite String.eqb_refl. reflexivity.
  - destruct (String.eqb k' k) eqn:Hk; cbn [find fst].
    + rewrite String.eqb_refl. reflexivity.
    + rewrite Hk. exact IH.
Qed.

Lemma createInvoiceItem_run (faults : nat -> bool) (schema : Schema InvoiceItem.t)
    (uid invoiceId : Z) (reqBody : list (string * JSValue)) (d : DB)
    (invoice : Invoice.t) (data : Z -> InvoiceItem.t) :
  faults 0%nat = false ->
  faults 1%nat = false ->
  storage.getInvoice invoiceId uid d = Some invoice ->
  schema (setField "invoiceId" (JNum (numOfZ invoiceId)) reqBody) = inr data ->
  serveReply (createInvoiceItem faults schema uid invoiceId reqBody) d
  = (Some (mkReply 201
             (InvoiceItemJson (data (nextId (map InvoiceItem.id (invoiceItems d)))))),
     with_invoiceItems
       (invoiceItems d ++ [data (nextId (map InvoiceItem.id (invoiceItems d)))])%list d).
Proof.
  intros H0 H1 Hinv Hvalid.
  unfold createInvoiceItem, serveReply, tryCatch.
  rewrite run_query by exact H0. cbn [db calls]. rewrite Hinv.
  unfold parse. rewrite Hvalid. unfold bind at 1, ret at 1.
  rewrite run_call by exact H1. reflexivity.
Qed.

(** X14: an item is added only to an invoice of the contractor: a missing or
    foreign invoice is answered 404 before the body is looked at; a body
    the schema rejects is answered 400 with the issues; in both cases
    nothing is written.  A valid body is answered 201 and the row is
    appended under the next id.  The schema is given the invoice id of the
    URL, whatever the body says. *)
Theorem createInvoiceItem_spec (faults : nat -> bool) (schema : Schema InvoiceItem.t)
    (uid invoiceId : Z) (reqBody : list (string * JSValue)) (d : DB) :
  faults 0%nat = false ->
  faults 1%nat = false ->
  let out := serveReply (createInvoiceItem faults schema uid invoiceId reqBody) d in
  let input := setField "invoiceId" (JNum (numOfZ invoiceId)) reqBody in
  (storage.getInvoice invoiceId uid d = None ->
   out = (Some (mkReply 404 (Plain (Message "Invoice not found"))), d))
  /\
  (forall errors,
     storage.getInvoice invoiceId uid d <> None ->
     schema input = inl errors ->
     out = (Some (mkReply 400 (Plain (Errors errors))), d))
  /\
  (forall data,
     storage.getInvoice invoiceId uid d <> None ->
     schema input = inr data ->
     let item := data (nextId (map InvoiceItem.id (invoiceItems d))) in
     out = (Some (mkReply 201 (InvoiceItemJson item)),
            with_invoiceItems (invoiceItems d ++ [item])%list d))
  /\ prop (JObj input) "invoiceId" = JNum (numOfZ invoiceId).
Proof.
  intros H0 H1 out input. subst out input. split; [|split; [|split]].
  - intros Hnone. unfold createInvoiceItem, serveReply, tryCatch.
    rewrite run_query by exact H0. cbn [db calls]. rewrite Hnone. reflexivity.
  - intros errors Hsome Hinvalid.
    destruct (storage.getInvoice invoiceId uid d) as [invoice|] eqn:Hinv;
      [|contradiction].
    unfold createInvoiceItem, serveReply, tryCatch.
    rewrite run_query by exact H0. cbn [db calls]. rewrite Hinv.
    unfold parse. rewrite Hinvalid. reflexivity.
  - intros data Hsome Hvalid item.
    destruct (storage.getInvoice invoiceId uid d) as [invoice|] eqn:Hinv;
      [|contradiction].
    apply (createInvoiceItem_run faults schema uid invoiceId reqBody d invoice data
             H0 H1 Hinv Hvalid).
  - apply setField_prop.
Qed.

Lemma createInvoiceItem_spec_witness :
  healthy 0%nat = false /\
  healthy 1%nat = false /\
  storage.getInvoice 42 1 Sample.data = None /\
  serveReply (createInvoiceItem healthy Fixtures.invoiceItemSchema 1 42
                [("description", JStr "Gate")]) Sample.data
  = (Some (mkReply 404 (Plain (Message "Invoice not found"))), Sample.data) /\
  storage.getInvoice 43 1 Sample.data <> None /\
  fst (serveReply (createInvoiceItem healthy Fixtures.invoiceItemSchema 1 43
                     [("invoiceId", JNum 42); ("description", JStr "Gate")]) Sample.data)
  = Some (mkReply 201 (InvoiceItemJson (InvoiceItem.mk 2 43 "Gate" "1" "0" "0" None))).
Proof.
  split; [reflexivity|]. split; [reflexivity|]. split; [reflexivity|].
  destruct (createInvoiceItem_spec healthy Fixtures.invoiceItemSchema 1 42
              [("description", JStr "Gate")] Sample.data eq_refl eq_refl)
    as [Hmissing _].
  destruct (createInvoiceItem_spec healthy Fixtures.invoiceItemSchema 1 43
              [("invoiceId", JNum 42); ("description", JStr "Gate")] Sample.data
              eq_refl eq_refl)
    as [_ [_ [Hvalid _]]].
  split; [apply Hmissing; reflexivity|]. split; [discriminate|].
  rewrite (Hvalid (fun id => InvoiceItem.mk id 43 "Gate" "1" "0" "0" None)
             ltac:(discriminate) ltac:(vm_compute; reflexivity)).
  reflexivity.
Defined.

(** X15: an item that was added is listed: after a 201, the items of the
    invoice are the ones it had, followed by the new one, provided the
    validated row keeps the invoice id it was given. *)
Theorem created_item_is_listed (faults later : nat -> bool)
    (schema : Schema InvoiceItem.t) (uid invoiceId : Z)
    (reqBody : list (string * JSValue)) (d : DB) (invoice : Invoice.t)
    (data : Z -> InvoiceItem.t) :
  faults 0%nat = false ->
  faults 1%nat = false ->
  later 0%nat = false ->
  storage.getInvoice invoiceId uid d = Some invoice ->
  schema (setField "invoiceId" (JNum (numOfZ invoiceId)) reqBody) = inr data ->
  (forall id, InvoiceItem.invoiceId (data id) = invoiceId) ->
  let d' := snd (serveReply (createInvoiceItem faults schema uid invoiceId reqBody) d) in
  serve (getInvoiceItems later uid invoiceId) d'
  = (Some (json 200
             (InvoiceItemsJson
                (storage.getInvoiceItems invoiceId uid d
                 ++ [data (nextId (map InvoiceItem.id (invoiceItems d)))])%list)),
     d').
Proof.
  intros H0 H1 L0 Hinv Hvalid Hkeeps d'. subst d'.
  rewrite (createInvoiceItem_run faults schema uid invoiceId reqBody d invoice data
             H0 H1 Hinv Hvalid).
  cbn [snd]. unfold getInvoiceItems, serve, tryCatch.
  rewrite run_query by exact L0. unfold ret. cbn [db calls].
  unfold storage.getInvoiceItems.
  change (storage.getInvoice invoiceId uid (with_invoiceItems _ d))
    with (storage.getInvoice invoiceId uid d).
  rewrite Hinv. cbn [invoiceItems with_invoiceItems].
  rewrite filter_app. cbn [filter]. rewrite Hkeeps, Z.eqb_refl. reflexivity.
Qed.

Lemma created_item_is_listed_witness :
  healthy 0%nat = false /\
  healthy 1%nat = false /\
  storage.getInvoice 43 1 Sample.data = Some Sample.invoice43 /\
  Fixtures.invoiceItemSchema
    (setField "invoiceId" (JNum (numOfZ 43)) [("description", JStr "Gate")])
  = inr (fun id => InvoiceItem.mk id 43 "Gate" "1" "0" "0" None) /\
  fst (serve (getInvoiceItems healthy 1 43)
         (snd (serveReply (createInvoiceItem healthy Fixtures.invoiceItemSchema 1 43
                             [("description", JStr "Gate")]) Sample.data)))
  = Some (json 200 (InvoiceItemsJson [InvoiceItem.mk 2 43 "Gate" "1" "0" "0" None])).
Proof.
  assert (Hvalid : Fixtures.invoiceItemSchema
                     (setField "invoiceId" (JNum (numOfZ 43)) [("description", JStr "Gate")])
                   = inr (fun id => InvoiceItem.mk id 43 "Gate" "1" "0" "0" None))
    by (vm_compute; reflexivity).
  split; [reflexivity|]. split; [reflexivity|]. split; [reflexivity|].
  split; [exact Hvalid|].
  rewrite (created_item_is_listed healthy healthy Fixtures.invoiceItemSchema 1 43
             [("description", JStr "Gate")] Sample.data Sample.invoice43
             (fun id => InvoiceItem.mk id 43 "Gate" "1" "0" "0" None)
             eq_refl eq_refl eq_refl eq_refl Hvalid (fun id => eq_refl)).
  reflexivity.
Defined.

(** ** Plans *)

Lemma planIs_spec (plan : option string) (name : string) :
  planIs plan name = true <-> plan = Some name.
Proof.
  unfold planIs. destruct plan as [p|].
  - rewrite String.eqb_eq. split; [intros H; subst; reflexivity|congruence].
  - split; discriminate.
Qed.

Lemma planIs_false (plan : option string) (name : string) :
  plan <> Some name -> planIs plan name = false.
Proof.
  intros H. destruct (planIs plan name) eqn:Hp; [|reflexivity].
  apply planIs_spec in Hp. contradiction.
Qed.

(** X16: the feature check and the status route agree on every plan: what the
    check answers for each of the five features is the flag the status
    route reports, and any other feature name is refused. *)
Theorem feature_check_agrees_with_status (plan : option string) (feature : string) :
  hasAccess "hasAiCostAnalysis" plan = hasAiCostAnalysis (planStatus plan)
  /\ hasAccess "hasTimeClock" plan = hasTimeClock (planStatus plan)
  /\ hasAccess "hasStripeIntegration" plan = hasStripeIntegration (planStatus plan)
  /\ hasAccess "hasCustomPortal" plan = hasCustomPortal (planStatus plan)
  /\ hasAccess "hasBrandedPortal" plan = hasBrandedPortal (planStatus plan)
  /\ (~ In feature ["hasAiCostAnalysis"; "hasTimeClock"; "hasStripeIntegration";
                    "hasCustomPortal"; "hasBrandedPortal"] ->
      hasAccess feature plan = false).
Proof.
  repeat (split; [reflexivity|]).
  intros Hother. unfold hasAccess.
  repeat match goal with
         | |- context [String.eqb feature ?name] =>
             destruct (String.eqb_spec feature name) as [Heq|_];
               [exfalso; apply Hother; rewrite Heq; cbn [In]; tauto|]
         end.
  reflexivity.
Qed.

Lemma feature_check_agrees_with_status_witness :
  ~ In "hasPayroll" ["hasAiCostAnalysis"; "hasTimeClock"; "hasStripeIntegration";
                     "hasCustomPortal"; "hasBrandedPortal"]
  /\ hasAccess "hasPayroll" (Some "business") = false
  /\ hasAccess "hasStripeIntegration" (Some "business") = true.
Proof.
  assert (Hother : ~ In "hasPayroll" ["hasAiCostAnalysis"; "hasTimeClock";
                                      "hasStripeIntegration"; "hasCustomPortal";
                                      "hasBrandedPortal"]).
  { cbn [In]. intros H. repeat (destruct H as [H|H]; [discriminate|]). exact H. }
  split; [exact Hother|].
  destruct (feature_check_agrees_with_status (Some "business") "hasPayroll")
    as [_ [_ [Hstripe [_ [_ Hrefused]]]]].
  split; [exact (Hrefused Hother)|]. rewrite Hstripe. reflexivity.
Defined.

(** X17: on the three listed plans the usage block is coherent: "unlimited"
    goes with the limit -1, and otherwise the clients that remain are never
    negative, never more than the limit, and add up to the limit with the
    clients there are as long as the limit is not passed. *)
Theorem remaining_clients_of_listed_plans (plan : option string)
    (clientCount aiUsageCount : Z) :
  listedPlan plan ->
  0 <= clientCount ->
  let usage := usageStatus plan clientCount aiUsageCount in
  usageMaxClients usage = maxClients (planStatus plan)
  /\ match clientsRemaining usage with
     | Unlimited => usageMaxClients usage = -1
     | Left n =>
         0 <= n <= usageMaxClients usage
         /\ (clientCount <= usageMaxClients usage ->
             clientCount + n = usageMaxClients usage)
         /\ (usageMaxClients usage <= clientCount -> n = 0)
     end.
Proof.
  intros [Hp|[Hp|Hp]] Hcount usage; subst usage plan;
    cbn -[Z.max Z.sub Z.add Z.le]; (split; [reflexivity|]); try reflexivity; lia.
Qed.

Lemma remaining_clients_of_listed_plans_witness :
  listedPlan (Some "pro") /\ 0 <= 57 /\
  clientsRemaining (usageStatus (Some "pro") 57 0) = Left 0 /\
  clientsRemaining (usageStatus (Some "basic") 4 0) = Left 6.
Proof.
  split; [right; left; reflexivity|]. split; [lia|].
  pose proof (remaining_clients_of_listed_plans (Some "pro") 57 0
                (or_intror (or_introl eq_refl)) ltac:(lia)) as [_ Hpro].
  pose proof (remaining_clients_of_listed_plans (Some "basic") 4 0
                (or_introl eq_refl) ltac:(lia)) as [_ Hbasic].
  split.
  - destruct (clientsRemaining (usageStatus (Some "pro") 57 0)) as [|n] eqn:Hn;
      [discriminate Hn|].
    destruct Hpro as [_ [_ Hzero]]. rewrite Hzero; [reflexivity|cbn; lia].
  - destruct (clientsRemaining (usageStatus (Some "basic") 4 0)) as [|n] eqn:Hn;
      [discriminate Hn|].
    destruct Hbasic as [_ [Hsum _]]. f_equal.
    assert (Hfour : 4 + n = 10) by (apply Hsum; cbn; lia). lia.
Defined.

(** X18: a plan that is none of the three listed ones (a contractor without a
    plan, for one) falls through every comparison: the status route prices
    and limits it as the business plan (99, no limit on clients or AI use)
    and grants it the features of the pro plan, yet counts what remains
    against the limits of the pro plan, so with 50 clients it reports no
    limit and no client left. *)
Theorem unlisted_plan_falls_through (plan : option string)
    (clientCount aiUsageCount : Z) :
  ~ listedPlan plan ->
  let status := planStatus plan in
  let usage := usageStatus plan clientCount aiUsageCount in
  priceMonthly status = 99
  /\ maxClients status = -1
  /\ aiUsageLimit status = -1
  /\ hasAiCostAnalysis status = true
  /\ hasTimeClock status = true
  /\ hasStripeIntegration status = false
  /\ hasBrandedPortal status = false
  /\ usageMaxClients usage = -1
  /\ clientsRemaining usage = Left (Z.max 0 (50 - clientCount))
  /\ aiUsageRemaining usage = Left (Z.max 0 (10 - aiUsageCount))
  /\ (50 <= clientCount -> clientsRemaining usage = Left 0).
Proof.
  intros Hunlisted status usage. subst status usage.
  unfold listedPlan in Hunlisted.
  assert (Hb : planIs plan "basic" = false) by (apply planIs_false; tauto).
  assert (Hp : planIs plan "pro" = false) by (apply planIs_false; tauto).
  assert (Hbu : planIs plan "business" = false) by (apply planIs_false; tauto).
  unfold planStatus, usageStatus.
  cbn [priceMonthly maxClients aiUsageLimit hasAiCostAnalysis hasTimeClock
       hasStripeIntegration hasBrandedPortal usageMaxClients clientsRemaining
       aiUsageRemaining].
  rewrite Hb, Hp, Hbu. cbn [negb].
  repeat (split; [reflexivity|]).
  intros Hfull. f_equal. lia.
Qed.

Lemma unlisted_plan_falls_through_witness :
  ~ listedPlan (Contractor.plan Fixtures.contractor2)
  /\ usageMaxClients (usageStatus (Contractor.plan Fixtures.contractor2) 50 0) = -1
  /\ clientsRemaining (usageStatus (Contractor.plan Fixtures.contractor2) 50 0) = Left 0.
Proof.
  assert (Hunlisted : ~ listedPlan (Contractor.plan Fixtures.contractor2))
    by (intros [H|[H|H]]; discriminate).
  split; [exact Hunlisted|].
  destruct (unlisted_plan_falls_through (Contractor.plan Fixtures.contractor2) 50 0
              Hunlisted) as [_ [_ [_ [_ [_ [_ [_ [Hmax [_ [_ Hfull]]]]]]]]]].
  split; [exact Hmax|]. apply Hfull. lia.
Defined.

(** X19: the billing route and the status route describe every plan alike
    (price, client limit, AI limit, time clock, Stripe), and the plan the
    billing route reports as current is one of the plans it offers exactly
    when the contractor's plan is one of the three listed names. *)
Theorem billing_agrees_with_status (plan : option string) :
  price (currentPlan plan) = decimal (priceMonthly (planStatus plan))
  /\ clientLimit (currentPlan plan)
     = (if maxClients (planStatus plan) =? -1 then None
        else Some (maxClients (planStatus plan)))
  /\ offerAiUsageLimit (currentPlan plan)
     = (if aiUsageLimit (planStatus plan) =? -1 then None
        else Some (aiUsageLimit (planStatus plan)))
  /\ hasTimeClockAccess (currentPlan plan) = hasTimeClock (planStatus plan)
  /\ offerStripeIntegration (currentPlan plan) = hasStripeIntegration (planStatus plan)
  /\ (In (currentPlan plan) availablePlans <-> listedPlan plan).
Proof.
  unfold currentPlan, planStatus.
  cbn [price clientLimit offerAiUsageLimit hasTimeClockAccess offerStripeIntegration
       priceMonthly maxClients aiUsageLimit hasTimeClock hasStripeIntegration].
  destruct (planIs plan "basic") eqn:Hb; [|destruct (planIs plan "pro") eqn:Hp].
  - apply planIs_spec in Hb. subst plan.
    repeat (split; [reflexivity|]). split; [intros _; left; reflexivity|].
    intros _. left. reflexivity.
  - apply planIs_spec in Hp. subst plan.
    repeat (split; [reflexivity|]). split; [intros _; right; left; reflexivity|].
    intros _. right. left. reflexivity.
  - repeat (split; [reflexivity|]).
    destruct (planIs plan "business") eqn:Hbu.
    + apply planIs_spec in Hbu. subst plan.
      split; [intros _; right; right; reflexivity|].
      intros _. right. right. left. reflexivity.
    + split.
      * intros [H|[H|[H|[]]]]; discriminate.
      * intros [H|[H|H]]; apply planIs_spec in H; congruence.
Qed.

(** ** Upgrading and cancelling a subscription *)

Lemma find_filter_head {A} (f : A -> bool) (l : list A) (x : A) :
  find f l = Some x -> exists rest, filter f l = x :: rest.
Proof.
  induction l as [|y l IH]; cbn [find filter]; [discriminate|].
  destruct (f y).
  - intros H. injection H as H. subst y. eexists. reflexivity.
  - exact IH.
Qed.

Lemma find_none_unpatched {A} (f : A -> bool) (patch : A -> A) (l : list A) :
  find f l = None -> map (fun x => if f x then patch x else x) l = l.
Proof.
  induction l as [|y l IH]; cbn [find map]; [reflexivity|].
  destruct (f y); [discriminate|]. intros H. rewrite IH by exact H. reflexivity.
Qed.

Lemma find_none_filter {A} (f : A -> bool) (l : list A) :
  find f l = None -> filter f l = [].
Proof.
  induction l as [|y l IH]; cbn [find filter]; [reflexivity|].
  destruct (f y); [discriminate|exact IH].
Qed.

Lemma filter_patched {A} (f : A -> bool) (patch : A -> A) (l : list A) :
  (forall x, f (patch x) = f x) ->
  filter f (map (fun x => if f x then patch x else x) l) = map patch (filter f l).
Proof.
  intros Hkeep. induction l as [|y l IH]; cbn [map filter]; [reflexivity|].
  destruct (f y) eqn:Hy.
  - rewrite Hkeep, Hy. cbn [map]. rewrite IH. reflexivity.
  - rewrite Hy. exact IH.
Qed.

(** A valid plan name is one of the three strings, and is truthy. *)
Lemma validPlanName_spec (planName : JSValue) :
  validPlanName planName = true ->
  truthy planName = true /\ listedPlan (textOf planName).
Proof.
  unfold validPlanName, listedPlan. destruct planName as [| | | |name| |]; try discriminate.
  rewrite !orb_true_iff, !String.eqb_eq. cbn [textOf truthy].
  intros [[H|H]|H]; subst name; (split; [reflexivity|]); tauto.
Qed.

(** What an upgrade that goes through computes. *)
Lemma billingUpgrade_run (now userId : Z) (planName : JSValue)
    (contractors : list Contractor.t) (c : Contractor.t) :
  validPlanName planName = true ->
  contractorRow userId contractors = Some c ->
  billingUpgrade false now (Some userId) planName contractors
  = (200,
     PlanUpdated "Plan updated successfully" (Contractor.id c) (textOf planName)
       (Some "active"),
     map (fun r => if Contractor.id r =? userId
                   then upgradedContractor now planName r else r) contractors).
Proof.
  intros Hvalid Hrow. destruct (validPlanName_spec planName Hvalid) as [Htruthy _].
  unfold billingUpgrade. rewrite Htruthy, Hvalid. cbn [negb orb].
  fold (upgradedContractor now planName).
  change (fun c0 : Contractor.t =>
            if Contractor.id c0 =? userId
            then Contractor.mk (Contractor.id c0) (Contractor.email c0)
                   (Contractor.username c0) (Contractor.companyName c0)
                   (textOf planName) (Some "active") (Some now)
                   (Some (now + 30 * 24 * 60 * 60 * 1000)) (Some now)
            else c0)
    with (fun c0 : Contractor.t =>
            if Contractor.id c0 =? userId then upgradedContractor now planName c0 else c0).
  rewrite (filter_patched (fun r => Contractor.id r =? userId)
             (upgradedContractor now planName) contractors (fun x => eq_refl)).
  destruct (find_filter_head _ _ _ Hrow) as [rest Hfilter]. rewrite Hfilter.
  reflexivity.
Qed.

Lemma contractorRow_patched (userId : Z) (patch : Contractor.t -> Contractor.t)
    (contractors : list Contractor.t) :
  (forall r, Contractor.id (patch r) = Contractor.id r) ->
  contractorRow userId
    (map (fun r => if Contractor.id r =? userId then patch r else r) contractors)
  = option_map patch (contractorRow userId contractors).
Proof.
  intros Hid. unfold contractorRow.
  apply (find_patched (fun r => Contractor.id r =? userId) patch).
  intros x. rewrite Hid. reflexivity.
Qed.



(** X21: an upgrade is refused without writing: a plan name that is not one of
    the three strings (or not a string) is answered 400, whether or not the
    database is up; a valid name is answered 500 when the update throws and
    when the authenticated user has no row. *)
Theorem billingUpgrade_refusals (fault : bool) (now userId : Z) (planName : JSValue)
    (contractors : list Contractor.t) :
  (validPlanName planName = false ->
   billingUpgrade fault now (Some userId) planName contractors
   = (400, BillingError "Invalid plan name", contractors))
  /\
  (validPlanName planName = true ->
   fault = true \/ contractorRow userId contractors = None ->
   billingUpgrade fault now (Some userId) planName contractors
   = (500, BillingError "Failed to upgrade plan", contractors)).
Proof.
  split.
  - intros Hinvalid. unfold billingUpgrade. rewrite Hinvalid.
    cbn [negb]. rewrite orb_true_r. reflexivity.
  - intros Hvalid Hwhy. destruct (validPlanName_spec planName Hvalid) as [Htruthy _].
    unfold billingUpgrade. rewrite Htruthy, Hvalid. cbn [negb orb].
    destruct fault; [reflexivity|].
    destruct Hwhy as [Hfault|Hnone]; [discriminate|].
    unfold contractorRow in Hnone.
    rewrite (find_none_unpatched (fun r => Contractor.id r =? userId) _ _ Hnone).
    rewrite (find_none_filter _ _ Hnone). reflexivity.
Qed.

Lemma billingUpgrade_refusals_witness :
  validPlanName (JStr "enterprise") = false /\
  validPlanName (JStr "pro") = true /\
  contractorRow 7 Fixtures.contractors = None /\
  billingUpgrade true Sample.today (Some 1) (JStr "enterprise") Fixtures.contractors
  = (400, BillingError "Invalid plan name", Fixtures.contractors) /\
  billingUpgrade false Sample.today (Some 7) (JStr "pro") Fixtures.contractors
  = (500, BillingError "Failed to upgrade plan", Fixtures.contractors).
Proof.
  split; [reflexivity|]. split; [reflexivity|]. split; [reflexivity|].
  destruct (billingUpgrade_refusals true Sample.today 1 (JStr "enterprise")
              Fixtures.contractors) as [Hinvalid _].
  destruct (billingUpgrade_refusals false Sample.today 7 (JStr "pro")
              Fixtures.contractors) as [_ Hmissing].
  split; [exact (Hinvalid eq_refl)|exact (Hmissing eq_refl (or_intror eq_refl))].
Defined.

(** X22: cancelling keeps the plan: after an upgrade, a cancellation marks the
    subscription "cancelled" and answers with the end of the paid period,
    which it does not move; the plan stays, so every feature check answers
    as it did before the cancellation. *)
Theorem cancellation_keeps_the_plan (now later userId : Z) (planName : JSValue)
    (contractors : list Contractor.t) (c : Contractor.t) (feature : string) :
  validPlanName planName = true ->
  contractorRow userId contractors = Some c ->
  let upgraded := snd (billingUpgrade false now (Some userId) planName contractors) in
  let out := billingCancel false later (Some userId) upgraded in
  fst out
  = (200, SubscriptionCancelled "Subscription cancelled successfully" userId
            (Some "cancelled") (Some (now + thirtyDays)))
  /\ exists row,
       contractorRow userId (snd out) = Some row
       /\ Contractor.subscriptionStatus row = Some "cancelled"
       /\ Contractor.plan row = textOf planName
       /\ Contractor.planEndDate row = Some (now + thirtyDays)
       /\ hasAccess feature (Contractor.plan row) = hasAccess feature (textOf planName).
Proof.
  intros Hvalid Hrow upgraded out. subst out upgraded.
  rewrite (billingUpgrade_run now userId planName contractors c Hvalid Hrow).
  cbn [snd].
  assert (Hid : Contractor.id c = userId).
  { unfold contractorRow in Hrow. apply find_some in Hrow. apply Z.eqb_eq. apply Hrow. }
  assert (Hrow1 : contractorRow userId
                    (map (fun r => if Contractor.id r =? userId
                                   then upgradedContractor now planName r else r)
                         contractors)
                  = Some (upgradedContractor now planName c))
    by (rewrite contractorRow_patched by (intros r; reflexivity);
        rewrite Hrow; reflexivity).
  unfold billingCancel.
  change (fun c0 : Contractor.t =>
            if Contractor.id c0 =? userId
            then Contractor.mk (Contractor.id c0) (Contractor.email c0)
                   (Contractor.username c0) (Contractor.companyName c0)
                   (Contractor.plan c0) (Some "cancelled")
                   (Contractor.planStartDate c0) (Contractor.planEndDate c0)
                   (Some later)
            else c0)
    with (fun c0 : Contractor.t =>
            if Contractor.id c0 =? userId then cancelledContractor later c0 else c0).
  rewrite (filter_patched (fun r => Contractor.id r =? userId)
             (cancelledContractor later) _ (fun x => eq_refl)).
  destruct (find_filter_head _ _ _ Hrow1) as [rest Hfilter]. rewrite Hfilter.
  cbn [map fst snd]. split; [cbn; rewrite Hid; reflexivity|].
  exists (cancelledContractor later (upgradedContractor now planName c)).
  split; [rewrite contractorRow_patched by (intros r; reflexivity);
          rewrite Hrow1; reflexivity|].
  repeat split; reflexivity.
Qed.

Lemma cancellation_keeps_the_plan_witness :
  validPlanName (JStr "business") = true /\
  contractorRow 1 Fixtures.contractors = Some Fixtures.contractor1 /\
  fst (billingCancel false (Sample.today + Sample.hour) (Some 1)
         (snd (billingUpgrade false Sample.today (Some 1) (JStr "business")
                 Fixtures.contractors)))
  = (200, SubscriptionCancelled "Subscription cancelled successfully" 1
            (Some "cancelled") (Some (Sample.today + thirtyDays))).
Proof.
  split; [reflexivity|]. split; [reflexivity|].
  destruct (cancellation_keeps_the_plan Sample.today (Sample.today + Sample.hour) 1
              (JStr "business") Fixtures.contractors Fixtures.contractor1
              "hasStripeIntegration" eq_refl eq_refl) as [Hout _].
  exact Hout.
Defined.

(** ** The checks of the job-cost analysis *)

Lemma invalidMaterial_spec (m : JSValue) :
  m <> JUndefined -> m <> JNull ->
  (invalidMaterial m = false <-> wellFormedMaterial m).
Proof.
  intros Hu Hn. unfold invalidMaterial, wellFormedMaterial.
  rewrite !orb_false_iff, !negb_false_iff. tauto.
Qed.

Lemma someInvalid_none_found (materials : list JSValue) :
  someInvalid materials = Some false <-> Forall wellFormedMaterial materials.
Proof.
  induction materials as [|m rest IH]; cbn [someInvalid].
  - split; [constructor|reflexivity].
  - split.
    + intros Hrun.
      assert (Hm : m <> JUndefined /\ m <> JNull)
        by (split; intros Heq; subst m; discriminate).
      destruct Hm as [Hu Hn].
      assert (Hrest : (if invalidMaterial m then Some true else someInvalid rest)
                      = Some false)
        by (destruct m; try discriminate; exact Hrun).
      destruct (invalidMaterial m) eqn:Hinvalid; [discriminate|].
      constructor; [apply invalidMaterial_spec; assumption|apply IH; exact Hrest].
    + intros Hall. inversion Hall as [|m' rest' Hm Hrest]; subst.
      pose proof Hm as [Hu [Hn _]].
      apply (invalidMaterial_spec m Hu Hn) in Hm. apply IH in Hrest.
      destruct m; try contradiction; rewrite Hm; exact Hrest.
Qed.

(** X23: the analysis is reached exactly when the body is truthy, names a
    service type, and carries a non-empty array of materials each of which
    is well formed. *)
Theorem job_cost_check_passes (params : JSValue) :
  checkJobCostParams params = Passed
  <-> truthy params = true
      /\ truthy (prop params "serviceType") = true
      /\ exists m rest,
           prop params "materials" = JArr (m :: rest)
           /\ Forall wellFormedMaterial (m :: rest).
Proof.
  unfold checkJobCostParams. split.
  - destruct (truthy params); [|discriminate].
    destruct (truthy (prop params "serviceType")); [|discriminate].
    cbn [negb].
    destruct (prop params "materials") as [| | | | |[|m rest]|]; try discriminate.
    destruct (someInvalid (m :: rest)) as [[|]|] eqn:Hsome; try discriminate.
    intros _. split; [reflexivity|]. split; [reflexivity|].
    exists m, rest. split; [reflexivity|]. apply someInvalid_none_found. exact Hsome.
  - intros [Hp [Hs [m [rest [Hm Hall]]]]]. rewrite Hp, Hs, Hm. cbn [negb].
    apply someInvalid_none_found in Hall. rewrite Hall. reflexivity.
Qed.

Lemma someInvalid_crashes (valid rest : list JSValue) (m : JSValue) :
  Forall wellFormedMaterial valid ->
  m = JNull \/ m = JUndefined ->
  someInvalid (valid ++ m :: rest) = None.
Proof.
  intros Hvalid Hm. induction Hvalid as [|x valid Hx Hvalid IH]; cbn [app someInvalid].
  - destruct Hm; subst m; reflexivity.
  - pose proof Hx as [Hu [Hn _]].
    apply (invalidMaterial_spec x Hu Hn) in Hx.
    destruct x; try contradiction; rewrite Hx; exact IH.
Qed.

(** X24: a [null] or [undefined] material that comes before any malformed one
    is not refused with 400: reading its name throws, and the route's
    [catch] answers 500. *)
Theorem job_cost_check_crashes (params m : JSValue) (valid rest : list JSValue) :
  truthy params = true ->
  truthy (prop params "serviceType") = true ->
  prop params "materials" = JArr (valid ++ m :: rest) ->
  Forall wellFormedMaterial valid ->
  m = JNull \/ m = JUndefined ->
  checkJobCostParams params = Crashed.
Proof.
  intros Hp Hs Hm Hvalid Hnull. unfold checkJobCostParams. rewrite Hp, Hs, Hm.
  cbn [negb].
  pose proof (someInvalid_crashes valid rest m Hvalid Hnull) as Hcrash.
  destruct (valid ++ m :: rest)%list as [|x l] eqn:Hlist.
  - destruct valid; discriminate.
  - rewrite Hcrash. reflexivity.
Qed.

Lemma job_cost_check_crashes_witness :
  truthy (JObj [("serviceType", JStr "fence"); ("materials", JArr [JNull])]) = true /\
  truthy (prop (JObj [("serviceType", JStr "fence"); ("materials", JArr [JNull])])
            "serviceType") = true /\
  prop (JObj [("serviceType", JStr "fence"); ("materials", JArr [JNull])]) "materials"
  = JArr ([] ++ JNull :: [])%list /\
  checkJobCostParams (JObj [("serviceType", JStr "fence"); ("materials", JArr [JNull])])
  = Crashed.
Proof.
  split; [reflexivity|]. split; [reflexivity|]. split; [reflexivity|].
  apply (job_cost_check_crashes
           (JObj [("serviceType", JStr "fence"); ("materials", JArr [JNull])])
           JNull [] [] eq_refl eq_refl eq_refl (Forall_nil _) (or_introl eq_refl)).
Defined.

(** ** The items of a new estimate *)

(** X25: a selected service that is [null] or [undefined] gives no item
    (reading its measurements throws).  For any other service the item's
    quantity is the text of a truthy value (the linear feet, else the
    square feet, else 1, and exactly 1 when both are falsy or there are no
    measurements), its unit price is the text of a number that is not NaN
    (the parsed labor rate, else 0), and its amount is the text of the
    labor cost or, when that is falsy, of the product of the quantity and
    the unit price. *)
Theorem service_item_numbers (js : Builtins) (service : JSValue) :
  (service = JNull \/ service = JUndefined -> selectedServiceItem js service = None)
  /\
  (service <> JNull -> service <> JUndefined ->
   exists quantity unitPrice amount,
     selectedServiceItem js service
     = Some (jsOr (prop service "professionalDescription") (prop service "name"),
             toStringJS js quantity,
             numberToString js unitPrice,
             toStringJS js amount,
             jsOr (prop service "notes") JNull)
     /\ truthy quantity = true
     /\ isNaN unitPrice = false
     /\ (truthy (optionalProp (prop service "measurements") "linearFeet") = true ->
         quantity = optionalProp (prop service "measurements") "linearFeet")
     /\ (truthy (optionalProp (prop service "measurements") "linearFeet") = false ->
         truthy (optionalProp (prop service "measurements") "squareFeet") = false ->
         quantity = JNum 1)
     /\ (truthy (JNum (parseFloat js (prop service "laborRate"))) = true ->
         unitPrice = parseFloat js (prop service "laborRate"))
     /\ (truthy (JNum (parseFloat js (prop service "laborRate"))) = false ->
         unitPrice = 0%float)
     /\ (truthy (prop service "laborCost") = true ->
         amount = prop service "laborCost")
     /\ (truthy (prop service "laborCost") = false ->
         amount = JNum (toNumberJS js quantity * unitPrice)%float)).
Proof.
  split.
  - intros [Hs|Hs]; subst service; reflexivity.
  - intros Hnull Hundefined.
    set (quantity :=
           jsOr (jsOr (optionalProp (prop service "measurements") "linearFeet")
                      (optionalProp (prop service "measurements") "squareFeet"))
                (JNum 1)).
    set (unitPrice :=
           match jsOr (JNum (parseFloat js (prop service "laborRate"))) (JNum 0) with
           | JNum x => x
           | _ => 0%float
           end).
    exists quantity, unitPrice,
      (jsOr (prop service "laborCost")
            (JNum (toNumberJS js quantity * unitPrice)%float)).
    split; [destruct service; try contradiction; reflexivity|].
    split.
    { subst quantity. unfold jsOr.
      destruct (truthy (optionalProp (prop service "measurements") "linearFeet")) eqn:Hl.
      - rewrite ?Hl. first [reflexivity|exact Hl].
      - destruct (truthy (optionalProp (prop service "measurements") "squareFeet")) eqn:Hf.
        + rewrite ?Hf. first [reflexivity|exact Hf].
        + reflexivity. }
    split.
    { subst unitPrice. unfold jsOr.
      destruct (truthy (JNum (parseFloat js (prop service "laborRate")))) eqn:Hrate;
        [|reflexivity].
      cbn [truthy] in Hrate. apply negb_true_iff, orb_false_iff in Hrate. apply Hrate. }
    split.
    { intros Hl. subst quantity. unfold jsOr. rewrite Hl, Hl. reflexivity. }
    split.
    { intros Hl Hf. subst quantity. unfold jsOr. rewrite Hl, Hf. reflexivity. }
    split.
    { intros Hrate. subst unitPrice. unfold jsOr. rewrite Hrate. reflexivity. }
    split.
    { intros Hrate. subst unitPrice. unfold jsOr. rewrite Hrate. reflexivity. }
    split.
    { intros Hcost. unfold jsOr. rewrite Hcost. reflexivity. }
    intros Hcost. unfold jsOr at 1. rewrite Hcost. reflexivity.
Qed.

Lemma service_item_numbers_witness :
  JObj [("name", JStr "Fence"); ("laborRate", JStr "12.5");
        ("measurements", JObj [("linearFeet", JNum 40)])] <> JNull /\
  JObj [("name", JStr "Fence"); ("laborRate", JStr "12.5");
        ("measurements", JObj [("linearFeet", JNum 40)])] <> JUndefined /\
  selectedServiceItem Node.builtins
    (JObj [("name", JStr "Fence"); ("laborRate", JStr "12.5");
           ("measurements", JObj [("linearFeet", JNum 40)])])
  = Some (JStr "Fence", "40", "12.5", "500", JNull) /\
  selectedServiceItem Node.builtins JNull = None.
Proof.
  split; [discriminate|]. split; [discriminate|].
  destruct (service_item_numbers Node.builtins
              (JObj [("name", JStr "Fence"); ("laborRate", JStr "12.5");
                     ("measurements", JObj [("linearFeet", JNum 40)])]))
    as [_ Hitem].
  destruct (service_item_numbers Node.builtins JNull) as [Hnone _].
  split; [|exact (Hnone (or_introl eq_refl))].
  destruct (Hitem ltac:(discriminate) ltac:(discriminate))
    as [quantity [unitPrice [amount
         [Hrun [_ [_ [Hquantity [_ [Hprice [_ [_ Hamount]]]]]]]]]]].
  rewrite Hrun, (Hamount eq_refl), (Hquantity eq_refl),
    (Hprice ltac:(vm_compute; reflexivity)).
  vm_compute. reflexivity.
Defined.

(** ** The request log *)

(** X26: a logged line has at most 80 code units.  A line of up to 80 code
    units is logged as it is; a longer one is cut to its first 79 code
    units and an ellipsis.  Clipping a clipped line changes nothing. *)
Theorem request_log_line_is_clipped (summary : list N) (json : option (list N)) :
  let full := fullLogLine summary json in
  let line := requestLogLine summary json in
  (List.length line <= 80)%nat
  /\ firstn 79 line = firstn 79 full
  /\ ((List.length full <= 80)%nat -> line = full)
  /\ ((80 < List.length full)%nat ->
      line = (firstn 79 full ++ [ellipsis])%list /\ List.length line = 80%nat)
  /\ requestLogLine line None = line.
Proof.
  intros full line.
  assert (Hline : line = if (80 <? Z.of_nat (List.length full))
                         then (firstn 79 full ++ [ellipsis])%list else full).
  { subst line full. unfold requestLogLine, fullLogLine. destruct json; reflexivity. }
  assert (Hcut : (80 < List.length full)%nat ->
                 List.length (firstn 79 full ++ [ellipsis])%list = 80%nat).
  { intros Hlong. rewrite length_app, length_firstn. cbn [List.length]. lia. }
  destruct (Z.ltb_spec 80 (Z.of_nat (List.length full))) as [Hlong|Hshort].
  - assert (Hlong' : (80 < List.length full)%nat) by lia.
    rewrite Hline. split; [rewrite Hcut by exact Hlong'; lia|].
    split.
    + rewrite firstn_app, firstn_firstn, length_firstn.
      replace (79 - Nat.min 79 (List.length full))%nat with 0%nat by lia.
      replace (Nat.min 79 79) with 79%nat by reflexivity.
      cbn [firstn]. apply app_nil_r.
    + split; [intros Hfits; lia|].
      split; [intros _; split; [reflexivity|apply Hcut; exact Hlong']|].
      unfold requestLogLine. rewrite Hcut by exact Hlong'. reflexivity.
  - assert (Hshort' : (List.length full <= 80)%nat) by lia.
    rewrite Hline. split; [exact Hshort'|]. split; [reflexivity|].
    split; [intros _; reflexivity|]. split; [intros Hlong; lia|].
    unfold requestLogLine.
    destruct (Z.ltb_spec 80 (Z.of_nat (List.length full))) as [Hlong|_]; [lia|].
    reflexivity.
Qed.

(** ** One payment after another *)

(** The invoices a recorded payment leaves: the addressed row carries the
    payment, and the project step may have linked it to a project. *)
Lemma recordPayment_invoices (js : Builtins) (faults : nat -> bool) (now : Z)
    (uid invoiceId : Z) (amount paymentMethod notes : JSValue) (d : DB)
    (invoice : Invoice.t) :
  faults 0%nat = false ->
  faults 1%nat = false ->
  amountRejected js amount = false ->
  storage.getInvoice invoiceId uid d = Some invoice ->
  (totalOf js invoice <? paidAfter js invoice amount)%float = false ->
  let d' :=
    snd (serve (recordPayment js faults now uid invoiceId amount paymentMethod notes) d) in
  invoices d' = paidRows js uid invoiceId invoice amount d
  \/ exists p,
       invoices d'
       = map (fun i => if storage.isInvoice invoiceId uid i
                       then Invoice.with_projectId p i else i)
             (paidRows js uid invoiceId invoice amount d).
Proof.
  intros H0 H1 Hamount Hinv Hfits d'. subst d'.
  destruct (0 <? paidAfter js invoice amount)%float eqn:Hpositive.
  - rewrite (recordPayment_then_project js faults now uid invoiceId amount
               paymentMethod notes d invoice H0 H1 Hamount Hinv Hfits Hpositive).
    destruct (autoUpdateProject_keeps_invoices js faults now uid invoiceId invoice
                (mkWorld (with_invoices (paidRows js uid invoiceId invoice amount d) d) 2))
      as [u [w' [Hrun Hkept]]].
    rewrite Hrun. cbn [snd]. cbn [db invoices with_invoices] in Hkept. exact Hkept.
  - left.
    unfold amountRejected in Hamount.
    unfold paidRows, paymentPatch, statusAfter, totalOf, paidAfter, paidSoFar in *.
    unfold recordPayment, serve, tryCatch. rewrite Hamount.
    rewrite run_query by exact H0. cbn [db calls]. rewrite Hinv. cbv zeta.
    rewrite Hfits. rewrite run_call by exact H1.
    cbn [db calls fst snd storage.updateInvoice]. rewrite Hinv, Hpositive.
    cbn [option_map]. unfold bind at 1, ret. reflexivity.
Qed.

(** X5: payments add up: the amount paid is written as text and read back by
    the next payment, so after a first payment that is recorded, a second
    one that still fits the total is recorded on top of it, provided the
    runtime reads back the number it printed. *)
Theorem payments_accumulate (js : Builtins) (faults later : nat -> bool)
    (now now' uid invoiceId : Z) (first second paymentMethod notes : JSValue)
    (d : DB) (invoice : Invoice.t) :
  faults 0%nat = false ->
  faults 1%nat = false ->
  later 0%nat = false ->
  later 1%nat = false ->
  amountRejected js first = false ->
  amountRejected js second = false ->
  storage.getInvoice invoiceId uid d = Some invoice ->
  let paid := paidAfter js invoice first in
  (totalOf js invoice <? paid)%float = false ->
  numberToString js paid <> "" ->
  parseFloatStr js (numberToString js paid) = paid ->
  (totalOf js invoice <? paid + parseFloat js second)%float = false ->
  let d1 :=
    snd (serve (recordPayment js faults now uid invoiceId first paymentMethod notes) d) in
  exists receipt d2 invoice2,
    serve (recordPayment js later now' uid invoiceId second paymentMethod notes) d1
    = (Some (json 200 (ReceiptJson receipt)), d2)
    /\ totals_currentAmountPaid receipt = (paid + parseFloat js second)%float
    /\ storage.getInvoice invoiceId uid d2 = Some invoice2
    /\ Invoice.amountPaid invoice2
       = Some (numberToString js (paid + parseFloat js second)%float).
Proof.
  intros H0 H1 L0 L1 Hfirst Hsecond Hinv paid Hfits Hprinted Hread Hfits2 d1.
  assert (Hrow : exists invoice1,
             storage.getInvoice invoiceId uid d1 = Some invoice1
             /\ Invoice.amountPaid invoice1 = Some (numberToString js paid)
             /\ Invoice.total invoice1 = Invoice.total invoice).
  { destruct (recordPayment_invoices js faults now uid invoiceId first paymentMethod
                notes d invoice H0 H1 Hfirst Hinv Hfits) as [Hrows|[p Hrows]];
      fold d1 in Hrows; unfold storage.getInvoice; rewrite Hrows; unfold paidRows.
    - rewrite find_patched by (intros x; reflexivity).
      unfold storage.getInvoice in Hinv. rewrite Hinv. cbn [option_map].
      eexists. split; [reflexivity|]. split; reflexivity.
    - rewrite find_patched by (intros x; reflexivity).
      rewrite find_patched by (intros x; reflexivity).
      unfold storage.getInvoice in Hinv. rewrite Hinv. cbn [option_map].
      eexists. split; [reflexivity|]. split; reflexivity. }
  destruct Hrow as [invoice1 [Hinv1 [Hpaid1 Htotal1]]].
  assert (Hsofar : paidSoFar js invoice1 = paid).
  { unfold paidSoFar. rewrite Hpaid1. cbn [textOr].
    rewrite (string_eqb_false _ _ Hprinted). exact Hread. }
  assert (Hafter : paidAfter js invoice1 second = (paid + parseFloat js second)%float)
    by (unfold paidAfter; rewrite Hsofar; reflexivity).
  assert (Htotal : totalOf js invoice1 = totalOf js invoice)
    by (unfold totalOf; rewrite Htotal1; reflexivity).
  assert (Hfits1 : (totalOf js invoice1 <? paidAfter js invoice1 second)%float = false)
    by (rewrite Htotal, Hafter; exact Hfits2).
  assert (Hrun : exists receipt d2,
             serve (recordPayment js later now' uid invoiceId second paymentMethod notes) d1
             = (Some (json 200 (ReceiptJson receipt)), d2)
             /\ totals_currentAmountPaid receipt = paidAfter js invoice1 second).
  { unfold amountRejected in Hsecond.
    unfold totalOf, paidAfter, paidSoFar in Hfits1 |- *.
    unfold recordPayment, serve, tryCatch. rewrite Hsecond.
    rewrite run_query by exact L0. cbn [db calls]. rewrite Hinv1. cbv zeta.
    rewrite Hfits1. rewrite run_call by exact L1.
    cbn [db calls fst snd]. unfold bind at 1.
    match goal with
    | |- context [if ?positive then autoUpdateProject js later now' uid invoiceId invoice1
                  else ret noProjectUpdate] =>
        destruct positive
    end.
    - match goal with
      | |- context [autoUpdateProject js later now' uid invoiceId invoice1 ?w] =>
          destruct (autoUpdateProject_keeps_invoices js later now' uid invoiceId
                      invoice1 w) as [u [w' [Hstep _]]]
      end.
      rewrite Hstep. unfold ret. eexists. eexists. split; reflexivity.
    - unfold ret. eexists. eexists. split; reflexivity. }
  destruct Hrun as [receipt [d2 [Hrun Htotals]]].
  destruct (recordPayment_recorded js later now' uid invoiceId second paymentMethod
              notes d1 invoice1 L0 L1 Hsecond Hinv1 Hfits1)
    as [receipt' [d2' [invoice2 [Hrun' [Hinv2 [Hpaid2 _]]]]]].
  rewrite Hrun in Hrun'. injection Hrun' as Hreceipt Hd2. subst d2'.
  exists receipt, d2, invoice2. split; [exact Hrun|].
  split; [rewrite Htotals; exact Hafter|]. split; [exact Hinv2|].
  rewrite Hpaid2, Hafter. reflexivity.
Qed.

Lemma payments_accumulate_witness :
  healthy 0%nat = false /\
  healthy 1%nat = false /\
  amountRejected Node.builtins (JStr "50") = false /\
  amountRejected Node.builtins (JNum 150) = false /\
  storage.getInvoice 43 1 Sample.data = Some Sample.invoice43 /\
  (totalOf Node.builtins Sample.invoice43
   <? paidAfter Node.builtins Sample.invoice43 (JStr "50"))%float = false /\
  numberToString Node.builtins (paidAfter Node.builtins Sample.invoice43 (JStr "50"))
  <> "" /\
  parseFloatStr Node.builtins
    (numberToString Node.builtins (paidAfter Node.builtins Sample.invoice43 (JStr "50")))
  = paidAfter Node.builtins Sample.invoice43 (JStr "50") /\
  (totalOf Node.builtins Sample.invoice43
   <? paidAfter Node.builtins Sample.invoice43 (JStr "50")
      + parseFloat Node.builtins (JNum 150))%float = false /\
  exists receipt d2 invoice2,
    serve (recordPayment Node.builtins healthy (Sample.today + Sample.hour) 1 43
             (JNum 150) JUndefined JUndefined)
      (snd (serve (recordPayment Node.builtins healthy Sample.today 1 43 (JStr "50")
                     JUndefined JUndefined) Sample.data))
    = (Some (json 200 (ReceiptJson receipt)), d2)
    /\ storage.getInvoice 43 1 d2 = Some invoice2
    /\ Invoice.amountPaid invoice2 = Some "200".
Proof.
  assert (Hprinted : numberToString Node.builtins
                       (paidAfter Node.builtins Sample.invoice43 (JStr "50")) <> "")
    by (vm_compute; discriminate).
  split; [reflexivity|]. split; [reflexivity|].
  split; [vm_compute; reflexivity|]. split; [vm_compute; reflexivity|].
  split; [reflexivity|]. split; [vm_compute; reflexivity|].
  split; [exact Hprinted|]. split; [vm_compute; reflexivity|].
  split; [vm_compute; reflexivity|].
  destruct (payments_accumulate Node.builtins healthy healthy Sample.today
              (Sample.today + Sample.hour) 1 43 (JStr "50") (JNum 150)
              JUndefined JUndefined Sample.data Sample.invoice43
              eq_refl eq_refl eq_refl eq_refl
              ltac:(vm_compute; reflexivity) ltac:(vm_compute; reflexivity) eq_refl
              ltac:(vm_compute; reflexivity) Hprinted
              ltac:(vm_compute; reflexivity) ltac:(vm_compute; reflexivity))
    as [receipt [d2 [invoice2 [Hrun [_ [Hrow Hpaid]]]]]].
  exists receipt, d2, invoice2. split; [exact Hrun|]. split; [exact Hrow|].
  rewrite Hpaid. vm_compute. reflexivity.
Defined.

(** ** The lookups of the assignment route *)

Lemma assignEstimate_hides_foreign_rows_witness :
  healthy 0%nat = false /\
  healthy 1%nat = false /\
  requestedEstimate 1 (mkAssign 32 50 Sample.today None) Sample.data = None /\
  storage.getEstimate 32 2 Sample.data = Some Sample.estimate32 /\
  exists message,
    serve (assignEstimate healthy 1 (mkAssign 32 50 Sample.today None)) Sample.data
    = (Some (json 404 (Message message)), Sample.data).
Proof.
  split; [reflexivity|]. split; [reflexivity|]. split; [reflexivity|].
  split; [reflexivity|].
  exact (assignEstimate_hides_foreign_rows healthy 1 (mkAssign 32 50 Sample.today None)
           Sample.data eq_refl eq_refl (or_introl eq_refl)).
Defined.

(** ** Health monitoring *)

Lemma last_of_nonempty {A} (l : list A) (x d d' : A) :
  last (x :: l) d = last (x :: l) d'.
Proof.
  revert x. induction l as [|y l IH]; intros x; [reflexivity|].
  change (last (y :: l) d = last (y :: l) d'). apply IH.
Qed.

Lemma last_after_first {A} (l : list A) (a b d d' : A) :
  last (b :: l) d = last (a :: b :: l) d'.
Proof. change (last (b :: l) d = last (b :: l) d'). apply last_of_nonempty. Qed.

(** X27: over any run of checks and of errors that pass through the
    error middleware, starting from any value of [dbHealthy]: the messages
    written tell the truth about the variable (a recovery is reported only
    while it is false, a failure only while it is true, and an error of the
    connection sets it to false), so two failures are never reported
    without a recovery between them, whereas two recoveries may be, with
    an error of the connection between them; while only checks happen,
    failures and recoveries alternate and the variable ends as the last
    check found the database.  There are at most as many messages as
    events.  The endpoint answers 200 exactly when the database is
    reachable, whatever the variable was, and the status the error
    middleware answers with is truthy, 500 when the error carries none. *)
Theorem health_log_is_truthful (events : list ServerEvent) (dbHealthy : bool)
    (now : Z) (reachable : bool) (path : string) (err : ServerError) :
  truthful dbHealthy (fst (monitor events dbHealthy))
  /\ (List.length (fst (monitor events dbHealthy)) <= List.length events)%nat
  /\ (forallb isProbe events = true ->
      alternates dbHealthy (fst (monitor events dbHealthy))
      /\ snd (monitor events dbHealthy)
         = last (map (fun event => match event with
                                   | HealthProbe found => found
                                   | RequestError _ _ => false
                                   end) events) dbHealthy)
  /\ fst (fst (fst (healthCheck now reachable dbHealthy)))
     = (if reachable then 200 else 503)
  /\ snd (healthCheck now reachable dbHealthy) = reachable
  /\ truthy (fst (fst (fst (errorMiddleware path err dbHealthy)))) = true
  /\ (truthy (errStatus err) = false -> truthy (errStatusCode err) = false ->
      fst (fst (fst (errorMiddleware path err dbHealthy))) = JNum 500)
  /\ (connectionTrouble err = true ->
      snd (errorMiddleware path err dbHealthy) = false)
  /\ (connectionTrouble err = false ->
      snd (errorMiddleware path err dbHealthy) = dbHealthy).
Proof.
  split; [|split; [|split; [|split; [|split; [|split; [|split; [|split]]]]]]].
  - revert dbHealthy. induction events as [|event rest IH]; intros flag; [exact I|].
    cbn [monitor]. destruct event as [found|url error].
    + destruct found, flag; cbn [checkDatabaseHealth negb];
        match goal with
        | |- context [monitor rest ?f] =>
            specialize (IH f); destruct (monitor rest f) as [later final]
        end; cbn [fst app truthful] in *; try exact IH;
        (split; [reflexivity|exact IH]).
    + unfold errorMiddleware. destruct (connectionTrouble error);
        match goal with
        | |- context [monitor rest ?f] =>
            specialize (IH f); destruct (monitor rest f) as [later final]
        end; cbn [fst app truthful] in *; exact IH.
  - revert dbHealthy. induction events as [|event rest IH]; intros flag; [apply le_n|].
    cbn [monitor]. destruct event as [found|url error].
    + destruct found, flag; cbn [checkDatabaseHealth negb];
        match goal with
        | |- context [monitor rest ?f] =>
            specialize (IH f); destruct (monitor rest f) as [later final]
        end; cbn [fst app List.length] in *; lia.
    + unfold errorMiddleware. destruct (connectionTrouble error);
        match goal with
        | |- context [monitor rest ?f] =>
            specialize (IH f); destruct (monitor rest f) as [later final]
        end; cbn [fst app List.length] in *; lia.
  - revert dbHealthy. induction events as [|event rest IH]; intros flag Hprobes;
      [split; [exact I|reflexivity]|].
    cbn [forallb] in Hprobes. apply andb_true_iff in Hprobes.
    destruct Hprobes as [Hprobe Hprobes].
    destruct event as [found|url error]; [|discriminate].
    cbn [monitor map].
    destruct found, flag; cbn [checkDatabaseHealth negb];
      match goal with
      | |- context [monitor rest ?f] =>
          destruct (IH f Hprobes) as [Halt Hlast];
            destruct (monitor rest f) as [later final]
      end; cbn [fst snd app alternates negb] in *;
      (split; [first [exact Halt|split; [reflexivity|exact Halt]]|]);
      rewrite Hlast; destruct rest as [|next rest]; try reflexivity;
      cbn [map]; apply last_after_first.
  - destruct reachable, dbHealthy; reflexivity.
  - destruct reachable, dbHealthy; reflexivity.
  - unfold errorMiddleware, jsOr.
    destruct (connectionTrouble err); cbn [fst];
      destruct (truthy (errStatus err)) eqn:Hs; rewrite ?Hs; try reflexivity;
      destruct (truthy (errStatusCode err)) eqn:Hc; rewrite ?Hc; try reflexivity;
      first [exact Hs|exact Hc].
  - intros Hs Hc. unfold errorMiddleware, jsOr.
    destruct (connectionTrouble err); cbn [fst]; rewrite Hs, Hc; reflexivity.
  - intros Htrouble. unfold errorMiddleware. rewrite Htrouble. reflexivity.
  - intros Hfine. unfold errorMiddleware. rewrite Hfine. reflexivity.
Qed.
